(** * Job-Crawler configuration API ([src/api/app.py])

    A shallow embedding of the Flask handlers of [src/api/app.py] and the
    properties of them that the specification states.

    Layout:
    - [Unicode]  : the tables [str.lower] reads;
    - [PyStr]    : the Python string operations the handlers use
                   ([strip], [lower], [in], [split('@')[0]]);
    - [Said]     : what the specification's words about strings say;
    - [Payload]  : the JSON body of [POST /api/config] and the keyword
                   arguments built from it;
    - [Api]      : the handlers, over an arbitrary profile manager, in a
                   state-and-exception monad;
    - [Store]    : a profile table as a finite map keyed by email;
    - [Trace]    : any profile manager with its calls recorded;
    - [Samples]  : requests and worlds to run the handlers on;
    - the facts about each of these, then the properties C1 to C10 and
      the handlers run on the samples;
    - further properties of the update data, of the handlers and of the
      calls they make, X1 to X16.

    A [str] that the handlers inspect or store (an email, a location, a
    title) is the list of its code points, and [strip] and [lower] follow
    Python's tables over all of Unicode; the fixed messages, the text of
    an exception and the lines of the log, which the handlers only pass
    on, are plain strings. *)

From Stdlib Require Import ZArith Ascii String.
From stdpp Require Import base option list strings gmap fin_maps.

Local Open Scope string_scope.
Local Open Scope list_scope.
Local Open Scope Z_scope.

(* ===================================================================== *)
(** ** Python strings                                                     *)
(* ===================================================================== *)

(** The tables of the Unicode Character Database (version 14.0) that
    [str.lower] reads: the lowercase mapping of every code point that has
    one of a single code point, and the code points that are cased and
    those that are case-ignorable, as ranges. *)
Module Unicode.
Local Open Scope N_scope.

Definition lowercase : list (N * N) :=
  [
   (65,97); (66,98); (67,99); (68,100); (69,101); (70,102); (71,103);
   (72,104); (73,105); (74,106); (75,107); (76,108); (77,109); (78,110);
   (79,111); (80,112); (81,113); (82,114); (83,115); (84,116); (85,117);
   (86,118); (87,119); (88,120); (89,121); (90,122); (192,224); (193,225);
   (194,226); (195,227); (196,228); (197,229); (198,230); (199,231);
   (200,232); (201,233); (202,234); (203,235); (204,236); (205,237);
   (206,238); (207,239); (208,240); (209,241); (210,242); (211,243);
   (212,244); (213,245); (214,246); (216,248); (217,249); (218,250);
   (219,251); (220,252); (221,253); (222,254); (256,257); (258,259);
   (260,261); (262,263); (264,265); (266,267); (268,269); (270,271);
   (272,273); (274,275); (276,277); (278,279); (280,281); (282,283);
   (284,285); (286,287); (288,289); (290,291); (292,293); (294,295);
   (296,297); (298,299); (300,301); (302,303); (306,307); (308,309);
   (310,311); (313,314); (315,316); (317,318); (319,320); (321,322);
   (323,324); (325,326); (327,328); (330,331); (332,333); (334,335);
   (336,337); (338,339); (340,341); (342,343); (344,345); (346,347);
   (348,349); (350,351); (352,353); (354,355); (356,357); (358,359);
   (360,361); (362,363); (364,365); (366,367); (368,369); (370,371);
   (372,373); (374,375); (376,255); (377,378); (379,380); (381,382);
   (385,595); (386,387); (388,389); (390,596); (391,392); (393,598);
   (394,599); (395,396); (398,477); (399,601); (400,603); (401,402);
   (403,608); (404,611); (406,617); (407,616); (408,409); (412,623);
   (413,626); (415,629); (416,417); (418,419); (420,421); (422,640);
   (423,424); (425,643); (428,429); (430,648); (431,432); (433,650);
   (434,651); (435,436); (437,438); (439,658); (440,441); (444,445);
   (452,454); (453,454); (455,457); (456,457); (458,460); (459,460);
   (461,462); (463,464); (465,466); (467,468); (469,470); (471,472);
   (473,474); (475,476); (478,479); (480,481); (482,483); (484,485);
   (486,487); (488,489); (490,491); (492,493); (494,495); (497,499);
   (498,499); (500,501); (502,405); (503,447); (504,505); (506,507);
   (508,509); (510,511); (512,513); (514,515); (516,517); (518,519);
   (520,521); (522,523); (524,525); (526,527); (528,529); (530,531);
   (532,533); (534,535); (536,537); (538,539); (540,541); (542,543);
   (544,414); (546,547); (548,549); (550,551); (552,553); (554,555);
   (556,557); (558,559); (560,561); (562,563); (570,11365); (571,572);
   (573,410); (574,11366); (577,578); (579,384); (580,649); (581,652);
   (582,583); (584,585); (586,587); (588,589); (590,591); (880,881);
   (882,883); (886,887); (895,1011); (902,940); (904,941); (905,942);
   (906,943); (908,972); (910,973); (911,974); (913,945); (914,946);
   (915,947); (916,948); (917,949); (918,950); (919,951); (920,952);
   (921,953); (922,954); (923,955); (924,956); (925,957); (926,958);
   (927,959); (928,960); (929,961); (931,963); (932,964); (933,965);
   (934,966); (935,967); (936,968); (937,969); (938,970); (939,971);
   (975,983); (984,985); (986,987); (988,989); (990,991); (992,993);
   (994,995); (996,997); (998,999); (1000,1001); (1002,1003); (1004,1005);
   (1006,1007); (1012,952); (1015,1016); (1017,1010); (1018,1019);
   (1021,891); (1022,892); (1023,893); (1024,1104); (1025,1105); (1026,1106);
   (1027,1107); (1028,1108); (1029,1109); (1030,1110); (1031,1111);
   (1032,1112); (1033,1113); (1034,1114); (1035,1115); (1036,1116);
   (1037,1117); (1038,1118); (1039,1119); (1040,1072); (1041,1073);
   (1042,1074); (1043,1075); (1044,1076); (1045,1077); (1046,1078);
   (1047,1079); (1048,1080); (1049,1081); (1050,1082); (1051,1083);
   (1052,1084); (1053,1085); (1054,1086); (1055,1087); (1056,1088);
   (1057,1089); (1058,1090); (1059,1091); (1060,1092); (1061,1093);
   (1062,1094); (1063,1095); (1064,1096); (1065,1097); (1066,1098);
   (1067,1099); (1068,1100); (1069,1101); (1070,1102); (1071,1103);
   (1120,1121); (1122,1123); (1124,1125); (1126,1127); (1128,1129);
   (1130,1131); (1132,1133); (1134,1135); (1136,1137); (1138,1139);
   (1140,1141); (1142,1143); (1144,1145); (1146,1147); (1148,1149);
   (1150,1151); (1152,1153); (1162,1163); (1164,1165); (1166,1167);
   (1168,1169); (1170,1171); (1172,1173); (1174,1175); (1176,1177);
   (1178,1179); (1180,1181); (1182,1183); (1184,1185); (1186,1187);
   (1188,1189); (1190,1191); (1192,1193); (1194,1195); (1196,1197);
   (1198,1199); (1200,1201); (1202,1203); (1204,1205); (1206,1207);
   (1208,1209); (1210,1211); (1212,1213); (1214,1215); (1216,1231);
   (1217,1218); (1219,1220); (1221,1222); (1223,1224); (1225,1226);
   (1227,1228); (1229,1230); (1232,1233); (1234,1235); (1236,1237);
   (1238,1239); (1240,1241); (1242,1243); (1244,1245); (1246,1247);
   (1248,1249); (1250,1251); (1252,1253); (1254,1255); (1256,1257);
   (1258,1259); (1260,1261); (1262,1263); (1264,1265); (1266,1267);
   (1268,1269); (1270,1271); (1272,1273); (1274,1275); (1276,1277);
   (1278,1279); (1280,1281); (1282,1283); (1284,1285); (1286,1287);
   (1288,1289); (1290,1291); (1292,1293); (1294,1295); (1296,1297);
   (1298,1299); (1300,1301); (1302,1303); (1304,1305); (1306,1307);
   (1308,1309); (1310,1311); (1312,1313); (1314,1315); (1316,1317);
   (1318,1319); (1320,1321); (1322,1323); (1324,1325); (1326,1327);
   (1329,1377); (1330,1378); (1331,1379); (1332,1380); (1333,1381);
   (1334,1382); (1335,1383); (1336,1384); (1337,1385); (1338,1386);
   (1339,1387); (1340,1388); (1341,1389); (1342,1390); (1343,1391);
   (1344,1392); (1345,1393); (1346,1394); (1347,1395); (1348,1396);
   (1349,1397); (1350,1398); (1351,1399); (1352,1400); (1353,1401);
   (1354,1402); (1355,1403); (1356,1404); (1357,1405); (1358,1406);
   (1359,1407); (1360,1408); (1361,1409); (1362,1410); (1363,1411);
   (1364,1412); (1365,1413); (1366,1414); (4256,11520); (4257,11521);
   (4258,11522); (4259,11523); (4260,11524); (4261,11525); (4262,11526);
   (4263,11527); (4264,11528); (4265,11529); (4266,11530); (4267,11531);
   (4268,11532); (4269,11533); (4270,11534); (4271,11535); (4272,11536);
   (4273,11537); (4274,11538); (4275,11539); (4276,11540); (4277,11541);
   (4278,11542); (4279,11543); (4280,11544); (4281,11545); (4282,11546);
   (4283,11547); (4284,11548); (4285,11549); (4286,11550); (4287,11551);
   (4288,11552); (4289,11553); (4290,11554); (4291,11555); (4292,11556);
   (4293,11557); (4295,11559); (4301,11565); (5024,43888); (5025,43889);
   (5026,43890); (5027,43891); (5028,43892); (5029,43893); (5030,43894);
   (5031,43895); (5032,43896); (5033,43897); (5034,43898); (5035,43899);
   (5036,43900); (5037,43901); (5038,43902); (5039,43903); (5040,43904);
   (5041,43905); (5042,43906); (5043,43907); (5044,43908); (5045,43909);
   (5046,43910); (5047,43911); (5048,43912); (5049,43913); (5050,43914);
   (5051,43915); (5052,43916); (5053,43917); (5054,43918); (5055,43919);
   (5056,43920); (5057,43921); (5058,43922); (5059,43923); (5060,43924);
   (5061,43925); (5062,43926); (5063,43927); (5064,43928); (5065,43929);
   (5066,43930); (5067,43931); (5068,43932); (5069,43933); (5070,43934);
   (5071,43935); (5072,43936); (5073,43937); (5074,43938); (5075,43939);
   (5076,43940); (5077,43941); (5078,43942); (5079,43943); (5080,43944);
   (5081,43945); (5082,43946); (5083,43947); (5084,43948); (5085,43949);
   (5086,43950); (5087,43951); (5088,43952); (5089,43953); (5090,43954);
   (5091,43955); (5092,43956); (5093,43957); (5094,43958); (5095,43959);
   (5096,43960); (5097,43961); (5098,43962); (5099,43963); (5100,43964);
   (5101,43965); (5102,43966); (5103,43967); (5104,5112); (5105,5113);
   (5106,5114); (5107,5115); (5108,5116); (5109,5117); (7312,4304);
   (7313,4305); (7314,4306); (7315,4307); (7316,4308); (7317,4309);
   (7318,4310); (7319,4311); (7320,4312); (7321,4313); (7322,4314);
   (7323,4315); (7324,4316); (7325,4317); (7326,4318); (7327,4319);
   (7328,4320); (7329,4321); (7330,4322); (7331,4323); (7332,4324);
   (7333,4325); (7334,4326); (7335,4327); (7336,4328); (7337,4329);
   (7338,4330); (7339,4331); (7340,4332); (7341,4333); (7342,4334);
   (7343,4335); (7344,4336); (7345,4337); (7346,4338); (7347,4339);
   (7348,4340); (7349,4341); (7350,4342); (7351,4343); (7352,4344);
   (7353,4345); (7354,4346); (7357,4349); (7358,4350); (7359,4351);
   (7680,7681); (7682,7683); (7684,7685); (7686,7687); (7688,7689);
   (7690,7691); (7692,7693); (7694,7695); (7696,7697); (7698,7699);
   (7700,7701); (7702,7703); (7704,7705); (7706,7707); (7708,7709);
   (7710,7711); (7712,7713); (7714,7715); (7716,7717); (7718,7719);
   (7720,7721); (7722,7723); (7724,7725); (7726,7727); (7728,7729);
   (7730,7731); (7732,7733); (7734,7735); (7736,7737); (7738,7739);
   (7740,7741); (7742,7743); (7744,7745); (7746,7747); (7748,7749);
   (7750,7751); (7752,7753); (7754,7755); (7756,7757); (7758,7759);
   (7760,7761); (7762,7763); (7764,7765); (7766,7767); (7768,7769);
   (7770,7771); (7772,7773); (7774,7775); (7776,7777); (7778,7779);
   (7780,7781); (7782,7783); (7784,7785); (7786,7787); (7788,7789);
   (7790,7791); (7792,7793); (7794,7795); (7796,7797); (7798,7799);
   (7800,7801); (7802,7803); (7804,7805); (7806,7807); (7808,7809);
   (7810,7811); (7812,7813); (7814,7815); (7816,7817); (7818,7819);
   (7820,7821); (7822,7823); (7824,7825); (7826,7827); (7828,7829);
   (7838,223); (7840,7841); (7842,7843); (7844,7845); (7846,7847);
   (7848,7849); (7850,7851); (7852,7853); (7854,7855); (7856,7857);
   (7858,7859); (7860,7861); (7862,7863); (7864,7865); (7866,7867);
   (7868,7869); (7870,7871); (7872,7873); (7874,7875); (7876,7877);
   (7878,7879); (7880,7881); (7882,7883); (7884,7885); (7886,7887);
   (7888,7889); (7890,7891); (7892,7893); (7894,7895); (7896,7897);
   (7898,7899); (7900,7901); (7902,7903); (7904,7905); (7906,7907);
   (7908,7909); (7910,7911); (7912,7913); (7914,7915); (7916,7917);
   (7918,7919); (7920,7921); (7922,7923); (7924,7925); (7926,7927);
   (7928,7929); (7930,7931); (7932,7933); (7934,7935); (7944,7936);
   (7945,7937); (7946,7938); (7947,7939); (7948,7940); (7949,7941);
   (7950,7942); (7951,7943); (7960,7952); (7961,7953); (7962,7954);
   (7963,7955); (7964,7956); (7965,7957); (7976,7968); (7977,7969);
   (7978,7970); (7979,7971); (7980,7972); (7981,7973); (7982,7974);
   (7983,7975); (7992,7984); (7993,7985); (7994,7986); (7995,7987);
   (7996,7988); (7997,7989); (7998,7990); (7999,7991); (8008,8000);
   (8009,8001); (8010,8002); (8011,8003); (8012,8004); (8013,8005);
   (8025,8017); (8027,8019); (8029,8021); (8031,8023); (8040,8032);
   (8041,8033); (8042,8034); (8043,8035); (8044,8036); (8045,8037);
   (8046,8038); (8047,8039); (8072,8064); (8073,8065); (8074,8066);
   (8075,8067); (8076,8068); (8077,8069); (8078,8070); (8079,8071);
   (8088,8080); (8089,8081); (8090,8082); (8091,8083); (8092,8084);
   (8093,8085); (8094,8086); (8095,8087); (8104,8096); (8105,8097);
   (8106,8098); (8107,8099); (8108,8100); (8109,8101); (8110,8102);
   (8111,8103); (8120,8112); (8121,8113); (8122,8048); (8123,8049);
   (8124,8115); (8136,8050); (8137,8051); (8138,8052); (8139,8053);
   (8140,8131); (8152,8144); (8153,8145); (8154,8054); (8155,8055);
   (8168,8160); (8169,8161); (8170,8058); (8171,8059); (8172,8165);
   (8184,8056); (8185,8057); (8186,8060); (8187,8061); (8188,8179);
   (8486,969); (8490,107); (8491,229); (8498,8526); (8544,8560); (8545,8561);
   (8546,8562); (8547,8563); (8548,8564); (8549,8565); (8550,8566);
   (8551,8567); (8552,8568); (8553,8569); (8554,8570); (8555,8571);
   (8556,8572); (8557,8573); (8558,8574); (8559,8575); (8579,8580);
   (9398,9424); (9399,9425); (9400,9426); (9401,9427); (9402,9428);
   (9403,9429); (9404,9430); (9405,9431); (9406,9432); (9407,9433);
   (9408,9434); (9409,9435); (9410,9436); (9411,9437); (9412,9438);
   (9413,9439); (9414,9440); (9415,9441); (9416,9442); (9417,9443);
   (9418,9444); (9419,9445); (9420,9446); (9421,9447); (9422,9448);
   (9423,9449); (11264,11312); (11265,11313); (11266,11314); (11267,11315);
   (11268,11316); (11269,11317); (11270,11318); (11271,11319); (11272,11320);
   (11273,11321); (11274,11322); (11275,11323); (11276,11324); (11277,11325);
   (11278,11326); (11279,11327); (11280,11328); (11281,11329); (11282,11330);
   (11283,11331); (11284,11332); (11285,11333); (11286,11334); (11287,11335);
   (11288,11336); (11289,11337); (11290,11338); (11291,11339); (11292,11340);
   (11293,11341); (11294,11342); (11295,11343); (11296,11344); (11297,11345);
   (11298,11346); (11299,11347); (11300,11348); (11301,11349); (11302,11350);
   (11303,11351); (11304,11352); (11305,11353); (11306,11354); (11307,11355);
   (11308,11356); (11309,11357); (11310,11358); (11311,11359); (11360,11361);
   (11362,619); (11363,7549); (11364,637); (11367,11368); (11369,11370);
   (11371,11372); (11373,593); (11374,625); (11375,592); (11376,594);
   (11378,11379); (11381,11382); (11390,575); (11391,576); (11392,11393);
   (11394,11395); (11396,11397); (11398,11399); (11400,11401); (11402,11403);
   (11404,11405); (11406,11407); (11408,11409); (11410,11411); (11412,11413);
   (11414,11415); (11416,11417); (11418,11419); (11420,11421); (11422,11423);
   (11424,11425); (11426,11427); (11428,11429); (11430,11431); (11432,11433);
   (11434,11435); (11436,11437); (11438,11439); (11440,11441); (11442,11443);
   (11444,11445); (11446,11447); (11448,11449); (11450,11451); (11452,11453);
   (11454,11455); (11456,11457); (11458,11459); (11460,11461); (11462,11463);
   (11464,11465); (11466,11467); (11468,11469); (11470,11471); (11472,11473);
   (11474,11475); (11476,11477); (11478,11479); (11480,11481); (11482,11483);
   (11484,11485); (11486,11487); (11488,11489); (11490,11491); (11499,11500);
   (11501,11502); (11506,11507); (42560,42561); (42562,42563); (42564,42565);
   (42566,42567); (42568,42569); (42570,42571); (42572,42573); (42574,42575);
   (42576,42577); (42578,42579); (42580,42581); (42582,42583); (42584,42585);
   (42586,42587); (42588,42589); (42590,42591); (42592,42593); (42594,42595);
   (42596,42597); (42598,42599); (42600,42601); (42602,42603); (42604,42605);
   (42624,42625); (42626,42627); (42628,42629); (42630,42631); (42632,42633);
   (42634,42635); (42636,42637); (42638,42639); (42640,42641); (42642,42643);
   (42644,42645); (42646,42647); (42648,42649); (42650,42651); (42786,42787);
   (42788,42789); (42790,42791); (42792,42793); (42794,42795); (42796,42797);
   (42798,42799); (42802,42803); (42804,42805); (42806,42807); (42808,42809);
   (42810,42811); (42812,42813); (42814,42815); (42816,42817); (42818,42819);
   (42820,42821); (42822,42823); (42824,42825); (42826,42827); (42828,42829);
   (42830,42831); (42832,42833); (42834,42835); (42836,42837); (42838,42839);
   (42840,42841); (42842,42843); (42844,42845); (42846,42847); (42848,42849);
   (42850,42851); (42852,42853); (42854,42855); (42856,42857); (42858,42859);
   (42860,42861); (42862,42863); (42873,42874); (42875,42876); (42877,7545);
   (42878,42879); (42880,42881); (42882,42883); (42884,42885); (42886,42887);
   (42891,42892); (42893,613); (42896,42897); (42898,42899); (42902,42903);
   (42904,42905); (42906,42907); (42908,42909); (42910,42911); (42912,42913);
   (42914,42915); (42916,42917); (42918,42919); (42920,42921); (42922,614);
   (42923,604); (42924,609); (42925,620); (42926,618); (42928,670);
   (42929,647); (42930,669); (42931,43859); (42932,42933); (42934,42935);
   (42936,42937); (42938,42939); (42940,42941); (42942,42943); (42944,42945);
   (42946,42947); (42948,42900); (42949,642); (42950,7566); (42951,42952);
   (42953,42954); (42960,42961); (42966,42967); (42968,42969); (42997,42998);
   (65313,65345); (65314,65346); (65315,65347); (65316,65348); (65317,65349);
   (65318,65350); (65319,65351); (65320,65352); (65321,65353); (65322,65354);
   (65323,65355); (65324,65356); (65325,65357); (65326,65358); (65327,65359);
   (65328,65360); (65329,65361); (65330,65362); (65331,65363); (65332,65364);
   (65333,65365); (65334,65366); (65335,65367); (65336,65368); (65337,65369);
   (65338,65370); (66560,66600); (66561,66601); (66562,66602); (66563,66603);
   (66564,66604); (66565,66605); (66566,66606); (66567,66607); (66568,66608);
   (66569,66609); (66570,66610); (66571,66611); (66572,66612); (66573,66613);
   (66574,66614); (66575,66615); (66576,66616); (66577,66617); (66578,66618);
   (66579,66619); (66580,66620); (66581,66621); (66582,66622); (66583,66623);
   (66584,66624); (66585,66625); (66586,66626); (66587,66627); (66588,66628);
   (66589,66629); (66590,66630); (66591,66631); (66592,66632); (66593,66633);
   (66594,66634); (66595,66635); (66596,66636); (66597,66637); (66598,66638);
   (66599,66639); (66736,66776); (66737,66777); (66738,66778); (66739,66779);
   (66740,66780); (66741,66781); (66742,66782); (66743,66783); (66744,66784);
   (66745,66785); (66746,66786); (66747,66787); (66748,66788); (66749,66789);
   (66750,66790); (66751,66791); (66752,66792); (66753,66793); (66754,66794);
   (66755,66795); (66756,66796); (66757,66797); (66758,66798); (66759,66799);
   (66760,66800); (66761,66801); (66762,66802); (66763,66803); (66764,66804);
   (66765,66805); (66766,66806); (66767,66807); (66768,66808); (66769,66809);
   (66770,66810); (66771,66811); (66928,66967); (66929,66968); (66930,66969);
   (66931,66970); (66932,66971); (66933,66972); (66934,66973); (66935,66974);
   (66936,66975); (66937,66976); (66938,66977); (66940,66979); (66941,66980);
   (66942,66981); (66943,66982); (66944,66983); (66945,66984); (66946,66985);
   (66947,66986); (66948,66987); (66949,66988); (66950,66989); (66951,66990);
   (66952,66991); (66953,66992); (66954,66993); (66956,66995); (66957,66996);
   (66958,66997); (66959,66998); (66960,66999); (66961,67000); (66962,67001);
   (66964,67003); (66965,67004); (68736,68800); (68737,68801); (68738,68802);
   (68739,68803); (68740,68804); (68741,68805); (68742,68806); (68743,68807);
   (68744,68808); (68745,68809); (68746,68810); (68747,68811); (68748,68812);
   (68749,68813); (68750,68814); (68751,68815); (68752,68816); (68753,68817);
   (68754,68818); (68755,68819); (68756,68820); (68757,68821); (68758,68822);
   (68759,68823); (68760,68824); (68761,68825); (68762,68826); (68763,68827);
   (68764,68828); (68765,68829); (68766,68830); (68767,68831); (68768,68832);
   (68769,68833); (68770,68834); (68771,68835); (68772,68836); (68773,68837);
   (68774,68838); (68775,68839); (68776,68840); (68777,68841); (68778,68842);
   (68779,68843); (68780,68844); (68781,68845); (68782,68846); (68783,68847);
   (68784,68848); (68785,68849); (68786,68850); (71840,71872); (71841,71873);
   (71842,71874); (71843,71875); (71844,71876); (71845,71877); (71846,71878);
   (71847,71879); (71848,71880); (71849,71881); (71850,71882); (71851,71883);
   (71852,71884); (71853,71885); (71854,71886); (71855,71887); (71856,71888);
   (71857,71889); (71858,71890); (71859,71891); (71860,71892); (71861,71893);
   (71862,71894); (71863,71895); (71864,71896); (71865,71897); (71866,71898);
   (71867,71899); (71868,71900); (71869,71901); (71870,71902); (71871,71903);
   (93760,93792); (93761,93793); (93762,93794); (93763,93795); (93764,93796);
   (93765,93797); (93766,93798); (93767,93799); (93768,93800); (93769,93801);
   (93770,93802); (93771,93803); (93772,93804); (93773,93805); (93774,93806);
   (93775,93807); (93776,93808); (93777,93809); (93778,93810); (93779,93811);
   (93780,93812); (93781,93813); (93782,93814); (93783,93815); (93784,93816);
   (93785,93817); (93786,93818); (93787,93819); (93788,93820); (93789,93821);
   (93790,93822); (93791,93823); (125184,125218); (125185,125219);
   (125186,125220); (125187,125221); (125188,125222); (125189,125223);
   (125190,125224); (125191,125225); (125192,125226); (125193,125227);
   (125194,125228); (125195,125229); (125196,125230); (125197,125231);
   (125198,125232); (125199,125233); (125200,125234); (125201,125235);
   (125202,125236); (125203,125237); (125204,125238); (125205,125239);
   (125206,125240); (125207,125241); (125208,125242); (125209,125243);
   (125210,125244); (125211,125245); (125212,125246); (125213,125247);
   (125214,125248); (125215,125249); (125216,125250); (125217,125251)
  ].

Definition cased : list (N * N) :=
  [
   (65,90); (97,122); (170,170); (181,181); (186,186); (192,214); (216,246);
   (248,442); (444,447); (452,659); (661,696); (704,705); (736,740);
   (837,837); (880,883); (886,887); (890,893); (895,895); (902,902);
   (904,906); (908,908); (910,929); (931,1013); (1015,1153); (1162,1327);
   (1329,1366); (1376,1416); (4256,4293); (4295,4295); (4301,4301);
   (4304,4346); (4349,4351); (5024,5109); (5112,5117); (7296,7304);
   (7312,7354); (7357,7359); (7424,7615); (7680,7957); (7960,7965);
   (7968,8005); (8008,8013); (8016,8023); (8025,8025); (8027,8027);
   (8029,8029); (8031,8061); (8064,8116); (8118,8124); (8126,8126);
   (8130,8132); (8134,8140); (8144,8147); (8150,8155); (8160,8172);
   (8178,8180); (8182,8188); (8305,8305); (8319,8319); (8336,8348);
   (8450,8450); (8455,8455); (8458,8467); (8469,8469); (8473,8477);
   (8484,8484); (8486,8486); (8488,8488); (8490,8493); (8495,8500);
   (8505,8505); (8508,8511); (8517,8521); (8526,8526); (8544,8575);
   (8579,8580); (9398,9449); (11264,11492); (11499,11502); (11506,11507);
   (11520,11557); (11559,11559); (11565,11565); (42560,42605); (42624,42653);
   (42786,42887); (42891,42894); (42896,42954); (42960,42961); (42963,42963);
   (42965,42969); (42997,42998); (43000,43002); (43824,43866); (43868,43880);
   (43888,43967); (64256,64262); (64275,64279); (65313,65338); (65345,65370);
   (66560,66639); (66736,66771); (66776,66811); (66928,66938); (66940,66954);
   (66956,66962); (66964,66965); (66967,66977); (66979,66993); (66995,67001);
   (67003,67004); (67456,67456); (67459,67461); (67463,67504); (67506,67514);
   (68736,68786); (68800,68850); (71840,71903); (93760,93823);
   (119808,119892); (119894,119964); (119966,119967); (119970,119970);
   (119973,119974); (119977,119980); (119982,119993); (119995,119995);
   (119997,120003); (120005,120069); (120071,120074); (120077,120084);
   (120086,120092); (120094,120121); (120123,120126); (120128,120132);
   (120134,120134); (120138,120144); (120146,120485); (120488,120512);
   (120514,120538); (120540,120570); (120572,120596); (120598,120628);
   (120630,120654); (120656,120686); (120688,120712); (120714,120744);
   (120746,120770); (120772,120779); (122624,122633); (122635,122654);
   (125184,125251); (127280,127305); (127312,127337); (127344,127369)
  ].

Definition case_ignorable : list (N * N) :=
  [
   (39,39); (46,46); (58,58); (94,94); (96,96); (168,168); (173,173);
   (175,175); (180,180); (183,184); (688,879); (884,885); (890,890);
   (900,901); (903,903); (1155,1161); (1369,1369); (1375,1375); (1425,1469);
   (1471,1471); (1473,1474); (1476,1477); (1479,1479); (1524,1524);
   (1536,1541); (1552,1562); (1564,1564); (1600,1600); (1611,1631);
   (1648,1648); (1750,1757); (1759,1768); (1770,1773); (1807,1807);
   (1809,1809); (1840,1866); (1958,1968); (2027,2037); (2042,2042);
   (2045,2045); (2070,2093); (2137,2139); (2184,2184); (2192,2193);
   (2200,2207); (2249,2306); (2362,2362); (2364,2364); (2369,2376);
   (2381,2381); (2385,2391); (2402,2403); (2417,2417); (2433,2433);
   (2492,2492); (2497,2500); (2509,2509); (2530,2531); (2558,2558);
   (2561,2562); (2620,2620); (2625,2626); (2631,2632); (2635,2637);
   (2641,2641); (2672,2673); (2677,2677); (2689,2690); (2748,2748);
   (2753,2757); (2759,2760); (2765,2765); (2786,2787); (2810,2815);
   (2817,2817); (2876,2876); (2879,2879); (2881,2884); (2893,2893);
   (2901,2902); (2914,2915); (2946,2946); (3008,3008); (3021,3021);
   (3072,3072); (3076,3076); (3132,3132); (3134,3136); (3142,3144);
   (3146,3149); (3157,3158); (3170,3171); (3201,3201); (3260,3260);
   (3263,3263); (3270,3270); (3276,3277); (3298,3299); (3328,3329);
   (3387,3388); (3393,3396); (3405,3405); (3426,3427); (3457,3457);
   (3530,3530); (3538,3540); (3542,3542); (3633,3633); (3636,3642);
   (3654,3662); (3761,3761); (3764,3772); (3782,3782); (3784,3789);
   (3864,3865); (3893,3893); (3895,3895); (3897,3897); (3953,3966);
   (3968,3972); (3974,3975); (3981,3991); (3993,4028); (4038,4038);
   (4141,4144); (4146,4151); (4153,4154); (4157,4158); (4184,4185);
   (4190,4192); (4209,4212); (4226,4226); (4229,4230); (4237,4237);
   (4253,4253); (4348,4348); (4957,4959); (5906,5908); (5938,5939);
   (5970,5971); (6002,6003); (6068,6069); (6071,6077); (6086,6086);
   (6089,6099); (6103,6103); (6109,6109); (6155,6159); (6211,6211);
   (6277,6278); (6313,6313); (6432,6434); (6439,6440); (6450,6450);
   (6457,6459); (6679,6680); (6683,6683); (6742,6742); (6744,6750);
   (6752,6752); (6754,6754); (6757,6764); (6771,6780); (6783,6783);
   (6823,6823); (6832,6862); (6912,6915); (6964,6964); (6966,6970);
   (6972,6972); (6978,6978); (7019,7027); (7040,7041); (7074,7077);
   (7080,7081); (7083,7085); (7142,7142); (7144,7145); (7149,7149);
   (7151,7153); (7212,7219); (7222,7223); (7288,7293); (7376,7378);
   (7380,7392); (7394,7400); (7405,7405); (7412,7412); (7416,7417);
   (7468,7530); (7544,7544); (7579,7679); (8125,8125); (8127,8129);
   (8141,8143); (8157,8159); (8173,8175); (8189,8190); (8203,8207);
   (8216,8217); (8228,8228); (8231,8231); (8234,8238); (8288,8292);
   (8294,8303); (8305,8305); (8319,8319); (8336,8348); (8400,8432);
   (11388,11389); (11503,11505); (11631,11631); (11647,11647); (11744,11775);
   (11823,11823); (12293,12293); (12330,12333); (12337,12341); (12347,12347);
   (12441,12446); (12540,12542); (40981,40981); (42232,42237); (42508,42508);
   (42607,42610); (42612,42621); (42623,42623); (42652,42655); (42736,42737);
   (42752,42785); (42864,42864); (42888,42890); (42994,42996); (43000,43001);
   (43010,43010); (43014,43014); (43019,43019); (43045,43046); (43052,43052);
   (43204,43205); (43232,43249); (43263,43263); (43302,43309); (43335,43345);
   (43392,43394); (43443,43443); (43446,43449); (43452,43453); (43471,43471);
   (43493,43494); (43561,43566); (43569,43570); (43573,43574); (43587,43587);
   (43596,43596); (43632,43632); (43644,43644); (43696,43696); (43698,43700);
   (43703,43704); (43710,43711); (43713,43713); (43741,43741); (43756,43757);
   (43763,43764); (43766,43766); (43867,43871); (43881,43883); (44005,44005);
   (44008,44008); (44013,44013); (64286,64286); (64434,64450); (65024,65039);
   (65043,65043); (65056,65071); (65106,65106); (65109,65109); (65279,65279);
   (65287,65287); (65294,65294); (65306,65306); (65342,65342); (65344,65344);
   (65392,65392); (65438,65439); (65507,65507); (65529,65531); (66045,66045);
   (66272,66272); (66422,66426); (67456,67461); (67463,67504); (67506,67514);
   (68097,68099); (68101,68102); (68108,68111); (68152,68154); (68159,68159);
   (68325,68326); (68900,68903); (69291,69292); (69446,69456); (69506,69509);
   (69633,69633); (69688,69702); (69744,69744); (69747,69748); (69759,69761);
   (69811,69814); (69817,69818); (69821,69821); (69826,69826); (69837,69837);
   (69888,69890); (69927,69931); (69933,69940); (70003,70003); (70016,70017);
   (70070,70078); (70089,70092); (70095,70095); (70191,70193); (70196,70196);
   (70198,70199); (70206,70206); (70367,70367); (70371,70378); (70400,70401);
   (70459,70460); (70464,70464); (70502,70508); (70512,70516); (70712,70719);
   (70722,70724); (70726,70726); (70750,70750); (70835,70840); (70842,70842);
   (70847,70848); (70850,70851); (71090,71093); (71100,71101); (71103,71104);
   (71132,71133); (71219,71226); (71229,71229); (71231,71232); (71339,71339);
   (71341,71341); (71344,71349); (71351,71351); (71453,71455); (71458,71461);
   (71463,71467); (71727,71735); (71737,71738); (71995,71996); (71998,71998);
   (72003,72003); (72148,72151); (72154,72155); (72160,72160); (72193,72202);
   (72243,72248); (72251,72254); (72263,72263); (72273,72278); (72281,72283);
   (72330,72342); (72344,72345); (72752,72758); (72760,72765); (72767,72767);
   (72850,72871); (72874,72880); (72882,72883); (72885,72886); (73009,73014);
   (73018,73018); (73020,73021); (73023,73029); (73031,73031); (73104,73105);
   (73109,73109); (73111,73111); (73459,73460); (78896,78904); (92912,92916);
   (92976,92982); (92992,92995); (94031,94031); (94095,94111); (94176,94177);
   (94179,94180); (110576,110579); (110581,110587); (110589,110590);
   (113821,113822); (113824,113827); (118528,118573); (118576,118598);
   (119143,119145); (119155,119170); (119173,119179); (119210,119213);
   (119362,119364); (121344,121398); (121403,121452); (121461,121461);
   (121476,121476); (121499,121503); (121505,121519); (122880,122886);
   (122888,122904); (122907,122913); (122915,122916); (122918,122922);
   (123184,123197); (123566,123566); (123628,123631); (125136,125142);
   (125252,125259); (127995,127999); (917505,917505); (917536,917631);
   (917760,917999)
  ].

End Unicode.

(** A [str] is the list of its code points. *)
Abbreviation pystr := (list N).

(** The [str] of a literal of 7-bit characters. *)
Definition str (lit : string) : pystr :=
  N_of_ascii <$> list_ascii_of_string lit.

Module PyStr.
Local Open Scope N_scope.

(** The code points [str.isspace] holds of, which are those [str.strip]
    removes: TAB to CR, FS to US, the space, NEL, the no-break space, the
    Ogham space mark, EN QUAD to HAIR SPACE, the line and the paragraph
    separator, the narrow no-break space, the medium mathematical space and
    the ideographic space. *)
Definition whitespace : list N :=
  [9; 10; 11; 12; 13; 28; 29; 30; 31; 32; 133; 160; 5760;
   8192; 8193; 8194; 8195; 8196; 8197; 8198; 8199; 8200; 8201; 8202;
   8232; 8233; 8239; 8287; 12288].

Definition is_space (c : N) : bool := existsb (N.eqb c) whitespace.

(** [s.lstrip()] *)
Fixpoint lstrip (s : pystr) : pystr :=
  match s with
  | [] => []
  | c :: s' => if is_space c then lstrip s' else s
  end.

(** [s.rstrip()]: a character stays when it is not white space or when
    something stays to its right. *)
Fixpoint rstrip (s : pystr) : pystr :=
  match s with
  | [] => []
  | c :: s' =>
      match rstrip s' with
      | [] => if is_space c then [] else [c]
      | r => c :: r
      end
  end.

(** [s.strip()] *)
Definition strip (s : pystr) : pystr := rstrip (lstrip s).

(** Truth value of a [str]: the empty string is false. *)
Definition truthy (s : pystr) : bool :=
  match s with [] => false | _ => true end.

(** Every character is white space (the empty string included). *)
Definition all_space (s : pystr) : bool := forallb is_space s.

(** The value [k] has in a table of pairs, if any. *)
Fixpoint assoc (k : N) (table : list (N * N)) : option N :=
  match table with
  | [] => None
  | (k', v) :: rest => if k =? k' then Some v else assoc k rest
  end.

Definition in_ranges (ranges : list (N * N)) (c : N) : bool :=
  existsb (fun '(lo, hi) => (lo <=? c) && (c <=? hi)) ranges.

(** The full lowercase mapping of one code point: two code points for
    U+0130, the one of the table otherwise, the code point itself when it
    has none. *)
Definition to_lower (c : N) : pystr :=
  if c =? 304 then [105; 775]
  else match assoc c Unicode.lowercase with
       | Some l => [l]
       | None => [c]
       end.

(** The first character of [s] that is not case-ignorable is cased. *)
Fixpoint next_is_cased (s : pystr) : bool :=
  match s with
  | [] => false
  | c :: s' =>
      if in_ranges Unicode.case_ignorable c then next_is_cased s'
      else in_ranges Unicode.cased c
  end.

(** A capital sigma is final when a cased letter precedes it and none
    follows, case-ignorable characters apart; [before] is what precedes
    it, nearest first. *)
Definition final_sigma (before after : pystr) : bool :=
  next_is_cased before && negb (next_is_cased after).

(** What [str.lower] writes for the character [c] between [before]
    (nearest first) and [after]. *)
Definition lower_at (before : pystr) (c : N) (after : pystr) : pystr :=
  if c =? 931 then [if final_sigma before after then 962 else 963]
  else to_lower c.

Fixpoint lower_from (before s : pystr) : pystr :=
  match s with
  | [] => []
  | c :: rest => lower_at before c rest ++ lower_from (c :: before) rest
  end.

(** [s.lower()] *)
Definition lower (s : pystr) : pystr := lower_from [] s.

(** [s.startswith(sub)] *)
Fixpoint starts_with (sub s : pystr) : bool :=
  match sub, s with
  | [], _ => true
  | _ :: _, [] => false
  | a :: sub', b :: s' => (a =? b) && starts_with sub' s'
  end.

(** [sub in s] *)
Fixpoint contains (sub s : pystr) : bool :=
  starts_with sub s
  || match s with
     | [] => false
     | _ :: s' => contains sub s'
     end.

(** [s.split(sep)[0]] for a one-character separator: what precedes its
    first occurrence, the whole string when there is none. *)
Fixpoint split_head (sep : N) (s : pystr) : pystr :=
  match s with
  | [] => []
  | c :: s' => if c =? sep then [] else c :: split_head sep s'
  end.

(** [s] has an occurrence of the word [kw] written in any letter case. *)
Definition mentions (kw s : pystr) : Prop :=
  exists pre word post, s = pre ++ word ++ post /\ lower word = kw.

End PyStr.

(* ===================================================================== *)
(** ** Words of the specification about strings                           *)
(* ===================================================================== *)

(** What "white space", "stripped", "blank" and "containing a keyword"
    say of a string, stated without the operations of [PyStr], to compare
    these with. *)
Module Said.
Local Open Scope N_scope.

(** A white space character of Unicode: a control character from TAB to
    CR or from FS to US, the space, NEL, the no-break space, or one of the
    space, line and paragraph separators of the other blocks. *)
Definition Whitespace (c : N) : Prop :=
  9 <= c <= 13 \/ 28 <= c <= 32 \/ c = 133 \/ c = 160 \/ c = 5760
  \/ 8192 <= c <= 8202 \/ c = 8232 \/ c = 8233 \/ c = 8239 \/ c = 8287
  \/ c = 12288.

(** A string that is empty or white space only. *)
Definition Blank (s : pystr) : Prop := Forall Whitespace s.

(** [t] is [s] without the white space around it: [s] is [t] between two
    blank strings, and [t] neither begins nor ends with white space. *)
Definition StrippedOf (s t : pystr) : Prop :=
  exists pre post,
    s = pre ++ t ++ post /\ Blank pre /\ Blank post
    /\ (forall c r, t = c :: r -> ~ Whitespace c)
    /\ (forall r c, t = r ++ [c] -> ~ Whitespace c).

(** [kept] is [raws] with the blank strings left out and the others
    stripped, in the same order. *)
Inductive Kept : list pystr -> list pystr -> Prop :=
| kept_nil : Kept [] []
| kept_blank raw raws kept :
    Blank raw -> Kept raws kept -> Kept (raw :: raws) kept
| kept_stripped raw t raws kept :
    StrippedOf raw t -> t <> [] -> Kept raws kept ->
    Kept (raw :: raws) (t :: kept).

(** The character [c] is the small letter [k] in some letter case: [k]
    itself, its capital, or the Kelvin sign for "k". *)
Definition SameLetter (c k : N) : Prop :=
  c = k \/ (65 <= c <= 90 /\ k = c + 32) \/ (c = 8490 /\ k = 107).

(** The keyword [kw], of small letters, occurs in [title] in some letter
    case. *)
Definition Occurs (kw title : pystr) : Prop :=
  exists pre word post,
    title = pre ++ word ++ post /\ Forall2 SameLetter word kw.

End Said.

(* ===================================================================== *)
(** ** The body of [POST /api/config]                                     *)
(* ===================================================================== *)

Module Payload.

(** One element of [salary_ranges]: [r.get('min')] and [r.get('max')] are
    [None] when the key is missing or [null]. *)
Record SalaryRange := {
  range_min : option Z;
  range_max : option Z
}.

(** The fields [update_config] reads with [data.get], for a body that is a
    JSON object with the types the interface gives: lists of strings, whole
    numbers or [null], a string.  A missing [receiver_emails], [locations]
    or [salary_ranges] is the empty list, a missing [job_title] the empty
    string, a missing [experience_min] or [experience_max] is [None]. *)
Record ConfigRequest := {
  receiver_emails : list pystr;
  locations : list pystr;
  salary_ranges : list SalaryRange;
  experience_min : option Z;
  experience_max : option Z;
  job_title : pystr
}.

(** The [update_data] dictionary: a key is present or not. *)
Record UpdateData := {
  ud_preferred_locations : option (list pystr);
  ud_expected_salary_min : option Z;
  ud_expected_salary_max : option Z;
  ud_experience_years : option Z;
  ud_current_role : option pystr;
  ud_primary_skills : option (list pystr)
}.

(** Truth value of an [int] or [None]: [None] and [0] are false. *)
Definition truthy_num (o : option Z) : bool :=
  match o with
  | Some z => negb (z =? 0)
  | None => false
  end.

(** [[loc.strip() for loc in locations if loc.strip()]] *)
Definition clean_locations (locs : list pystr) : list pystr :=
  omap (fun loc => let l := PyStr.strip loc in
                   if PyStr.truthy l then Some l else None) locs.

(** [[r.get('min', 0) for r in salary_ranges if r.get('min')]] *)
Definition all_mins (rs : list SalaryRange) : list Z :=
  omap (fun r => if truthy_num (range_min r)
                 then Some (default 0 (range_min r)) else None) rs.

(** [[r.get('max', 999999) for r in salary_ranges if r.get('max')]] *)
Definition all_maxs (rs : list SalaryRange) : list Z :=
  omap (fun r => if truthy_num (range_max r)
                 then Some (default 999999 (range_max r)) else None) rs.

(** [min(l)] and [max(l)] of a list; the handler calls them on non-empty
    lists only. *)
Definition py_min (l : list Z) : option Z :=
  match l with
  | [] => None
  | x :: l' => Some (foldl Z.min x l')
  end.

Definition py_max (l : list Z) : option Z :=
  match l with
  | [] => None
  | x :: l' => Some (foldl Z.max x l')
  end.

(** Lines 117-122: skills for a title, by keyword. *)
Definition skills_for_title (title : pystr) : option (list pystr) :=
  let t := PyStr.lower title in
  if PyStr.contains (str "python") t
  then Some [str "Python"; str "JavaScript"; str "React"]
  else if PyStr.contains (str "react") t || PyStr.contains (str "frontend") t
       then Some [str "React"; str "JavaScript"; str "TypeScript"]
  else if PyStr.contains (str "backend") t
       then Some [str "Python"; str "Java"; str "Node.js"]
  else None.

(** Lines 93-122: the keyword arguments for [update_user_profile].
    [experience_max] is read from the body and used nowhere. *)
Definition build_update_data (req : ConfigRequest) : UpdateData :=
  {| ud_preferred_locations :=
       match locations req with
       | [] => None
       | _ => Some (clean_locations (locations req))
       end;
     ud_expected_salary_min :=
       match salary_ranges req with
       | [] => None
       | _ => py_min (all_mins (salary_ranges req))
       end;
     ud_expected_salary_max :=
       match salary_ranges req with
       | [] => None
       | _ => py_max (all_maxs (salary_ranges req))
       end;
     ud_experience_years := experience_min req;
     ud_current_role :=
       if PyStr.truthy (job_title req) then Some (job_title req) else None;
     ud_primary_skills :=
       if PyStr.truthy (job_title req) then skills_for_title (job_title req)
       else None |}.

(** The same body with another [experience_max]. *)
Definition with_experience_max (x : option Z) (req : ConfigRequest)
  : ConfigRequest :=
  {| receiver_emails := receiver_emails req;
     locations := locations req;
     salary_ranges := salary_ranges req;
     experience_min := experience_min req;
     experience_max := x;
     job_title := job_title req |}.

(** The same body with other [receiver_emails]. *)
Definition with_receiver_emails (emails : list pystr) (req : ConfigRequest)
  : ConfigRequest :=
  {| receiver_emails := emails;
     locations := locations req;
     salary_ranges := salary_ranges req;
     experience_min := experience_min req;
     experience_max := experience_max req;
     job_title := job_title req |}.

End Payload.

(* ===================================================================== *)
(** ** The handlers                                                       *)
(* ===================================================================== *)

Module Api.
Import Payload.

(** Modelled from the spec: the static configuration object
    [config.config.Config], which is not among the sources; the handlers
    read these four attributes of it ("preferred locations, salary bounds,
    notification recipient"). *)
Record Config := {
  PREFERRED_LOCATIONS : list pystr;
  MIN_SALARY : Z;
  MAX_SALARY : Z;
  EMAIL_RECIPIENT : option pystr
}.

(** An exception, as the handlers see it: its [str(e)]. *)
Definition exn := string.

(** What [jsonify] is given, [D] being what [to_dict] returns. *)
Inductive Body (D : Type) :=
| HealthBody (status message : string)
| ConfigBody (preferred_locations : list pystr) (min_salary max_salary : Z)
             (email_recipients : list pystr) (profiles : list D)
| UpdatedBody (message : string) (profiles : list D) (updated_count : nat)
| ProfilesBody (profiles : list D)
| ProfileBody (profile : D)
| ErrorBody (error : string).

Arguments HealthBody {D}.
Arguments ConfigBody {D}.
Arguments UpdatedBody {D}.
Arguments ProfilesBody {D}.
Arguments ProfileBody {D}.
Arguments ErrorBody {D}.

Record Response (D : Type) := {
  status : nat;
  body : Body D
}.

Arguments status {D}.
Arguments body {D}.

(** The [profiles] of a response, when its body has them. *)
Definition profiles_of {D} (r : Response D) : list D :=
  match body r with
  | ConfigBody _ _ _ _ ps | UpdatedBody _ ps _ | ProfilesBody ps => ps
  | _ => []
  end.

(** [jsonify(b)] and [jsonify(b), code] *)
Definition ok {D} (b : Body D) : Response D := {| status := 200; body := b |}.
Definition err {D} (code : nat) (msg : string) : Response D :=
  {| status := code; body := ErrorBody msg |}.

(** What a request can read and write: the database behind the profile
    manager, the process-wide [Config] and the error log. *)
Record World (St : Type) := {
  db : St;
  config : Config;
  log : list string
}.

Arguments db {St}.
Arguments config {St}.
Arguments log {St}.

(** The profile manager ([src.database.profile_manager]) as the handlers
    use it: each function runs on the database and returns a value or
    raises. *)
Class ProfileManager (St Prof D : Type) := {
  get_user_profile : pystr -> St -> St * (exn + option Prof);
  create_default_profile : pystr -> pystr -> St -> St * (exn + option Prof);
  update_user_profile : pystr -> UpdateData -> St -> St * (exn + option Prof);
  get_all_active_profiles : St -> St * (exn + list Prof);
  to_dict : Prof -> D
}.

Section Handlers.
Context {St Prof D : Type} `{PM : ProfileManager St Prof D}.

(** Computations of a handler body: state passing, with exceptions. *)
Definition M (A : Type) : Type := World St -> World St * (exn + A).

Definition ret {A} (a : A) : M A := fun w => (w, inr a).

Definition bind {A B} (m : M A) (k : A -> M B) : M B :=
  fun w => match m w with
           | (w', inr a) => k a w'
           | (w', inl e) => (w', inl e)
           end.

Notation "x <- m ;; k" := (bind m (fun x => k))
  (at level 100, m at next level, right associativity).

Definition with_db (s : St) (w : World St) : World St :=
  {| db := s; config := config w; log := log w |}.

(** A call into the profile manager touches the database only. *)
Definition call {A} (op : St -> St * (exn + A)) : M A :=
  fun w => let '(s, r) := op (db w) in (with_db s w, r).

Definition read_config : M Config := fun w => (w, inr (config w)).

(** [logger.error(msg)] *)
Definition log_error (msg : string) (w : World St) : World St :=
  {| db := db w; config := config w; log := log w ++ [msg] |}.

(** [try: ... except Exception as e: logger.error(f"{what}: {e}");
    return jsonify({'error': str(e)}), 500] *)
Definition try_except (what : string) (m : M (Response D))
  : World St -> World St * Response D :=
  fun w => match m w with
           | (w', inr r) => (w', r)
           | (w', inl e) => (log_error (what +:+ ": " +:+ e) w', err 500 e)
           end.

(** [GET /api/health] *)
Definition health_check (w : World St) : World St * Response D :=
  (w, ok (HealthBody "healthy" "Job Crawler API is running")).

(** [GET /api/config], lines 48-56 *)
Definition get_config_body : M (Response D) :=
  profiles <- call get_all_active_profiles ;;
  cfg <- read_config ;;
  ret (ok (ConfigBody (PREFERRED_LOCATIONS cfg) (MIN_SALARY cfg) (MAX_SALARY cfg)
             (match EMAIL_RECIPIENT cfg with
              | Some r => if PyStr.truthy r then [r] else []
              | None => []
              end)
             (map to_dict profiles))).

Definition get_config := try_except "Error getting config" get_config_body.

(** One turn of the loop of lines 80-127, [updated] being
    [updated_profiles] so far. *)
Definition process_email (req : ConfigRequest) (email : pystr)
    (updated : list D) : M (list D) :=
  if negb (PyStr.truthy email) || negb (PyStr.truthy (PyStr.strip email))
  then ret updated
  else
    let email := PyStr.strip email in
    found <- call (get_user_profile email) ;;
    profile <- match found with
               | Some p => ret (Some p)
               | None => call (create_default_profile email
                                 (PyStr.split_head 64%N email))
               end ;;
    match profile with
    | None => ret updated
    | Some _ =>
        let update_data := build_update_data req in
        updated_profile <- call (update_user_profile email update_data) ;;
        match updated_profile with
        | Some p => ret (updated ++ [to_dict p])
        | None => ret updated
        end
    end.

(** [for email in receiver_emails: ...] *)
Fixpoint process_emails (req : ConfigRequest) (emails : list pystr)
    (updated : list D) : M (list D) :=
  match emails with
  | [] => ret updated
  | email :: rest =>
      updated' <- process_email req email updated ;;
      process_emails req rest updated'
  end.

(** [POST /api/config], lines 65-137 *)
Definition update_config_body (req : ConfigRequest) : M (Response D) :=
  match receiver_emails req with
  | [] => ret (err 400 "At least one receiver email is required")
  | _ =>
      updated_profiles <- process_emails req (receiver_emails req) [] ;;
      ret (ok (UpdatedBody "Configuration updated successfully"
                 updated_profiles (length updated_profiles)))
  end.

Definition update_config (req : ConfigRequest) :=
  try_except "Error updating config" (update_config_body req).

(** [GET /api/profiles] *)
Definition get_profiles_body : M (Response D) :=
  profiles <- call get_all_active_profiles ;;
  ret (ok (ProfilesBody (map to_dict profiles))).

Definition get_profiles := try_except "Error getting profiles" get_profiles_body.

(** [GET /api/profiles/<email>] *)
Definition get_profile_body (email : pystr) : M (Response D) :=
  profile <- call (get_user_profile email) ;;
  match profile with
  | Some p => ret (ok (ProfileBody (to_dict p)))
  | None => ret (err 404 "Profile not found")
  end.

Definition get_profile (email : pystr) :=
  try_except "Error getting profile" (get_profile_body email).

(** A computation that leaves the process-wide [Config] as it was. *)
Definition keeps_config {A} (m : M A) : Prop :=
  forall w, config (m w).1 = config w.

(** A computation that writes nothing to the error log. *)
Definition keeps_log {A} (m : M A) : Prop :=
  forall w, log (m w).1 = log w.

(** A handler that writes one line to the error log when it answers 500,
    the line made of [what] and of the [error] of the body, and none
    otherwise. *)
Definition logs_errors_only (what : string)
    (h : World St -> World St * Response D) : Prop :=
  forall w,
    if decide (status (h w).2 = 500%nat)
    then exists e, body (h w).2 = ErrorBody e
                   /\ log (h w).1 = log w ++ [what +:+ ": " +:+ e]
    else log (h w).1 = log w.

(** *** When the profile manager raises

    The calls of one turn of the loop, for the stripped [email], on the
    database [s]: [get_user_profile], then [create_default_profile] when
    there is no profile, then [update_user_profile]. *)
Definition has_profile (email : pystr) (s s1 : St) : Prop :=
  (exists p, get_user_profile email s = (s1, inr (Some p)))
  \/ (exists s0 p, get_user_profile email s = (s0, inr None)
                /\ create_default_profile email (PyStr.split_head 64%N email) s0
                   = (s1, inr (Some p))).

Inductive turn_raises (req : ConfigRequest) (email : pystr) (s : St)
  : St -> exn -> Prop :=
| raises_get s1 e :
    get_user_profile email s = (s1, inl e) ->
    turn_raises req email s s1 e
| raises_create s0 s1 e :
    get_user_profile email s = (s0, inr None) ->
    create_default_profile email (PyStr.split_head 64%N email) s0 = (s1, inl e) ->
    turn_raises req email s s1 e
| raises_update s1 s2 e :
    has_profile email s s1 ->
    update_user_profile email (build_update_data req) s1 = (s2, inl e) ->
    turn_raises req email s s2 e.

(** The profile manager raises [e] during the loop over [emails] started in
    [w], the world being [w'] at that moment: in the turn of the first
    email, or in a later one after the first turn has completed. *)
Inductive loop_raises (req : ConfigRequest)
  : list pystr -> list D -> World St -> World St -> exn -> Prop :=
| raises_now raw rest upd w s' e :
    PyStr.strip raw <> [] ->
    turn_raises req (PyStr.strip raw) (db w) s' e ->
    loop_raises req (raw :: rest) upd w (with_db s' w) e
| raises_later raw rest upd upd' w w1 w' e :
    process_email req raw upd w = (w1, inr upd') ->
    loop_raises req rest upd' w1 w' e ->
    loop_raises req (raw :: rest) upd w w' e.

End Handlers.

Arguments M St A : clear implicits.

Notation "x <- m ;; k" := (bind m (fun x => k))
  (at level 100, m at next level, right associativity).

End Api.

(* ===================================================================== *)
(** ** A profile table                                                    *)
(* ===================================================================== *)

Module Store.
Import Payload.

(** Modelled from the spec: the profile row of
    [src.database.profile_manager], which is not among the sources.
    "Profile: keyed by email (unique identifier); attributes include display
    name, preferred locations, expected salary range (min, max), years of
    experience, current role/title, and a derived list of primary skills";
    [is_active] is the soft-deletion mark. *)
Record Profile := {
  email : pystr;
  name : pystr;
  preferred_locations : list pystr;
  expected_salary_min : Z;
  expected_salary_max : Z;
  experience_years : Z;
  current_role : pystr;
  primary_skills : list pystr;
  is_active : bool
}.

(** Modelled from the spec: what [update_user_profile(email, **update_data)]
    does to a row ("merges supplied fields"): an attribute named in
    [update_data] takes the value given, the others stay. *)
Definition apply_update (ud : UpdateData) (p : Profile) : Profile :=
  {| email := email p;
     name := name p;
     preferred_locations :=
       default (preferred_locations p) (ud_preferred_locations ud);
     expected_salary_min :=
       default (expected_salary_min p) (ud_expected_salary_min ud);
     expected_salary_max :=
       default (expected_salary_max p) (ud_expected_salary_max ud);
     experience_years := default (experience_years p) (ud_experience_years ud);
     current_role := default (current_role p) (ud_current_role ud);
     primary_skills := default (primary_skills p) (ud_primary_skills ud);
     is_active := is_active p |}.

Section Table.

(** The attribute values a default profile starts with. *)
Variable blank : Profile.

(** Modelled from the spec: [create_default_profile(email, name=...)] makes
    the row of a "default profile" for an email that has none. *)
Definition default_profile (e n : pystr) : Profile :=
  {| email := e;
     name := n;
     preferred_locations := preferred_locations blank;
     expected_salary_min := expected_salary_min blank;
     expected_salary_max := expected_salary_max blank;
     experience_years := experience_years blank;
     current_role := current_role blank;
     primary_skills := primary_skills blank;
     is_active := true |}.

(** Modelled from the spec: [get_user_profile] over a table with one row
    per email ("profile email is unique and treated as primary key"), a
    "single profile lookup"; the database of this table is reachable, so
    none of its four functions raises. *)
Definition get_user_profile (e : pystr) (t : gmap pystr Profile)
  : gmap pystr Profile * (Api.exn + option Profile) :=
  (t, inr (t !! e)).

(** Modelled from the spec: [create_default_profile] adds the default row
    for the email and returns it. *)
Definition create_default_profile (e n : pystr) (t : gmap pystr Profile)
  : gmap pystr Profile * (Api.exn + option Profile) :=
  let p := default_profile e n in (<[e := p]> t, inr (Some p)).

(** Modelled from the spec: [update_user_profile] rewrites the row of the
    email with [apply_update] and returns it, or returns [None] when the
    email has no row. *)
Definition update_user_profile (e : pystr) (ud : UpdateData)
    (t : gmap pystr Profile)
  : gmap pystr Profile * (Api.exn + option Profile) :=
  match t !! e with
  | Some p => let p' := apply_update ud p in (<[e := p']> t, inr (Some p'))
  | None => (t, inr None)
  end.

(** Modelled from the spec: [get_all_active_profiles] lists the rows that
    are not soft-deleted. *)
Definition get_all_active_profiles (t : gmap pystr Profile)
  : gmap pystr Profile * (Api.exn + list Profile) :=
  (t, inr (filter (fun p => is_active p = true) (map snd (map_to_list t)))).

(** Modelled from the spec: the profile manager made of the four functions
    above; [to_dict] gives every attribute of the row, and the record itself
    stands for the dictionary. *)
Definition table : Api.ProfileManager (gmap pystr Profile) Profile Profile := {|
  Api.get_user_profile := get_user_profile;
  Api.create_default_profile := create_default_profile;
  Api.update_user_profile := update_user_profile;
  Api.get_all_active_profiles := get_all_active_profiles;
  Api.to_dict := fun p => p
|}.

(** The profile a submission for [e] starts from: the row of [e], or a
    default one. *)
Definition profile_before (t : gmap pystr Profile) (e : pystr) : Profile :=
  default (default_profile e (PyStr.split_head 64%N e)) (t !! e).

(** The emails the loop of [update_config] does not skip, stripped. *)
Definition valid_emails (raws : list pystr) : list pystr :=
  omap (fun raw => let e := PyStr.strip raw in
                   if PyStr.truthy e then Some e else None) raws.

(** The table after the turn of the loop for [e]: its row is the profile it
    started from, updated. *)
Definition submit (ud : UpdateData) (t : gmap pystr Profile) (e : pystr)
  : gmap pystr Profile :=
  <[e := apply_update ud (profile_before t e)]> t.

End Table.

(** A database that cannot be reached: every call raises [e]. *)
Definition unreachable (e : Api.exn) : Api.ProfileManager unit Profile Profile := {|
  Api.get_user_profile := fun _ s => (s, inl e);
  Api.create_default_profile := fun _ _ s => (s, inl e);
  Api.update_user_profile := fun _ _ s => (s, inl e);
  Api.get_all_active_profiles := fun s => (s, inl e);
  Api.to_dict := fun p => p
|}.

End Store.

(* ===================================================================== *)
(** ** Recording the calls of the profile manager                         *)
(* ===================================================================== *)

Module Trace.
Import Payload Api.

(** A call of one of the four functions, with its arguments. *)
Inductive Call :=
| GetProfile (email : pystr)
| CreateDefault (email name : pystr)
| UpdateProfile (email : pystr) (update_data : UpdateData)
| AllActive.

(** Run [op] on the database and note the call [c] after those made so
    far. *)
Definition record {St A} (c : Call) (op : St -> St * (exn + A))
    (st : St * list Call) : (St * list Call) * (exn + A) :=
  let '(s', r) := op st.1 in ((s', st.2 ++ [c]), r).

(** Any profile manager, with its calls recorded beside its database. *)
Definition traced {St Prof D} (PM : ProfileManager St Prof D)
  : ProfileManager (St * list Call) Prof D := {|
  get_user_profile e := record (GetProfile e) (get_user_profile e);
  create_default_profile e n :=
    record (CreateDefault e n) (create_default_profile e n);
  update_user_profile e ud :=
    record (UpdateProfile e ud) (update_user_profile e ud);
  get_all_active_profiles := record AllActive get_all_active_profiles;
  to_dict := to_dict
|}.

(** The world without the record, and the record. *)
Definition untraced {St} (w : World (St * list Call)) : World St :=
  {| db := (db w).1; config := config w; log := log w |}.

Definition calls {St} (w : World (St * list Call)) : list Call := (db w).2.

(** The calls one turn of the loop of [update_config] can make for the
    stripped email [e]: the lookup, then the creation or not, then the
    update or not. *)
Definition turn_blocks (req : ConfigRequest) (e : pystr) : list (list Call) :=
  let get := GetProfile e in
  let create := CreateDefault e (PyStr.split_head 64%N e) in
  let update := UpdateProfile e (build_update_data req) in
  [ [get]; [get; update]; [get; create]; [get; create; update] ].

(** The email looked up by a call, when it is a lookup. *)
Definition looked_up (c : Call) : option pystr :=
  match c with GetProfile e => Some e | _ => None end.

(** The email a call is about, when it is about one. *)
Definition call_email (c : Call) : option pystr :=
  match c with
  | GetProfile e | CreateDefault e _ | UpdateProfile e _ => Some e
  | AllActive => None
  end.

End Trace.

(* ===================================================================== *)
(** ** Sample requests and stores                                         *)
(* ===================================================================== *)

Module Samples.
Import Payload Api Store.

Definition blank : Profile :=
  {| email := []; name := []; preferred_locations := [];
     expected_salary_min := 0; expected_salary_max := 0;
     experience_years := 0; current_role := []; primary_skills := [];
     is_active := true |}.

Definition analyst : Profile :=
  {| email := str "a@x.com"; name := str "a";
     preferred_locations := [str "Pune"];
     expected_salary_min := 4; expected_salary_max := 9;
     experience_years := 2; current_role := str "Analyst";
     primary_skills := [str "SQL"]; is_active := true |}.

Definition settings : Config :=
  {| PREFERRED_LOCATIONS := [str "Remote"]; MIN_SALARY := 5; MAX_SALARY := 50;
     EMAIL_RECIPIENT := Some (str "ops@x.com") |}.

Definition world_of {St} (s : St) : World St :=
  {| db := s; config := settings; log := [] |}.

(** No profile yet, and one profile for ["a@x.com"]. *)
Definition empty_world : World (gmap pystr Profile) := world_of ∅.
Definition analyst_world : World (gmap pystr Profile) :=
  world_of {[ (str "a@x.com") := analyst ]}.
Definition down_world : World unit := world_of tt.

Definition request (emails locs : list pystr) (ranges : list SalaryRange)
    (emin emax : option Z) (title : pystr) : ConfigRequest :=
  {| receiver_emails := emails; locations := locs; salary_ranges := ranges;
     experience_min := emin; experience_max := emax; job_title := title |}.

Definition range (lo hi : Z) : SalaryRange :=
  {| range_min := Some lo; range_max := Some hi |}.

(** [receiver_emails=["a@x.com"], locations=["NYC"]] *)
Definition req_nyc := request [str "a@x.com"] [str "NYC"] [] None None [].
(** [salary_ranges=[{min:5,max:10},{min:8,max:20}]] *)
Definition req_salary :=
  request [str "a@x.com"] [] [range 5 10; range 8 20] None None [].
(** [salary_ranges=[{min:0,max:10},{min:8,max:20}]] *)
Definition req_from_zero :=
  request [str "a@x.com"] [] [range 0 10; range 8 20] None None [].
(** [job_title="Backend Engineer"] *)
Definition req_backend :=
  request [str "a@x.com"] [] [] None None (str "Backend Engineer").
(** [locations=[" NYC ", ""]] *)
Definition req_padded :=
  request [str "a@x.com"] [str " NYC "; []] [] None None [].
(** [experience_max=7] and nothing else but the email *)
Definition req_max_only := request [str "a@x.com"] [] [] None (Some 7) [].
(** [experience_min=3, experience_max=7, job_title="Data Engineer"] *)
Definition req_experience :=
  request [str "a@x.com"] [] [] (Some 3) (Some 7) (str "Data Engineer").
(** [receiver_emails=[]] *)
Definition req_no_emails :=
  request [] [str "NYC"] [range 5 10] (Some 1) None (str "Dev").
(** [receiver_emails=[" ", ""]] *)
Definition req_blank_emails :=
  request [str " "; []] [str "NYC"] [range 5 10] (Some 1) None (str "Dev").

(** The ranges of [req_salary] in the other order. *)
Definition req_salary_swapped :=
  request [str "a@x.com"] [] [range 8 20; range 5 10] None None [].
(** [receiver_emails=[" a@x.com", "", "b@x.com "]] *)
Definition req_padded_emails :=
  request [str " a@x.com"; []; str "b@x.com "] [str "NYC"] [] (Some 4) None
    (str "React dev").

(** [receiver_emails=["\t", "", "\u00a0 ", "\u3000\u2003"]] *)
Definition req_blank_unicode :=
  request [[9]; []; [160; 32]; [12288; 8195]]%N [str "NYC"] []
    None None (str "Dev").
(** [receiver_emails=["\u00a0a@x.com\t", "\u3000"]],
    [locations=["\u2003NYC\u00a0", "\u0085"]] *)
Definition req_padded_unicode :=
  request [[160]%N ++ str "a@x.com" ++ [9]%N; [12288]%N]
    [[8195]%N ++ str "NYC" ++ [160]%N; [133]%N] [] None None [].
(** [job_title="Senior BAC\u212aEND lead"], with the Kelvin sign *)
Definition req_kelvin :=
  request [str "a@x.com"] [] [] None None
    (str "Senior BAC" ++ [8490]%N ++ str "END lead").
(** [job_title="Full-stack (ReactJS, python)"] *)
Definition req_two_keywords :=
  request [str "a@x.com"] [] [] None None
    (str "Full-stack (ReactJS, python)").
(** [job_title="Accountant"] *)
Definition req_no_keyword :=
  request [str "a@x.com"] [] [] None None (str "Accountant").

End Samples.


(* ===================================================================== *)
(** ** Facts about the string operations                                  *)
(* ===================================================================== *)

Module PyStrFacts.
Import PyStr.

Lemma truthy_true_iff (s : pystr) : truthy s = true <-> s <> [].
Proof. destruct s; simpl; split; congruence. Qed.

Lemma truthy_false_iff (s : pystr) : truthy s = false <-> s = [].
Proof. destruct s; simpl; split; congruence. Qed.

(** *** White space *)

(** [is_space] holds of the white space characters, and of no other. *)
Lemma is_space_iff c : is_space c = true <-> Said.Whitespace c.
Proof.
  unfold is_space, whitespace, Said.Whitespace. cbn [existsb].
  rewrite !orb_true_iff, !N.eqb_eq. lia.
Qed.

Lemma is_space_false_iff c : is_space c = false <-> ~ Said.Whitespace c.
Proof. rewrite <- is_space_iff. by destruct (is_space c). Qed.

Lemma all_space_iff (s : pystr) : all_space s = true <-> Said.Blank s.
Proof.
  unfold all_space, Said.Blank. induction s as [|c s IH]; simpl.
  - split; [constructor | done].
  - rewrite andb_true_iff, Forall_cons, IH, is_space_iff. done.
Qed.

Lemma lstrip_empty_iff s : lstrip s = [] <-> all_space s = true.
Proof.
  induction s as [|c s IH]; simpl; [tauto|].
  destruct (is_space c); simpl; [exact IH|].
  split; discriminate.
Qed.

Lemma rstrip_empty_iff s : rstrip s = [] <-> all_space s = true.
Proof.
  induction s as [|c s IH]; simpl; [tauto|].
  destruct (rstrip s) as [|c' r] eqn:Hr.
  - destruct (is_space c); simpl; [tauto|]. split; discriminate.
  - split; [discriminate|].
    intros [_ Hs]%andb_true_iff. apply IH in Hs. discriminate.
Qed.

Lemma all_space_lstrip s : all_space (lstrip s) = all_space s.
Proof.
  induction s as [|c s IH]; simpl; [reflexivity|].
  destruct (is_space c) eqn:Hc; simpl; [exact IH|].
  by rewrite Hc.
Qed.

(** [s.strip()] is empty exactly when [s] is made of white space. *)
Lemma strip_empty_iff s : strip s = [] <-> all_space s = true.
Proof. unfold strip. by rewrite rstrip_empty_iff, all_space_lstrip. Qed.

Lemma strip_blank_iff s : strip s = [] <-> Said.Blank s.
Proof. by rewrite strip_empty_iff, all_space_iff. Qed.

Lemma strip_nonempty s : strip s <> [] -> s <> [].
Proof. intros H ->. by apply H. Qed.

(** The test of line 81 comes down to the stripped email being empty. *)
Lemma skip_test s :
  negb (truthy s) || negb (truthy (strip s)) = negb (truthy (strip s)).
Proof.
  destruct (truthy (strip s)) eqn:Hs; simpl.
  - apply truthy_true_iff, strip_nonempty, truthy_true_iff in Hs.
    by rewrite Hs.
  - by rewrite orb_true_r.
Qed.

(** *** [strip] removes the outer white space and nothing else *)

Lemma lstrip_decompose s :
  exists pre, s = pre ++ lstrip s /\ all_space pre = true.
Proof.
  induction s as [|c s (pre & Hs & Hpre)]; simpl.
  - by exists [].
  - destruct (is_space c) eqn:Hc.
    + exists (c :: pre). simpl. rewrite Hc, Hpre. split; [by f_equal | done].
    + by exists [].
Qed.

Lemma rstrip_decompose s :
  exists post, s = rstrip s ++ post /\ all_space post = true.
Proof.
  induction s as [|c s (post & Hs & Hpost)]; simpl.
  - by exists [].
  - destruct (rstrip s) as [|c' r] eqn:Hr.
    + simpl in Hs. subst s. destruct (is_space c) eqn:Hc.
      * exists (c :: post). simpl. by rewrite Hc, Hpost.
      * by exists post.
    + exists post. simpl. split; [by f_equal | done].
Qed.

Lemma lstrip_head s c r : lstrip s = c :: r -> is_space c = false.
Proof.
  induction s as [|c' s IH]; simpl; [discriminate|].
  destruct (is_space c') eqn:Hc; [exact IH|].
  by intros [= <- _].
Qed.

Lemma rstrip_last s r c : rstrip s = r ++ [c] -> is_space c = false.
Proof.
  revert r. induction s as [|c0 s IH]; intros r; simpl.
  - by destruct r.
  - destruct (rstrip s) as [|c' r'] eqn:Hr.
    + destruct (is_space c0) eqn:Hc; [by destruct r|].
      destruct r as [|? [|? ?]]; [by intros [= <-] | discriminate..].
    + destruct r as [|c1 r]; [discriminate|].
      intros [= _ Hrest]. by eapply IH.
Qed.

(** [s] is [strip s] between two runs of white space, and [strip s], when
    not empty, begins and ends with characters that are not white space. *)
Lemma strip_decompose s :
  exists pre post,
    s = pre ++ strip s ++ post
    /\ all_space pre = true /\ all_space post = true.
Proof.
  destruct (lstrip_decompose s) as (pre & Hs & Hpre).
  destruct (rstrip_decompose (lstrip s)) as (post & Hl & Hpost).
  exists pre, post. unfold strip. by rewrite <- Hl.
Qed.

Lemma strip_head s c r : strip s = c :: r -> is_space c = false.
Proof.
  unfold strip. intros Hr.
  destruct (rstrip_decompose (lstrip s)) as (post & Hl & _).
  rewrite Hr in Hl. simpl in Hl. by apply lstrip_head in Hl.
Qed.

Lemma strip_last s r c : strip s = r ++ [c] -> is_space c = false.
Proof. apply rstrip_last. Qed.

(** [strip s] is [s] stripped, as the words say it. *)
Lemma strip_stripped s : Said.StrippedOf s (strip s).
Proof.
  destruct (strip_decompose s) as (pre & post & Hs & Hpre & Hpost).
  exists pre, post. split; [exact Hs|].
  split; [by apply all_space_iff|]. split; [by apply all_space_iff|].
  split.
  - intros c r Ht. by apply is_space_false_iff, (strip_head s c r).
  - intros r c Ht. by apply is_space_false_iff, (strip_last s r c).
Qed.

Lemma lstrip_blank_app pre s :
  all_space pre = true -> lstrip (pre ++ s) = lstrip s.
Proof.
  induction pre as [|c pre IH]; [done|]. simpl.
  intros [-> Hpre]%andb_true_iff. by apply IH.
Qed.

Lemma rstrip_app_blank s post :
  all_space post = true -> rstrip (s ++ post) = rstrip s.
Proof.
  intros Hpost. induction s as [|c s IH]; simpl.
  - by apply rstrip_empty_iff.
  - by rewrite IH.
Qed.

Lemma lstrip_fixed s :
  (forall c r, s = c :: r -> is_space c = false) -> lstrip s = s.
Proof.
  destruct s as [|c r]; [done|]. intros H. simpl. by rewrite (H c r).
Qed.

Lemma rstrip_fixed s :
  (forall r c, s = r ++ [c] -> is_space c = false) -> rstrip s = s.
Proof.
  induction s as [|c s IH]; [done|]. intros H. simpl.
  rewrite IH.
  - destruct s as [|c' s']; [|done]. by rewrite (H [] c).
  - intros r c' ->. by apply (H (c :: r) c').
Qed.

Lemma lstrip_app_head t post c r :
  t = c :: r -> is_space c = false -> lstrip (t ++ post) = t ++ post.
Proof. intros -> Hc. simpl. by rewrite Hc. Qed.

(** And nothing else is: the stripped string is unique. *)
Lemma stripped_unique s t : Said.StrippedOf s t -> t = strip s.
Proof.
  intros (pre & post & -> & Hpre & Hpost & Hhead & Hlast).
  apply all_space_iff in Hpre, Hpost. unfold strip.
  rewrite lstrip_blank_app by done.
  destruct t as [|c r].
  - simpl. symmetry. apply rstrip_empty_iff. by rewrite all_space_lstrip.
  - rewrite (lstrip_app_head (c :: r) post c r) by
      (try done; by apply is_space_false_iff, (Hhead c r)).
    rewrite rstrip_app_blank by done. symmetry. apply rstrip_fixed.
    intros r' c' Heq. apply is_space_false_iff. by eapply Hlast.
Qed.

Lemma stripped_iff s t : Said.StrippedOf s t <-> t = strip s.
Proof. split; [apply stripped_unique | intros ->; apply strip_stripped]. Qed.

Lemma stripped_blank s t : Said.StrippedOf s t -> (t = [] <-> Said.Blank s).
Proof. intros ->%stripped_unique. apply strip_blank_iff. Qed.

(** *** [contains] is the substring test *)

Lemma starts_with_iff sub s :
  starts_with sub s = true <-> exists post, s = sub ++ post.
Proof.
  revert s. induction sub as [|a sub IH]; intros s.
  - split; [intros _; by exists s | intros _; by destruct s].
  - destruct s as [|b s]; cbn [starts_with].
    { split; [discriminate | by intros [? [=]]]. }
    rewrite andb_true_iff, N.eqb_eq, IH. split.
    + intros [-> [post ->]]. by exists post.
    + intros [post [= -> ->]]. split; [done | by exists post].
Qed.

Lemma contains_iff sub s :
  contains sub s = true <-> exists pre post, s = pre ++ sub ++ post.
Proof.
  induction s as [|c s IH].
  - cbn [contains]. rewrite orb_false_r, starts_with_iff. split.
    + intros [post ->]. by exists [], post.
    + intros (pre & post & Hs). destruct pre; [by exists post|discriminate].
  - cbn [contains]. rewrite orb_true_iff, starts_with_iff, IH. split.
    + intros [[post ->] | (pre & post & ->)].
      * by exists [], post.
      * by exists (c :: pre), post.
    + intros (pre & post & Hs). destruct pre as [|c' pre].
      * left. by exists post.
      * right. injection Hs as -> ->. by exists pre, post.
Qed.

(** *** [split_head] is what precedes the first separator *)

Lemma split_head_no_sep sep s : sep ∉ split_head sep s.
Proof.
  induction s as [|c s IH]; [apply not_elem_of_nil|].
  simpl. destruct (N.eqb_spec c sep) as [->|Hne]; [apply not_elem_of_nil|].
  intros [->|Hin]%elem_of_cons; done.
Qed.

Lemma split_head_decompose sep s :
  split_head sep s = s
  \/ exists rest, s = split_head sep s ++ sep :: rest.
Proof.
  induction s as [|c s IH]; [by left|].
  simpl. destruct (N.eqb_spec c sep) as [->|Hne].
  - right. by exists s.
  - destruct IH as [-> | [rest Hs]]; [by left|].
    right. exists rest. simpl. by f_equal.
Qed.

End PyStrFacts.


(* ===================================================================== *)
(** ** More on the string operations                                      *)
(* ===================================================================== *)

Module PyStrMore.
Import PyStr PyStrFacts.
Local Open Scope N_scope.

(** Stripping twice is stripping once. *)
Lemma strip_strip s : strip (strip s) = strip s.
Proof.
  symmetry. apply stripped_unique.
  destruct (strip_stripped s) as (pre & post & _ & _ & _ & Hhead & Hlast).
  exists [], []. rewrite app_nil_r. repeat split; try done; constructor.
Qed.

(** *** The lowercase mappings *)

Lemma assoc_in k v table : assoc k table = Some v -> In (k, v) table.
Proof.
  induction table as [|[k' v'] table IH]; simpl; [discriminate|].
  destruct (N.eqb_spec k k') as [->|Hne]; [intros [= ->]; by left|].
  intros H. right. by apply IH.
Qed.

(** In the table, a code point whose lowercase is a 7-bit character is a
    capital letter of the alphabet, 32 below its small letter, or the
    Kelvin sign, for "k". *)
Lemma lowercase_seven_bit c l :
  In (c, l) Unicode.lowercase -> l < 128 ->
  (65 <= c <= 90 /\ l = c + 32) \/ (c = 8490 /\ l = 107).
Proof.
  intros Hin Hl.
  assert (Hall : forallb (fun '(c, l) =>
                   negb (l <? 128)
                   || ((65 <=? c) && (c <=? 90) && (l =? c + 32))
                   || ((c =? 8490) && (l =? 107))) Unicode.lowercase = true)
    by (vm_compute; reflexivity).
  rewrite forallb_forall in Hall. specialize (Hall _ Hin). cbn beta iota in Hall.
  rewrite !orb_true_iff, !andb_true_iff, negb_true_iff in Hall.
  rewrite N.ltb_ge, !N.leb_le, !N.eqb_eq in Hall. lia.
Qed.

(** Every 7-bit character has the lowercase of the alphabet. *)
Lemma to_lower_seven_bit c :
  c < 128 -> to_lower c = [if (65 <=? c) && (c <=? 90) then c + 32 else c].
Proof.
  intros Hc.
  assert (Hall : forallb (fun n => let c := N.of_nat n in
                   bool_decide (to_lower c
                     = [if (65 <=? c) && (c <=? 90) then c + 32 else c]))
                   (seq 0 128) = true)
    by (vm_compute; reflexivity).
  rewrite forallb_forall in Hall.
  specialize (Hall (N.to_nat c)). cbv zeta in Hall.
  rewrite N2Nat.id in Hall. apply bool_decide_eq_true in Hall; [done|].
  apply in_seq. lia.
Qed.

Lemma to_lower_kelvin : to_lower 8490 = [107].
Proof. vm_compute. reflexivity. Qed.

(** What [lower] writes for one character is one code point, or the two
    of U+0130, "i" and the combining dot. *)
Lemma lower_at_shape before c after :
  (exists y, lower_at before c after = [y])
  \/ (c = 304 /\ lower_at before c after = [105; 775]).
Proof.
  unfold lower_at, to_lower.
  destruct (N.eqb_spec c 931) as [->|H931]; [left; eauto|].
  destruct (N.eqb_spec c 304) as [->|H304]; [by right|].
  left. destruct (assoc c Unicode.lowercase); eauto.
Qed.

(** When it is one 7-bit code point, the character is that one, its
    capital or the Kelvin sign, and what is written does not depend on
    what is around. *)
Lemma lower_at_seven_bit before c after y :
  lower_at before c after = [y] -> y < 128 ->
  to_lower c = [y] /\ c <> 931
  /\ (c = y \/ (65 <= c <= 90 /\ y = c + 32) \/ (c = 8490 /\ y = 107)).
Proof.
  unfold lower_at.
  destruct (N.eqb_spec c 931) as [->|H931].
  { destruct (final_sigma before after); intros [= <-]; lia. }
  intros Hl Hy. split; [done|]. split; [done|].
  unfold to_lower in Hl.
  destruct (N.eqb_spec c 304) as [->|H304]; [discriminate|].
  destruct (assoc c Unicode.lowercase) as [l|] eqn:Ha.
  - injection Hl as ->. apply assoc_in in Ha.
    right. by apply lowercase_seven_bit.
  - injection Hl as ->. by left.
Qed.

Lemma lower_at_free before c after :
  c <> 931 -> lower_at before c after = to_lower c.
Proof. intros Hc. unfold lower_at. by destruct (N.eqb_spec c 931). Qed.

(** A small letter of the alphabet is what [lower] writes for itself, for
    its capital and, for "k", for the Kelvin sign. *)
Lemma same_letter_lower c k :
  97 <= k <= 122 -> Said.SameLetter c k -> c <> 931 /\ to_lower c = [k].
Proof.
  intros Hk [-> | [[Hc ->] | [-> ->]]].
  - split; [lia|]. rewrite to_lower_seven_bit by lia.
    destruct (N.leb_spec 65 k), (N.leb_spec k 90); simpl; try done; lia.
  - split; [lia|]. rewrite to_lower_seven_bit by lia.
    destruct (N.leb_spec 65 c), (N.leb_spec c 90); simpl; try done; lia.
  - split; [lia|]. apply to_lower_kelvin.
Qed.

(** *** [lower] on a part of a string *)

Lemma lower_from_app before pre s :
  exists written,
    lower_from before (pre ++ s) = written ++ lower_from (rev pre ++ before) s.
Proof.
  revert before. induction pre as [|c pre IH]; intros before.
  - by exists [].
  - destruct (IH (c :: before)) as [written Hw].
    exists (lower_at before c (pre ++ s) ++ written).
    cbn [app lower_from rev]. rewrite Hw, <- !app_assoc. done.
Qed.

(** A part written in 7-bit characters is written the same wherever it
    stands. *)
Lemma lower_from_seven_bit before before' word post :
  Forall (fun y => y < 128) (lower_from before word) ->
  lower_from before' (word ++ post)
  = lower_from before word ++ lower_from (rev word ++ before') post.
Proof.
  revert before before'. induction word as [|c word IH];
    intros before before'; [done|].
  cbn [app lower_from rev]. intros [Hc Hrest]%Forall_app.
  destruct (lower_at_shape before c word) as [[y Hy] | [-> Hy]].
  - rewrite Hy in Hc. apply Forall_cons in Hc as [Hy128 _].
    destruct (lower_at_seven_bit _ _ _ _ Hy Hy128) as (Hto & H931 & _).
    rewrite !lower_at_free by done.
    rewrite (IH _ (c :: before') Hrest), <- !app_assoc. done.
  - rewrite Hy in Hc. apply Forall_cons in Hc as [_ Hc].
    apply Forall_cons in Hc as [Hc _]. lia.
Qed.

Lemma lower_seven_bit_anywhere before word :
  Forall (fun y => y < 128) (lower word) -> lower_from before word = lower word.
Proof.
  intros H. unfold lower in *.
  pose proof (lower_from_seven_bit [] before word [] H) as Heq.
  rewrite app_nil_r in Heq. rewrite Heq. cbn [lower_from]. apply app_nil_r.
Qed.

(** A keyword of small letters other than "i" that begins what [lower]
    writes is written for the characters that begin the string. *)
Lemma lower_from_starts before s kw rest :
  Forall (fun k => 97 <= k <= 122 /\ k <> 105) kw ->
  lower_from before s = kw ++ rest ->
  exists word post, s = word ++ post /\ lower word = kw.
Proof.
  intros Hkw. revert before s.
  induction Hkw as [|k kw [Hk Hki] Hkw IH]; intros before s Hs.
  { by exists [], s. }
  destruct s as [|c s]; [discriminate|]. cbn [lower_from] in Hs.
  destruct (lower_at_shape before c s) as [[y Hy] | [-> Hy]].
  - rewrite Hy in Hs. injection Hs as -> Hs.
    destruct (lower_at_seven_bit _ _ _ _ Hy ltac:(lia)) as (Hto & H931 & _).
    destruct (IH _ _ Hs) as (word & post & -> & Hword).
    exists (c :: word), post. split; [done|].
    unfold lower. cbn [lower_from]. rewrite lower_at_free, Hto by done.
    cbn [app]. f_equal. rewrite lower_seven_bit_anywhere; [done|].
    rewrite Hword. eapply Forall_impl; [exact Hkw|]. intros ? [? _]. simpl. lia.
  - rewrite Hy in Hs. injection Hs as Heq _. lia.
Qed.

Lemma lower_from_contains before s pre kw rest :
  Forall (fun k => 97 <= k <= 122 /\ k <> 105) kw -> kw <> [] ->
  lower_from before s = pre ++ kw ++ rest ->
  exists written word post, s = written ++ word ++ post /\ lower word = kw.
Proof.
  intros Hkw Hne. revert before pre.
  induction s as [|c s IH]; intros before pre Hs.
  { destruct pre, kw; done. }
  destruct pre as [|a pre].
  { destruct (lower_from_starts before (c :: s) kw rest Hkw Hs)
      as (word & post & -> & ?).
    by exists [], word, post. }
  cbn [lower_from] in Hs.
  destruct (lower_at_shape before c s) as [[y Hy] | [-> Hy]].
  - rewrite Hy in Hs. injection Hs as -> Hs.
    destruct (IH _ _ Hs) as (written & word & post & -> & Hword).
    by exists (c :: written), word, post.
  - rewrite Hy in Hs. injection Hs as _ Hs.
    destruct pre as [|a' pre].
    + destruct kw as [|k kw]; [done|]. injection Hs as Heq _.
      apply Forall_cons in Hkw as [[? _] _]. lia.
    + injection Hs as _ Hs.
      destruct (IH _ _ Hs) as (written & word & post & -> & Hword).
      by exists (304 :: written), word, post.
Qed.

(** The test [kw in s.lower()], for a keyword of small letters other than
    "i", is the occurrence in [s] of a word that [lower] writes as [kw]. *)
Lemma contains_lower_iff kw s :
  Forall (fun k => 97 <= k <= 122 /\ k <> 105) kw -> kw <> [] ->
  contains kw (lower s) = true <-> mentions kw s.
Proof.
  intros Hkw Hne. rewrite contains_iff. split.
  - intros (pre & rest & Hs). by eapply lower_from_contains.
  - intros (pre & word & post & -> & Hword).
    destruct (lower_from_app [] pre (word ++ post)) as [written Hw].
    unfold lower. rewrite Hw.
    rewrite (lower_from_seven_bit [] _ word post).
    + fold (lower word). rewrite Hword. eauto.
    + fold (lower word). rewrite Hword.
      eapply Forall_impl; [exact Hkw|]. intros ? [? _]. simpl. lia.
Qed.

(** Such a word is the keyword in some letter case. *)
Lemma lower_same_letters before word kw :
  Forall (fun k => 97 <= k <= 122 /\ k <> 105) kw ->
  lower_from before word = kw <-> Forall2 Said.SameLetter word kw.
Proof.
  intros Hkw. revert before word.
  induction Hkw as [|k kw [Hk Hki] Hkw IH]; intros before word.
  - split.
    + destruct word as [|c word]; [constructor|]. cbn [lower_from].
      destruct (lower_at_shape before c word) as [[y Hy] | [_ Hy]];
        rewrite Hy; discriminate.
    + by intros ->%Forall2_nil_inv_r.
  - destruct word as [|c word].
    { split; [discriminate | by intros ?%Forall2_nil_cons_inv]. }
    cbn [lower_from]. rewrite Forall2_cons. split.
    + destruct (lower_at_shape before c word) as [[y Hy] | [-> Hy]];
        rewrite Hy; [|intros [= <- _]; done].
      intros [= -> Hrest].
      destruct (lower_at_seven_bit _ _ _ _ Hy ltac:(lia)) as (_ & _ & Hsame).
      split; [exact Hsame | by eapply IH].
    + intros [Hsame Hrest].
      destruct (same_letter_lower c k Hk Hsame) as [H931 Hto].
      rewrite lower_at_free, Hto by done. cbn [app]. f_equal.
      by apply IH.
Qed.

Lemma mentions_occurs kw s :
  Forall (fun k => 97 <= k <= 122 /\ k <> 105) kw ->
  mentions kw s <-> Said.Occurs kw s.
Proof.
  intros Hkw. unfold mentions, Said.Occurs, lower.
  split; intros (pre & word & post & Hs & Hword); exists pre, word, post;
    (split; [done|]); by apply (lower_same_letters [] word kw Hkw).
Qed.

(** The test [kw in title.lower()] is the occurrence of [kw] in the title
    in some letter case. *)
Lemma contains_lower_occurs kw s :
  Forall (fun k => 97 <= k <= 122 /\ k <> 105) kw -> kw <> [] ->
  contains kw (lower s) = true <-> Said.Occurs kw s.
Proof.
  intros Hkw Hne. by rewrite contains_lower_iff, mentions_occurs.
Qed.

End PyStrMore.

(* ===================================================================== *)
(** ** Facts about the update data                                        *)
(* ===================================================================== *)

Module PayloadFacts.
Import Payload.

Lemma foldl_min_spec (l : list Z) (x : Z) :
  (foldl Z.min x l = x \/ foldl Z.min x l ∈ l)
  /\ foldl Z.min x l <= x
  /\ Forall (fun y => foldl Z.min x l <= y) l.
Proof.
  revert x. induction l as [|a l IH]; intros x; simpl.
  - repeat split; [by left | lia | constructor].
  - destruct (IH (Z.min x a)) as (Hin & Hle & Hall).
    repeat split.
    + destruct Hin as [Heq | Hin].
      * rewrite Heq. destruct (Z.min_spec x a) as [[_ ->] | [_ ->]];
          [by left | right; apply list_elem_of_here].
      * right. by apply list_elem_of_further.
    + lia.
    + constructor; [lia | exact Hall].
Qed.

Lemma foldl_max_spec (l : list Z) (x : Z) :
  (foldl Z.max x l = x \/ foldl Z.max x l ∈ l)
  /\ x <= foldl Z.max x l
  /\ Forall (fun y => y <= foldl Z.max x l) l.
Proof.
  revert x. induction l as [|a l IH]; intros x; simpl.
  - repeat split; [by left | lia | constructor].
  - destruct (IH (Z.max x a)) as (Hin & Hle & Hall).
    repeat split.
    + destruct Hin as [Heq | Hin].
      * rewrite Heq. destruct (Z.max_spec x a) as [[_ ->] | [_ ->]];
          [right; apply list_elem_of_here | by left].
      * right. by apply list_elem_of_further.
    + lia.
    + constructor; [lia | exact Hall].
Qed.

(** [min(l)] is a least element of [l]. *)
Lemma py_min_spec (l : list Z) (m : Z) :
  py_min l = Some m -> m ∈ l /\ Forall (fun y => m <= y) l.
Proof.
  destruct l as [|x l]; simpl; [discriminate|].
  intros [= <-]. destruct (foldl_min_spec l x) as (Hin & Hle & Hall).
  split.
  - destruct Hin as [-> | Hin]; [apply list_elem_of_here | by apply list_elem_of_further].
  - by constructor.
Qed.

(** [max(l)] is a greatest element of [l]. *)
Lemma py_max_spec (l : list Z) (m : Z) :
  py_max l = Some m -> m ∈ l /\ Forall (fun y => y <= m) l.
Proof.
  destruct l as [|x l]; simpl; [discriminate|].
  intros [= <-]. destruct (foldl_max_spec l x) as (Hin & Hle & Hall).
  split.
  - destruct Hin as [-> | Hin]; [apply list_elem_of_here | by apply list_elem_of_further].
  - by constructor.
Qed.

Lemma py_min_is_Some (l : list Z) : l <> [] -> is_Some (py_min l).
Proof. destruct l; [done | by eexists]. Qed.

Lemma py_max_is_Some (l : list Z) : l <> [] -> is_Some (py_max l).
Proof. destruct l; [done | by eexists]. Qed.

(** The mins the handler aggregates: those present and not zero. *)
Lemma elem_of_all_mins (rs : list SalaryRange) (z : Z) :
  z ∈ all_mins rs <-> z <> 0 /\ exists r, r ∈ rs /\ range_min r = Some z.
Proof.
  unfold all_mins. rewrite list_elem_of_omap. split.
  - intros (r & Hr & Hz). destruct (range_min r) as [m|] eqn:Hm; simpl in Hz;
      [|discriminate].
    destruct (Z.eqb_spec m 0); simpl in Hz; [discriminate|].
    injection Hz as <-. eauto.
  - intros (Hz & r & Hr & Hm). exists r. split; [done|].
    rewrite Hm. simpl. by destruct (Z.eqb_spec z 0).
Qed.

Lemma elem_of_all_maxs (rs : list SalaryRange) (z : Z) :
  z ∈ all_maxs rs <-> z <> 0 /\ exists r, r ∈ rs /\ range_max r = Some z.
Proof.
  unfold all_maxs. rewrite list_elem_of_omap. split.
  - intros (r & Hr & Hz). destruct (range_max r) as [m|] eqn:Hm; simpl in Hz;
      [|discriminate].
    destruct (Z.eqb_spec m 0); simpl in Hz; [discriminate|].
    injection Hz as <-. eauto.
  - intros (Hz & r & Hr & Hm). exists r. split; [done|].
    rewrite Hm. simpl. by destruct (Z.eqb_spec z 0).
Qed.

(** The locations kept: the stripped ones that are not empty. *)
Lemma elem_of_clean_locations (locs : list pystr) (l : pystr) :
  l ∈ clean_locations locs <->
  l <> [] /\ exists loc, loc ∈ locs /\ PyStr.strip loc = l.
Proof.
  unfold clean_locations. rewrite list_elem_of_omap. split.
  - intros (loc & Hloc & Hl). simpl in Hl.
    destruct (PyStr.truthy (PyStr.strip loc)) eqn:Ht; [|discriminate].
    injection Hl as <-. apply PyStrFacts.truthy_true_iff in Ht. eauto.
  - intros (Hne & loc & Hloc & <-). exists loc. split; [done|]. simpl.
    apply PyStrFacts.truthy_true_iff in Hne. by rewrite Hne.
Qed.

(** Locations that carry no outer white space and are not empty are kept
    as they are. *)
Lemma clean_locations_id (locs : list pystr) :
  Forall (fun l => PyStr.strip l = l /\ l <> []) locs ->
  clean_locations locs = locs.
Proof.
  unfold clean_locations. induction 1 as [|l locs [Hs Hne] _ IH]; [done|].
  simpl. rewrite Hs. apply PyStrFacts.truthy_true_iff in Hne. rewrite Hne.
  simpl. by f_equal.
Qed.

(** The same list, said with [map] and [filter]. *)
Lemma clean_locations_filter (locs : list pystr) :
  clean_locations locs = filter (fun l => l <> []) (map PyStr.strip locs).
Proof.
  unfold clean_locations. induction locs as [|loc locs IH]; [done|].
  cbn [omap list_omap map]. rewrite filter_cons, IH.
  destruct (decide (PyStr.strip loc <> [])) as [Hne|He].
  - apply PyStrFacts.truthy_true_iff in Hne. by rewrite Hne.
  - assert (Hs : PyStr.strip loc = []) by (by destruct (decide (PyStr.strip loc = []))).
    by rewrite Hs.
Qed.

(** What the update data carries for the salary bounds. *)
Lemma update_data_salary_min req m :
  ud_expected_salary_min (build_update_data req) = Some m ->
  m ∈ all_mins (salary_ranges req)
  /\ Forall (fun y => m <= y) (all_mins (salary_ranges req)).
Proof.
  simpl. destruct (salary_ranges req); [discriminate|]. apply py_min_spec.
Qed.

Lemma update_data_salary_max req m :
  ud_expected_salary_max (build_update_data req) = Some m ->
  m ∈ all_maxs (salary_ranges req)
  /\ Forall (fun y => y <= m) (all_maxs (salary_ranges req)).
Proof.
  simpl. destruct (salary_ranges req); [discriminate|]. apply py_max_spec.
Qed.

(** When every range has a min that is not zero, the mins aggregated are
    the mins of all the ranges. *)
Lemma all_mins_nonzero (rs : list SalaryRange) :
  Forall (fun r => exists z, range_min r = Some z /\ z <> 0) rs ->
  Some <$> all_mins rs = range_min <$> rs.
Proof.
  unfold all_mins. induction 1 as [|r rs (z & Hz & Hnz) _ IH]; [done|].
  cbn [omap list_omap]. rewrite Hz. simpl.
  destruct (Z.eqb_spec z 0); [done|]. simpl. rewrite Hz. by f_equal.
Qed.

Lemma all_maxs_nonzero (rs : list SalaryRange) :
  Forall (fun r => exists z, range_max r = Some z /\ z <> 0) rs ->
  Some <$> all_maxs rs = range_max <$> rs.
Proof.
  unfold all_maxs. induction 1 as [|r rs (z & Hz & Hnz) _ IH]; [done|].
  cbn [omap list_omap]. rewrite Hz. simpl.
  destruct (Z.eqb_spec z 0); [done|]. simpl. rewrite Hz. by f_equal.
Qed.

End PayloadFacts.

(* ===================================================================== *)
(** ** The handlers over any profile manager                              *)
(* ===================================================================== *)

Module ApiFacts.
Import Payload Api.

Section Generic.
Context {St Prof D : Type} `{PM : ProfileManager St Prof D}.

Lemma with_db_id (w : World St) : with_db (db w) w = w.
Proof. by destruct w. Qed.

Lemma with_db_twice (s1 s2 : St) (w : World St) :
  with_db s2 (with_db s1 w) = with_db s2 w.
Proof. reflexivity. Qed.

(** *** Skipped emails *)

Lemma process_email_skip req raw (upd : list D) w :
  PyStr.strip raw = [] -> process_email req raw upd w = (w, inr upd).
Proof.
  intros H. unfold process_email.
  rewrite PyStrFacts.skip_test, H. reflexivity.
Qed.

Lemma process_emails_skip req emails (upd : list D) w :
  Forall (fun raw => PyStr.all_space raw = true) emails ->
  process_emails req emails upd w = (w, inr upd).
Proof.
  induction 1 as [|raw emails Hraw _ IH]; [reflexivity|].
  simpl. unfold bind at 1.
  rewrite process_email_skip by by apply PyStrFacts.strip_empty_iff.
  exact IH.
Qed.

(** The turn of an email that is not skipped, call by call. *)
Lemma process_email_run req raw (upd : list D) w :
  PyStr.strip raw <> [] ->
  process_email req raw upd w =
  let email := PyStr.strip raw in
  (found <- call (get_user_profile email) ;;
   profile <- match found with
              | Some p => ret (Some p)
              | None => call (create_default_profile email
                                (PyStr.split_head 64%N email))
              end ;;
   match profile with
   | None => ret upd
   | Some _ =>
       updated_profile <-
         call (update_user_profile email (build_update_data req)) ;;
       match updated_profile with
       | Some p => ret (upd ++ [to_dict p])
       | None => ret upd
       end
   end) w.
Proof.
  intros H. unfold process_email. rewrite PyStrFacts.skip_test.
  apply PyStrFacts.truthy_true_iff in H. by rewrite H.
Qed.

(** *** No emails at all *)

Lemma update_config_400 req w :
  receiver_emails req = [] ->
  update_config req w = (w, err 400 "At least one receiver email is required").
Proof.
  intros He. unfold update_config, try_except, update_config_body.
  by rewrite He.
Qed.

(** *** [experience_max] is not used *)

Lemma build_update_data_experience_max x req :
  build_update_data (with_experience_max x req) = build_update_data req.
Proof. reflexivity. Qed.

Lemma process_emails_experience_max x req raws (upd : list D) w :
  process_emails (with_experience_max x req) raws upd w
  = process_emails req raws upd w.
Proof.
  revert upd w. induction raws as [|raw raws IH]; intros upd w; [reflexivity|].
  simpl. unfold bind.
  change (process_email (with_experience_max x req) raw upd w)
    with (process_email req raw upd w).
  destruct (process_email req raw upd w) as [w1 [e|upd']]; [reflexivity|].
  apply IH.
Qed.

Lemma update_config_experience_max x req w :
  update_config (with_experience_max x req) w = update_config req w.
Proof.
  unfold update_config, try_except, update_config_body. simpl.
  destruct (receiver_emails req) as [|raw raws]; [reflexivity|].
  unfold bind. by rewrite process_emails_experience_max.
Qed.

(** *** The count in the response *)

Lemma update_config_count req w msg (ps : list D) n :
  body (update_config req w).2 = UpdatedBody msg ps n -> n = length ps.
Proof.
  unfold update_config, try_except, update_config_body.
  destruct (receiver_emails req) as [|e es]; [discriminate|].
  unfold bind. destruct (process_emails _ _ _ _) as [w' [x|ups]]; simpl;
    [discriminate|].
  by intros [= _ <- <-].
Qed.

(** *** The configuration is not written *)

Lemma keeps_config_ret {A} (a : A) : keeps_config (St := St) (ret a).
Proof. by intros w. Qed.

Lemma keeps_config_call {A} (op : St -> St * (exn + A)) :
  keeps_config (call op).
Proof. intros w. unfold call. by destruct (op (db w)). Qed.

Lemma keeps_config_bind {A B} (m : M St A) (k : A -> M St B) :
  keeps_config m -> (forall a, keeps_config (k a)) -> keeps_config (bind m k).
Proof.
  intros Hm Hk w. unfold bind. specialize (Hm w).
  destruct (m w) as [w' [e|a]]; simpl in *; [done|].
  rewrite <- Hm. apply Hk.
Qed.

Lemma keeps_config_process_email req raw (upd : list D) :
  keeps_config (process_email req raw upd).
Proof.
  unfold process_email.
  destruct (negb _ || negb _); [apply keeps_config_ret|].
  apply keeps_config_bind; [apply keeps_config_call|].
  intros found. apply keeps_config_bind.
  - destruct found; [apply keeps_config_ret | apply keeps_config_call].
  - intros [p|]; [|apply keeps_config_ret].
    apply keeps_config_bind; [apply keeps_config_call|].
    intros [p'|]; apply keeps_config_ret.
Qed.

Lemma keeps_config_process_emails req emails (upd : list D) :
  keeps_config (process_emails req emails upd).
Proof.
  revert upd. induction emails as [|raw emails IH]; intros upd; simpl.
  - apply keeps_config_ret.
  - apply keeps_config_bind; [apply keeps_config_process_email | exact IH].
Qed.

Lemma keeps_config_update_config_body req :
  keeps_config (update_config_body req).
Proof.
  unfold update_config_body.
  destruct (receiver_emails req) as [|e es] eqn:He; [apply keeps_config_ret|].
  rewrite <- He.
  apply keeps_config_bind; [apply keeps_config_process_emails|].
  intros ups. apply keeps_config_ret.
Qed.

Lemma try_except_config what (m : M St (Response D)) w :
  keeps_config m -> config (try_except what m w).1 = config w.
Proof.
  intros Hm. unfold try_except. specialize (Hm w).
  by destruct (m w) as [w' [e|r]].
Qed.

(** *** Exceptions of the profile manager *)

Lemma turn_raises_sound req raw (upd : list D) w s' e :
  PyStr.strip raw <> [] ->
  turn_raises req (PyStr.strip raw) (db w) s' e ->
  process_email req raw upd w = (with_db s' w, inl e).
Proof.
  intros Hraw Ht. rewrite process_email_run by done. simpl.
  unfold bind, call.
  destruct Ht as [s1 e Hget | s0 s1 e Hget Hcreate | s1 s2 e Hhas Hupd].
  - by rewrite Hget.
  - rewrite Hget. simpl. by rewrite Hcreate.
  - destruct Hhas as [[p Hget] | (s0 & p & Hget & Hcreate)].
    + rewrite Hget. simpl. by rewrite Hupd.
    + rewrite Hget. simpl. rewrite Hcreate. simpl. by rewrite Hupd.
Qed.

Lemma loop_raises_sound req emails (upd : list D) w w' e :
  loop_raises req emails upd w w' e ->
  process_emails req emails upd w = (w', inl e).
Proof.
  induction 1 as [raw rest upd w s' e Hraw Ht
                 | raw rest upd upd' w w1 w' e Hrun _ IH]; simpl; unfold bind.
  - by rewrite (turn_raises_sound _ _ _ _ _ _ Hraw Ht).
  - by rewrite Hrun.
Qed.

(** Conversely, the loop raises only when a call of the profile manager
    does. *)
Lemma turn_raises_complete req raw (upd : list D) w w' e :
  process_email req raw upd w = (w', inl e) ->
  PyStr.strip raw <> [] /\
  exists s', w' = with_db s' w /\ turn_raises req (PyStr.strip raw) (db w) s' e.
Proof.
  intros Hrun.
  destruct (decide (PyStr.strip raw = [])) as [Hs|Hs].
  { by rewrite process_email_skip in Hrun. }
  split; [done|]. rewrite process_email_run in Hrun by done.
  simpl in Hrun. unfold bind, call in Hrun.
  destruct (get_user_profile (PyStr.strip raw) (db w)) as [s1 [x|[p|]]] eqn:Hget;
    simpl in Hrun.
  - injection Hrun as <- <-. eauto using raises_get.
  - destruct (update_user_profile _ _ s1) as [s2 [x|[p'|]]] eqn:Hupd;
      simpl in Hrun; try discriminate.
    injection Hrun as <- <-. exists s2. split; [done|].
    eapply raises_update; [left; eauto | done].
  - destruct (create_default_profile _ _ s1) as [s2 [x|[p|]]] eqn:Hcreate;
      simpl in Hrun; try discriminate.
    + injection Hrun as <- <-. eauto using raises_create.
    + destruct (update_user_profile _ _ s2) as [s3 [x|[p'|]]] eqn:Hupd;
        simpl in Hrun; try discriminate.
      injection Hrun as <- <-. exists s3. split; [done|].
      eapply raises_update; [right; eauto | done].
Qed.

Lemma loop_raises_complete req emails (upd : list D) w w' e :
  process_emails req emails upd w = (w', inl e) ->
  loop_raises req emails upd w w' e.
Proof.
  revert upd w. induction emails as [|raw rest IH]; intros upd w; simpl.
  - discriminate.
  - unfold bind.
    destruct (process_email req raw upd w) as [w1 [x|upd']] eqn:Hrun.
    + intros [= <- <-].
      apply turn_raises_complete in Hrun as (Hraw & s' & -> & Ht).
      by apply raises_now.
    + intros Hrest. eapply raises_later; eauto.
Qed.

End Generic.

End ApiFacts.

(* ===================================================================== *)
(** ** The handlers over the profile table                                *)
(* ===================================================================== *)

Module StoreFacts.
Import Payload Api Store.

Lemma apply_update_idem ud p :
  apply_update ud (apply_update ud p) = apply_update ud p.
Proof.
  destruct ud as [[?|] [?|] [?|] [?|] [?|] [?|]]; reflexivity.
Qed.

Section Table.
Variable blank : Profile.

Abbreviation updated_row ud t e := (apply_update ud (profile_before blank t e)).

Lemma valid_emails_cons (raw : pystr) (raws : list pystr) :
  valid_emails (raw :: raws) =
  if decide (PyStr.strip raw = []) then valid_emails raws
  else PyStr.strip raw :: valid_emails raws.
Proof.
  unfold valid_emails. simpl.
  destruct (decide (PyStr.strip raw = [])) as [->|Hne]; [done|].
  apply PyStrFacts.truthy_true_iff in Hne. by rewrite Hne.
Qed.

Lemma elem_of_valid_emails (raws : list pystr) (e : pystr) :
  e ∈ valid_emails raws <->
  e <> [] /\ exists raw, raw ∈ raws /\ PyStr.strip raw = e.
Proof.
  unfold valid_emails. rewrite list_elem_of_omap. split.
  - intros (raw & Hraw & He). simpl in He.
    destruct (PyStr.truthy (PyStr.strip raw)) eqn:Ht; [|discriminate].
    injection He as <-. apply PyStrFacts.truthy_true_iff in Ht. eauto.
  - intros (Hne & raw & Hraw & <-). exists raw. split; [done|]. simpl.
    apply PyStrFacts.truthy_true_iff in Hne. by rewrite Hne.
Qed.

(** *** One submission *)

Lemma lookup_submit (ud : UpdateData) (t : gmap pystr Profile) (e e' : pystr) :
  submit blank ud t e !! e' =
  if decide (e = e') then Some (updated_row ud t e) else t !! e'.
Proof. unfold submit. apply lookup_insert. Qed.

(** The profile a later submission starts from is the one already updated,
    and updating it again changes nothing. *)
Lemma updated_row_submit (ud : UpdateData) (t : gmap pystr Profile)
    (e e' : pystr) :
  updated_row ud (submit blank ud t e) e' = updated_row ud t e'.
Proof.
  unfold profile_before at 1. rewrite lookup_submit.
  destruct (decide (e = e')) as [->|Hne]; simpl; [|done].
  apply apply_update_idem.
Qed.

Lemma process_email_table req raw (upd : list Profile) w :
  PyStr.strip raw <> [] ->
  process_email (PM := table blank) req raw upd w =
  (with_db (submit blank (build_update_data req) (db w) (PyStr.strip raw)) w,
   inr (upd ++ [updated_row (build_update_data req) (db w) (PyStr.strip raw)])).
Proof.
  intros Hraw. rewrite ApiFacts.process_email_run by done.
  simpl. unfold bind, call. simpl.
  unfold get_user_profile, submit, profile_before.
  destruct (db w !! PyStr.strip raw) as [p|] eqn:Hp; simpl.
  - unfold update_user_profile. rewrite Hp. reflexivity.
  - unfold update_user_profile. rewrite lookup_insert_eq. simpl.
    unfold with_db. simpl. by rewrite insert_insert_eq.
Qed.

(** *** The loop *)

Lemma process_emails_table req raws (upd : list Profile) w :
  process_emails (PM := table blank) req raws upd w =
  (with_db (foldl (submit blank (build_update_data req)) (db w)
              (valid_emails raws)) w,
   inr (upd ++ map (fun e => updated_row (build_update_data req) (db w) e)
                   (valid_emails raws))).
Proof.
  revert upd w. induction raws as [|raw raws IH]; intros upd w.
  - simpl. by rewrite ApiFacts.with_db_id, app_nil_r.
  - cbn [process_emails]. unfold bind at 1. rewrite valid_emails_cons.
    destruct (decide (PyStr.strip raw = [])) as [Hs|Hs].
    + rewrite ApiFacts.process_email_skip by done. apply IH.
    + rewrite process_email_table by done. rewrite IH. simpl.
      f_equal. f_equal. rewrite <- app_assoc. simpl. do 2 f_equal.
      apply map_ext. intros e. apply updated_row_submit.
Qed.

Lemma lookup_foldl_submit (ud : UpdateData) (es : list pystr)
    (t : gmap pystr Profile) (e : pystr) :
  foldl (submit blank ud) t es !! e =
  if decide (e ∈ es) then Some (updated_row ud t e) else t !! e.
Proof.
  revert t. induction es as [|a es IH]; intros t; cbn [foldl].
  - destruct (decide (e ∈ [])) as [Hin|_]; [|done].
    by apply elem_of_nil in Hin.
  - rewrite IH, updated_row_submit, lookup_submit.
    destruct (decide (e ∈ es)) as [Hin|Hnin];
      destruct (decide (e ∈ a :: es)) as [Hin'|Hnin']; try done.
    + exfalso. apply Hnin'. by apply list_elem_of_further.
    + apply elem_of_cons in Hin' as [->|?]; [|done].
      by rewrite decide_True.
    + rewrite decide_False; [done|]. intros ->.
      apply Hnin', list_elem_of_here.
Qed.

(** Submitting the same update data for the same emails once more leaves
    the table as it is. *)
Lemma foldl_submit_again (ud : UpdateData) (es : list pystr)
    (t : gmap pystr Profile) :
  foldl (submit blank ud) (foldl (submit blank ud) t es) es =
  foldl (submit blank ud) t es.
Proof.
  apply map_eq. intros e. rewrite !lookup_foldl_submit.
  destruct (decide (e ∈ es)) as [Hin|Hnin]; [|done].
  f_equal. unfold profile_before at 1. rewrite lookup_foldl_submit.
  rewrite decide_True by done. simpl. apply apply_update_idem.
Qed.

Lemma updated_row_foldl_submit (ud : UpdateData) (es : list pystr)
    (t : gmap pystr Profile) (e : pystr) :
  updated_row ud (foldl (submit blank ud) t es) e = updated_row ud t e.
Proof.
  revert t. induction es as [|a es IH]; intros t; simpl; [done|].
  by rewrite IH, updated_row_submit.
Qed.

(** *** The whole handler *)

Lemma update_config_table req w :
  receiver_emails req <> [] ->
  update_config (PM := table blank) req w =
  (with_db (foldl (submit blank (build_update_data req)) (db w)
              (valid_emails (receiver_emails req))) w,
   ok (UpdatedBody "Configuration updated successfully"
         (map (fun e => updated_row (build_update_data req) (db w) e)
              (valid_emails (receiver_emails req)))
         (length (valid_emails (receiver_emails req))))).
Proof.
  intros Hne. unfold update_config, try_except, update_config_body.
  destruct (receiver_emails req) as [|raw raws] eqn:He; [done|].
  unfold bind. rewrite process_emails_table. simpl.
  by rewrite length_map.
Qed.

(** The row of an email that was submitted, and of one that was not. *)
Lemma update_config_lookup req w (e : pystr) :
  db (update_config (PM := table blank) req w).1 !! e =
  if decide (e ∈ valid_emails (receiver_emails req))
  then Some (updated_row (build_update_data req) (db w) e)
  else db w !! e.
Proof.
  destruct (receiver_emails req) as [|raw raws] eqn:He.
  - unfold update_config, try_except, update_config_body. rewrite He.
    cbn. destruct (decide (e ∈ [])) as [Hin|_]; [|done].
    by apply elem_of_nil in Hin.
  - rewrite update_config_table by by rewrite He.
    rewrite He. simpl. apply (lookup_foldl_submit _ (valid_emails (raw :: raws))).
Qed.

Lemma update_config_again req w :
  update_config (PM := table blank) req
    (update_config (PM := table blank) req w).1 =
  update_config (PM := table blank) req w.
Proof.
  destruct (receiver_emails req) as [|raw raws] eqn:He.
  - by rewrite !ApiFacts.update_config_400.
  - rewrite !update_config_table by by rewrite He.
    simpl. unfold with_db. simpl. f_equal.
    + f_equal. apply foldl_submit_again.
    + do 2 f_equal. apply map_ext. intros e. apply updated_row_foldl_submit.
Qed.

(** The profile of a submitted email after the handler has run: it is in
    the table and in the answer. *)
Lemma submitted_profile (req : ConfigRequest) w (raw : pystr) :
  raw ∈ receiver_emails req -> PyStr.strip raw <> [] ->
  db (update_config (PM := table blank) req w).1 !! PyStr.strip raw
  = Some (updated_row (build_update_data req) (db w) (PyStr.strip raw))
  /\ updated_row (build_update_data req) (db w) (PyStr.strip raw)
     ∈ profiles_of (update_config (PM := table blank) req w).2.
Proof.
  intros Hraw Hs.
  assert (Hin : PyStr.strip raw ∈ valid_emails (receiver_emails req)).
  { apply elem_of_valid_emails. eauto. }
  split.
  - rewrite update_config_lookup. by rewrite decide_True.
  - rewrite update_config_table.
    + unfold profiles_of, ok. simpl.
      apply (list_elem_of_fmap_2 (fun e => updated_row _ (db w) e)), Hin.
    + intros He. rewrite He in Hraw. by apply elem_of_nil in Hraw.
Qed.

(** An email that is not submitted keeps its row, or its absence. *)
Lemma other_profile req w (e : pystr) :
  e ∉ valid_emails (receiver_emails req) ->
  db (update_config (PM := table blank) req w).1 !! e = db w !! e.
Proof. intros Hnin. rewrite update_config_lookup. by rewrite decide_False. Qed.

End Table.

End StoreFacts.

(* ===================================================================== *)
(** ** The operations on strings and the words of the specification      *)
(* ===================================================================== *)

Module SaidFacts.
Import Payload Store.

(** *** Blank and stripped strings *)

Lemma blank_all_iff (l : list pystr) :
  Forall Said.Blank l <-> Forall (fun s => PyStr.all_space s = true) l.
Proof.
  split; intros H; (eapply Forall_impl; [exact H|]); intros s;
    apply PyStrFacts.all_space_iff.
Qed.

Lemma stripped_self_iff (l : pystr) :
  Said.StrippedOf l l <-> PyStr.strip l = l.
Proof. rewrite PyStrFacts.stripped_iff. split; congruence. Qed.

(** *** The list the loops keep *)

(** What the comprehension of line 97 and the loop of lines 80-84 keep of
    a list of strings is what [Said.Kept] says, and nothing else is. *)
Lemma kept_valid_emails (raws : list pystr) :
  Said.Kept raws (valid_emails raws).
Proof.
  induction raws as [|raw raws IH]; [constructor|].
  rewrite StoreFacts.valid_emails_cons.
  destruct (decide (PyStr.strip raw = [])) as [Hs|Hs].
  - apply Said.kept_blank; [by apply PyStrFacts.strip_blank_iff | exact IH].
  - apply Said.kept_stripped;
      [apply PyStrFacts.strip_stripped | exact Hs | exact IH].
Qed.

Lemma kept_unique (raws es : list pystr) :
  Said.Kept raws es -> es = valid_emails raws.
Proof.
  induction 1 as [|raw raws kept Hb _ IH|raw t raws kept Hs Hne _ IH].
  - reflexivity.
  - rewrite StoreFacts.valid_emails_cons.
    apply PyStrFacts.strip_blank_iff in Hb. by rewrite decide_True.
  - rewrite StoreFacts.valid_emails_cons.
    apply PyStrFacts.stripped_unique in Hs. subst t.
    rewrite decide_False by done. by rewrite IH.
Qed.

Lemma kept_iff (raws es : list pystr) :
  Said.Kept raws es <-> es = valid_emails raws.
Proof. split; [apply kept_unique | intros ->; apply kept_valid_emails]. Qed.

Lemma kept_locations_iff (locs ls : list pystr) :
  Said.Kept locs ls <-> ls = clean_locations locs.
Proof. apply kept_iff. Qed.

Lemma kept_nil_iff (raws : list pystr) :
  Said.Kept raws [] <-> Forall Said.Blank raws.
Proof.
  rewrite kept_iff. induction raws as [|raw raws IH].
  - split; [constructor | done].
  - rewrite StoreFacts.valid_emails_cons, Forall_cons,
      <- PyStrFacts.strip_blank_iff.
    destruct (decide (PyStr.strip raw = [])) as [Hs|Hs].
    + rewrite IH. tauto.
    + split; [discriminate | tauto].
Qed.

Lemma kept_elem (raws es : list pystr) (e : pystr) :
  Said.Kept raws es ->
  e ∈ es <-> e <> [] /\ exists raw, raw ∈ raws /\ Said.StrippedOf raw e.
Proof.
  intros ->%kept_unique. rewrite StoreFacts.elem_of_valid_emails.
  split; intros (Hne & raw & Hraw & Hs); (split; [done|]); exists raw;
    (split; [done|]); apply PyStrFacts.stripped_iff in Hs || 
    apply PyStrFacts.stripped_iff; done.
Qed.

(** *** The keywords *)

Lemma keywords_small_letters kw :
  kw = str "python" \/ kw = str "react" \/ kw = str "frontend"
  \/ kw = str "backend" ->
  Forall (fun k => (97 <= k <= 122)%N /\ k <> 105%N) kw /\ kw <> [].
Proof.
  intros [-> | [-> | [-> | ->]]]; (split; [|discriminate]);
    apply (bool_decide_unpack _); vm_compute; exact I.
Qed.


(** And it is the occurrence of the keyword in some letter case. *)
Lemma keyword_test_occurs kw title :
  kw = str "python" \/ kw = str "react" \/ kw = str "frontend"
  \/ kw = str "backend" ->
  PyStr.contains kw (PyStr.lower title) = true <-> Said.Occurs kw title.
Proof.
  intros [Hkw Hne]%keywords_small_letters.
  by apply PyStrMore.contains_lower_occurs.
Qed.

Lemma occurs_by_test kw title :
  kw = str "python" \/ kw = str "react" \/ kw = str "frontend"
  \/ kw = str "backend" ->
  PyStr.contains kw (PyStr.lower title) = true -> Said.Occurs kw title.
Proof. intros Hkw. by apply keyword_test_occurs. Qed.

Lemma not_occurs_by_test kw title :
  kw = str "python" \/ kw = str "react" \/ kw = str "frontend"
  \/ kw = str "backend" ->
  PyStr.contains kw (PyStr.lower title) = false -> ~ Said.Occurs kw title.
Proof.
  intros Hkw Hc Ho. apply (keyword_test_occurs kw title Hkw) in Ho.
  congruence.
Qed.

End SaidFacts.

(* ===================================================================== *)
(** ** Properties of the handlers, for any profile manager                *)
(* ===================================================================== *)

Import Payload Api.

Section AnyManager.
Context {St Prof D : Type} `{PM : ProfileManager St Prof D}.

(** C2: a [POST /api/config] whose [receiver_emails] is empty is answered
    with 400 and an error body, and the world (database, configuration and
    log) is as it was: no call of the profile manager is made. *)
Theorem C2_no_receiver_emails_400 (req : ConfigRequest) (w : World St) :
  receiver_emails req = [] ->
  update_config req w
  = (w, {| status := 400;
           body := ErrorBody "At least one receiver email is required" |}).
Proof.
  intros Hnone. unfold update_config, try_except, update_config_body.
  rewrite Hnone. reflexivity.
Qed.

(** C6: [GET /api/profiles/<email>] when the lookup of the profile manager
    returns: with no profile for the email the answer is 404 with an
    [error] body; with a profile it is 200 with that profile's
    dictionary. *)
Theorem C6_get_profile_found_or_404 (email : pystr) (w : World St)
    (s' : St) (found : option Prof) :
  get_user_profile email (db w) = (s', inr found) ->
  (found = None ->
   get_profile email w
   = (with_db s' w, {| status := 404; body := ErrorBody "Profile not found" |}))
  /\ (forall p, found = Some p ->
      get_profile email w
      = (with_db s' w, {| status := 200; body := ProfileBody (to_dict p) |})).
Proof.
  intros Hget. unfold get_profile, try_except, get_profile_body, bind, call.
  rewrite Hget. split.
  - intros ->. reflexivity.
  - intros p ->. reflexivity.
Qed.

(** C8: in each of the four handlers that use the profile manager, an
    exception [e] raised by a call of the profile manager is answered with
    500 and the body [{error: str(e)}] (and logged); the handler returns.
    For [POST /api/config] the exception may come from any call of any turn
    of the loop ([loop_raises]). *)
Theorem C8_store_exception_500 :
  (forall (w : World St) s' e,
     get_all_active_profiles (db w) = (s', inl e) ->
     get_config w
     = (log_error ("Error getting config: " +:+ e) (with_db s' w),
        {| status := 500; body := ErrorBody e |}))
  /\ (forall req (w w' : World St) e,
        loop_raises req (receiver_emails req) [] w w' e ->
        update_config req w
        = (log_error ("Error updating config: " +:+ e) w',
           {| status := 500; body := ErrorBody e |}))
  /\ (forall (w : World St) s' e,
        get_all_active_profiles (db w) = (s', inl e) ->
        get_profiles w
        = (log_error ("Error getting profiles: " +:+ e) (with_db s' w),
           {| status := 500; body := ErrorBody e |}))
  /\ (forall email (w : World St) s' e,
        get_user_profile email (db w) = (s', inl e) ->
        get_profile email w
        = (log_error ("Error getting profile: " +:+ e) (with_db s' w),
           {| status := 500; body := ErrorBody e |})).
Proof.
  repeat split.
  - intros w s' e Hall.
    unfold get_config, try_except, get_config_body, bind, call.
    by rewrite Hall.
  - intros req w w' e Hloop.
    destruct (receiver_emails req) as [|raw rest] eqn:He; [inversion Hloop|].
    apply ApiFacts.loop_raises_sound in Hloop.
    unfold update_config, try_except, update_config_body, bind.
    rewrite He, Hloop. reflexivity.
  - intros w s' e Hall.
    unfold get_profiles, try_except, get_profiles_body, bind, call.
    by rewrite Hall.
  - intros email w s' e Hget.
    unfold get_profile, try_except, get_profile_body, bind, call.
    by rewrite Hget.
Qed.

(** C9: [POST /api/config] leaves the process-wide configuration
    (preferred locations, salary bounds, recipient) as it was, for every
    request and every profile manager: the handler writes to the database,
    through the profile manager, and to the log, and to nothing else. *)
Theorem C9_config_not_mutated (req : ConfigRequest) (w : World St) :
  config (update_config req w).1 = config w.
Proof.
  apply ApiFacts.try_except_config, ApiFacts.keeps_config_update_config_body.
Qed.

(** C10: when [receiver_emails] is not empty but each of its strings is
    empty or made of white space, every email is skipped: the answer is
    200 with no profile and [updated_count = 0], not 400, and the world is
    as it was.  And in every answer that has one, [updated_count] is the
    length of [profiles]. *)
Theorem C10_blank_emails_skipped :
  (forall req (w : World St),
     receiver_emails req <> [] ->
     Forall Said.Blank (receiver_emails req) ->
     update_config req w
     = (w, {| status := 200;
              body := UpdatedBody "Configuration updated successfully" [] 0 |}))
  /\ (forall req (w : World St) msg ps n,
        body (update_config req w).2 = UpdatedBody msg ps n -> n = length ps).
Proof.
  split.
  - intros req w Hne Hblank. apply SaidFacts.blank_all_iff in Hblank.
    unfold update_config, try_except, update_config_body.
    destruct (receiver_emails req) as [|raw rest] eqn:He; [done|].
    unfold bind. rewrite ApiFacts.process_emails_skip by done.
    reflexivity.
  - intros req w msg ps n. apply ApiFacts.update_config_count.
Qed.

End AnyManager.

(* ===================================================================== *)
(** ** The salary bounds at a range that starts at zero                   *)
(* ===================================================================== *)

(** C1: at [salary_ranges=[{min:0,max:10},{min:8,max:20}]] the least of
    the mins of the ranges is 0 and the greatest of their maxs is 20, but
    the handler passes [expected_salary_min = 8] (and
    [expected_salary_max = 20]) to [update_user_profile]: the test
    [if r.get('min')] of line 102 drops the min that is 0. *)
Theorem C1_zero_min_is_dropped :
  py_min (omap range_min (salary_ranges Samples.req_from_zero)) = Some 0
  /\ py_max (omap range_max (salary_ranges Samples.req_from_zero)) = Some 20
  /\ all_mins (salary_ranges Samples.req_from_zero) = [8]
  /\ ud_expected_salary_min (build_update_data Samples.req_from_zero) = Some 8
  /\ ud_expected_salary_max (build_update_data Samples.req_from_zero) = Some 20.
Proof. repeat split. Qed.

(* ===================================================================== *)
(** ** Properties of [POST /api/config] over the profile table            *)
(* ===================================================================== *)

Import Store.

Section OverTable.
Variable blank : Profile.

Abbreviation run req w := (update_config (PM := table blank) req w).

(** With a salary bound in the update data, that bound is the one of every
    submitted profile. *)
Lemma salary_bounds_stored (req : ConfigRequest)
    (w : World (gmap pystr Profile)) (raw : pystr) :
  raw ∈ receiver_emails req -> PyStr.strip raw <> [] ->
  exists p, db (run req w).1 !! PyStr.strip raw = Some p
    /\ (forall m, ud_expected_salary_min (build_update_data req) = Some m ->
                  expected_salary_min p = m)
    /\ (forall m, ud_expected_salary_max (build_update_data req) = Some m ->
                  expected_salary_max p = m).
Proof.
  intros Hraw Hs.
  destruct (StoreFacts.submitted_profile blank req w raw Hraw Hs) as [Hrow _].
  eexists. split; [exact Hrow|].
  split; intros m Hm; cbn [apply_update expected_salary_min expected_salary_max];
    by rewrite Hm.
Qed.

(** When each range has a min and a max and none of them is zero, the
    profile has the least of the mins and the greatest of the maxs. *)
Lemma salary_min_of_mins_max_of_maxs (req : ConfigRequest)
    (w : World (gmap pystr Profile)) (raw : pystr) :
  salary_ranges req <> [] ->
  Forall (fun r => (exists lo, range_min r = Some lo /\ lo <> 0)
                   /\ (exists hi, range_max r = Some hi /\ hi <> 0))
         (salary_ranges req) ->
  raw ∈ receiver_emails req -> PyStr.strip raw <> [] ->
  exists p, db (run req w).1 !! PyStr.strip raw = Some p
    /\ Some (expected_salary_min p) ∈ range_min <$> salary_ranges req
    /\ Forall (fun r => forall lo, range_min r = Some lo ->
                                   expected_salary_min p <= lo)
              (salary_ranges req)
    /\ Some (expected_salary_max p) ∈ range_max <$> salary_ranges req
    /\ Forall (fun r => forall hi, range_max r = Some hi ->
                                   hi <= expected_salary_max p)
              (salary_ranges req).
Proof.
  intros Hne Hall Hraw Hs.
  destruct (salary_bounds_stored req w raw Hraw Hs) as (p & Hp & Hmin & Hmax).
  exists p. split; [exact Hp|].
  assert (Hlo : Some <$> all_mins (salary_ranges req)
                = range_min <$> salary_ranges req).
  { apply PayloadFacts.all_mins_nonzero.
    eapply Forall_impl; [exact Hall|]. by intros r [? _]. }
  assert (Hhi : Some <$> all_maxs (salary_ranges req)
                = range_max <$> salary_ranges req).
  { apply PayloadFacts.all_maxs_nonzero.
    eapply Forall_impl; [exact Hall|]. by intros r [_ ?]. }
  assert (Hmins : all_mins (salary_ranges req) <> []).
  { intros He. rewrite He in Hlo. destruct (salary_ranges req); done. }
  assert (Hmaxs : all_maxs (salary_ranges req) <> []).
  { intros He. rewrite He in Hhi. destruct (salary_ranges req); done. }
  destruct (PayloadFacts.py_min_is_Some _ Hmins) as [lo Hpylo].
  destruct (PayloadFacts.py_max_is_Some _ Hmaxs) as [hi Hpyhi].
  assert (Hudlo : ud_expected_salary_min (build_update_data req) = Some lo).
  { simpl. destruct (salary_ranges req); done. }
  assert (Hudhi : ud_expected_salary_max (build_update_data req) = Some hi).
  { simpl. destruct (salary_ranges req); done. }
  rewrite (Hmin _ Hudlo), (Hmax _ Hudhi).
  apply PayloadFacts.py_min_spec in Hpylo as [Hlo_in Hlo_le].
  apply PayloadFacts.py_max_spec in Hpyhi as [Hhi_in Hhi_le].
  rewrite Forall_forall in Hall. rewrite Forall_forall in Hlo_le.
  rewrite Forall_forall in Hhi_le.
  repeat split.
  - rewrite <- Hlo. by apply list_elem_of_fmap_2.
  - apply Forall_forall. intros r Hr z Hz. apply Hlo_le.
    apply PayloadFacts.elem_of_all_mins.
    destruct (Hall r Hr) as [(z' & Hz' & Hnz) _].
    split; [congruence | eauto].
  - rewrite <- Hhi. by apply list_elem_of_fmap_2.
  - apply Forall_forall. intros r Hr z Hz. apply Hhi_le.
    apply PayloadFacts.elem_of_all_maxs.
    destruct (Hall r Hr) as [_ (z' & Hz' & Hnz)].
    split; [congruence | eauto].
Qed.

(** At [salary_ranges=[{min:0,max:10},{min:8,max:20}]] the table gets
    [expected_salary_min = 8] for the submitted email. *)
Lemma salary_from_zero_stored (w : World (gmap pystr Profile)) :
  expected_salary_min <$> (db (run Samples.req_from_zero w).1 !! str "a@x.com")
  = Some 8
  /\ expected_salary_max <$> (db (run Samples.req_from_zero w).1 !! str "a@x.com")
     = Some 20.
Proof.
  destruct (StoreFacts.submitted_profile blank Samples.req_from_zero w (str "a@x.com"))
    as [Hrow _]; [apply list_elem_of_here | done |].
  change (PyStr.strip (str "a@x.com")) with (str "a@x.com") in Hrow.
  by rewrite Hrow.
Qed.

(** C3: with a [job_title] that is not empty, the [primary_skills] passed
    to [update_user_profile], and then those of the profile of every
    submitted email, in the table and in the answer, follow the keywords
    occurring in the title, in any letter case: "python" gives Python,
    JavaScript, React; else "react" or "frontend" gives React, JavaScript,
    TypeScript; else "backend" gives Python, Java, Node.js; else none are
    passed and the profile keeps the skills it had (those of a default
    profile when it is new). *)
Theorem C3_primary_skills_from_title (req : ConfigRequest)
    (w : World (gmap pystr Profile)) (raw e : pystr) :
  job_title req <> [] ->
  raw ∈ receiver_emails req -> Said.StrippedOf raw e -> e <> [] ->
  exists p, db (run req w).1 !! e = Some p
    /\ p ∈ profiles_of (run req w).2
    /\ (Said.Occurs (str "python") (job_title req) ->
        ud_primary_skills (build_update_data req)
        = Some [str "Python"; str "JavaScript"; str "React"]
        /\ primary_skills p = [str "Python"; str "JavaScript"; str "React"])
    /\ (~ Said.Occurs (str "python") (job_title req) ->
        Said.Occurs (str "react") (job_title req)
        \/ Said.Occurs (str "frontend") (job_title req) ->
        ud_primary_skills (build_update_data req)
        = Some [str "React"; str "JavaScript"; str "TypeScript"]
        /\ primary_skills p
           = [str "React"; str "JavaScript"; str "TypeScript"])
    /\ (~ Said.Occurs (str "python") (job_title req) ->
        ~ Said.Occurs (str "react") (job_title req) ->
        ~ Said.Occurs (str "frontend") (job_title req) ->
        Said.Occurs (str "backend") (job_title req) ->
        ud_primary_skills (build_update_data req)
        = Some [str "Python"; str "Java"; str "Node.js"]
        /\ primary_skills p = [str "Python"; str "Java"; str "Node.js"])
    /\ (~ Said.Occurs (str "python") (job_title req) ->
        ~ Said.Occurs (str "react") (job_title req) ->
        ~ Said.Occurs (str "frontend") (job_title req) ->
        ~ Said.Occurs (str "backend") (job_title req) ->
        ud_primary_skills (build_update_data req) = None
        /\ primary_skills p
           = primary_skills (profile_before blank (db w) e)).
Proof.
  intros Htitle Hraw Hst Hne.
  apply PyStrFacts.stripped_unique in Hst. subst e.
  destruct (StoreFacts.submitted_profile blank req w raw Hraw Hne)
    as [Hrow Hresp].
  apply PyStrFacts.truthy_true_iff in Htitle.
  eexists. split; [exact Hrow|]. split; [exact Hresp|].
  rewrite <- (SaidFacts.keyword_test_occurs (str "python")) by tauto.
  rewrite <- (SaidFacts.keyword_test_occurs (str "react")) by tauto.
  rewrite <- (SaidFacts.keyword_test_occurs (str "frontend")) by tauto.
  rewrite <- (SaidFacts.keyword_test_occurs (str "backend")) by tauto.
  cbn [apply_update primary_skills build_update_data ud_primary_skills].
  rewrite Htitle. unfold skills_for_title. cbv zeta.
  destruct (PyStr.contains (str "python") _),
    (PyStr.contains (str "react") _), (PyStr.contains (str "frontend") _),
    (PyStr.contains (str "backend") _); cbn [orb];
    repeat split; intros; try reflexivity; intuition congruence.
Qed.

(** C4, amended: with a [locations] list that is not empty, the
    [preferred_locations] passed to [update_user_profile], and then those
    of every submitted profile, are the supplied locations, each stripped
    of the white space around it, those that are empty or white space left
    out; they are the supplied list itself when no location has white
    space around it or is empty. *)
Theorem C4_locations_stripped_and_replaced (req : ConfigRequest)
    (w : World (gmap pystr Profile)) (raw e : pystr) :
  locations req <> [] ->
  raw ∈ receiver_emails req -> Said.StrippedOf raw e -> e <> [] ->
  exists p, db (run req w).1 !! e = Some p
    /\ p ∈ profiles_of (run req w).2
    /\ ud_preferred_locations (build_update_data req)
       = Some (preferred_locations p)
    /\ Said.Kept (locations req) (preferred_locations p)
    /\ (Forall (fun l => l <> [] /\ Said.StrippedOf l l) (locations req) ->
        preferred_locations p = locations req).
Proof.
  intros Hlocs Hraw Hst Hne.
  apply PyStrFacts.stripped_unique in Hst. subst e.
  destruct (StoreFacts.submitted_profile blank req w raw Hraw Hne)
    as [Hrow Hresp].
  eexists. split; [exact Hrow|]. split; [exact Hresp|].
  assert (Hpl : preferred_locations
                  (apply_update (build_update_data req)
                     (profile_before blank (db w) (PyStr.strip raw)))
                = clean_locations (locations req)).
  { cbn [apply_update preferred_locations build_update_data
         ud_preferred_locations].
    destruct (locations req); done. }
  rewrite Hpl. split; [|split].
  - cbn [build_update_data ud_preferred_locations].
    destruct (locations req); done.
  - by apply SaidFacts.kept_locations_iff.
  - intros Hall. apply PayloadFacts.clean_locations_id.
    eapply Forall_impl; [exact Hall|].
    intros l [Hl Hs]. by apply SaidFacts.stripped_self_iff in Hs.
Qed.

(** C5: a second [POST /api/config] with the same body, run in the world
    the first one left, leaves that world (every profile included) as it
    is and gives the same answer. *)
Theorem C5_update_config_idempotent (req : ConfigRequest)
    (w : World (gmap pystr Profile)) :
  run req (run req w).1 = ((run req w).1, (run req w).2).
Proof.
  rewrite StoreFacts.update_config_again. by destruct (run req w).
Qed.

(** C7, amended: [experience_min], when given, is passed to
    [update_user_profile] as [experience_years], and [job_title], when not
    empty, as [current_role]; on the profile of every submitted email
    [experience_years] is then [experience_min] when that is given and
    stays otherwise, [current_role] is [job_title] when that is not empty
    and stays otherwise; and [experience_max] changes nothing, in the world
    or in the answer. *)
Theorem C7_experience_min_and_role (req : ConfigRequest)
    (w : World (gmap pystr Profile)) (raw : pystr) :
  raw ∈ receiver_emails req -> PyStr.strip raw <> [] ->
  ud_experience_years (build_update_data req) = experience_min req
  /\ ud_current_role (build_update_data req)
     = (if decide (job_title req = []) then None else Some (job_title req))
  /\ (exists p, db (run req w).1 !! PyStr.strip raw = Some p
     /\ p ∈ profiles_of (run req w).2
     /\ experience_years p
        = match experience_min req with
          | Some years => years
          | None => experience_years
                      (profile_before blank (db w) (PyStr.strip raw))
          end
     /\ current_role p
        = if decide (job_title req = [])
          then current_role (profile_before blank (db w) (PyStr.strip raw))
          else job_title req)
  /\ (forall x, run (with_experience_max x req) w = run req w).
Proof.
  intros Hraw Hs. split; [reflexivity|]. split.
  { cbn [build_update_data ud_current_role].
    destruct (decide (job_title req = [])) as [->|Hne]; [done|].
    apply PyStrFacts.truthy_true_iff in Hne. by rewrite Hne. }
  split.
  - destruct (StoreFacts.submitted_profile blank req w raw Hraw Hs)
      as [Hrow Hresp].
    eexists. split; [exact Hrow|]. split; [exact Hresp|]. split.
    + cbn [apply_update experience_years build_update_data ud_experience_years].
      by destruct (experience_min req).
    + cbn [apply_update current_role build_update_data ud_current_role].
      destruct (decide (job_title req = [])) as [->|Hne]; [done|].
      apply PyStrFacts.truthy_true_iff in Hne. by rewrite Hne.
  - intros x. apply ApiFacts.update_config_experience_max.
Qed.

End OverTable.

(* ===================================================================== *)
(** ** The handlers on the sample requests                                *)
(* ===================================================================== *)

Section OnSamples.
Import Samples.

Abbreviation run0 req w := (update_config (PM := table blank) req w).
Abbreviation down := (unreachable "connection refused").

(** [salary_ranges=[{min:5,max:10},{min:8,max:20}]] gives
    [expected_salary_min=5] and [expected_salary_max=20]. *)
Example salary_5_10_8_20 :
  db (run0 req_salary empty_world).1 !! str "a@x.com"
  = Some {| email := str "a@x.com"; name := str "a"; preferred_locations := [];
            expected_salary_min := 5; expected_salary_max := 20;
            experience_years := 0; current_role := []; primary_skills := [];
            is_active := true |}.
Proof. vm_compute. reflexivity. Qed.

(** A range without [min] and one whose [min] is [null] are left out, and
    with no [min] at all the profile keeps the one it had. *)
Example salary_min_missing :
  expected_salary_min <$>
    (db (run0 (request [str "a@x.com"] []
                 [{| range_min := None; range_max := Some 30 |}]
                 None None []) analyst_world).1 !! str "a@x.com")
  = Some 4.
Proof. vm_compute. reflexivity. Qed.

(** A range that starts at zero alone leaves the min the profile had. *)
Example salary_min_zero_alone :
  expected_salary_min <$>
    (db (run0 (request [str "a@x.com"] [] [range 0 5] None None [])
           analyst_world).1 !! str "a@x.com")
  = Some 4.
Proof. vm_compute. reflexivity. Qed.

(** Padded and repeated emails go to one row, and are counted twice. *)
Example padded_and_repeated_emails :
  (run0 (request [str " a@x.com"; []; str "a@x.com "] [] [] (Some 6) None
           (str "ML (Python)"))
     analyst_world).2
  = ok (UpdatedBody "Configuration updated successfully"
          [ {| email := str "a@x.com"; name := str "a";
               preferred_locations := [str "Pune"];
               expected_salary_min := 4; expected_salary_max := 9;
               experience_years := 6; current_role := str "ML (Python)";
               primary_skills := [str "Python"; str "JavaScript"; str "React"];
               is_active := true |};
            {| email := str "a@x.com"; name := str "a";
               preferred_locations := [str "Pune"];
               expected_salary_min := 4; expected_salary_max := 9;
               experience_years := 6; current_role := str "ML (Python)";
               primary_skills := [str "Python"; str "JavaScript"; str "React"];
               is_active := true |} ]
          2).
Proof. vm_compute. reflexivity. Qed.

(** [GET /api/config] and [GET /api/health] on the sample world. *)
Example get_config_sample :
  get_config (PM := table blank) analyst_world
  = (analyst_world,
     ok (ConfigBody [str "Remote"] 5 50 [str "ops@x.com"] [analyst])).
Proof. vm_compute. reflexivity. Qed.

Example health_sample :
  (health_check (D := Profile) analyst_world).2
  = ok (HealthBody "healthy" "Job Crawler API is running").
Proof. reflexivity. Qed.

Example lower_sample :
  PyStr.lower (str "Sr. FrontEnd Dev") = str "sr. frontend dev".
Proof. reflexivity. Qed.

(** ["BAC\u212aEND".lower()] is ["backend"]: the Kelvin sign is a capital
    of "k". *)
Example lower_kelvin_sample :
  PyStr.lower (str "BAC" ++ [8490]%N ++ str "END") = str "backend".
Proof. vm_compute. reflexivity. Qed.

(** A capital sigma at the end of a word is written as the final sigma,
    elsewhere as the other one, and the dotted capital I as two
    characters. *)
Example lower_sigma_sample :
  PyStr.lower [927; 916; 927; 931; 32; 931; 65; 304]%N
  = [959; 948; 959; 962; 32; 963; 97; 105; 775]%N.
Proof. vm_compute. reflexivity. Qed.

Example strip_sample : PyStr.strip (str "  a  b  ") = str "a  b".
Proof. reflexivity. Qed.

(** ["\u00a0\u2003 a\tb\t\u3000\u0085\x1f".strip()] is ["a\tb"]. *)
Example strip_unicode_sample :
  PyStr.strip ([160; 8195; 32]%N ++ str "a" ++ [9]%N ++ str "b"
               ++ [9; 12288; 133; 31]%N)
  = str "a" ++ [9]%N ++ str "b".
Proof. vm_compute. reflexivity. Qed.

(** The zero-width space and the Mongolian vowel separator are not white
    space for [strip]. *)
Example strip_not_space_sample :
  PyStr.strip [8203; 97; 6158]%N = [8203; 97; 6158]%N.
Proof. vm_compute. reflexivity. Qed.

Lemma C2_no_receiver_emails_400_witness :
  receiver_emails req_no_emails = []
  /\ run0 req_no_emails analyst_world
     = (analyst_world,
        {| status := 400;
           body := ErrorBody "At least one receiver email is required" |}).
Proof.
  split; [reflexivity|].
  apply (C2_no_receiver_emails_400 (PM := table blank)). reflexivity.
Defined.

Lemma C3_backend_engineer_witness :
  (job_title req_backend <> []
   /\ str "a@x.com" ∈ receiver_emails req_backend
   /\ Said.StrippedOf (str "a@x.com") (str "a@x.com")
   /\ exists p, db (run0 req_backend empty_world).1 !! str "a@x.com" = Some p
        /\ p ∈ profiles_of (run0 req_backend empty_world).2
        /\ ud_primary_skills (build_update_data req_backend)
           = Some [str "Python"; str "Java"; str "Node.js"]
        /\ primary_skills p = [str "Python"; str "Java"; str "Node.js"])
  /\ (exists p, db (run0 req_kelvin empty_world).1 !! str "a@x.com" = Some p
        /\ primary_skills p = [str "Python"; str "Java"; str "Node.js"])
  /\ (exists p,
        db (run0 req_two_keywords empty_world).1 !! str "a@x.com" = Some p
        /\ primary_skills p = [str "Python"; str "JavaScript"; str "React"])
  /\ (exists p,
        db (run0 req_padded_emails empty_world).1 !! str "b@x.com" = Some p
        /\ primary_skills p
           = [str "React"; str "JavaScript"; str "TypeScript"])
  /\ (exists p,
        db (run0 req_no_keyword analyst_world).1 !! str "a@x.com" = Some p
        /\ ud_primary_skills (build_update_data req_no_keyword) = None
        /\ primary_skills p = [str "SQL"]).
Proof.
  assert (Hin : forall t, str "a@x.com" ∈ receiver_emails
                  (request [str "a@x.com"] [] [] None None t))
    by (intros t; apply list_elem_of_here).
  assert (Hs : Said.StrippedOf (str "a@x.com") (str "a@x.com"))
    by (apply PyStrFacts.stripped_iff; reflexivity).
  assert (Hsb : Said.StrippedOf (str "b@x.com ") (str "b@x.com"))
    by (apply PyStrFacts.stripped_iff; reflexivity).
  assert (Hinb : str "b@x.com " ∈ receiver_emails req_padded_emails)
    by (do 2 apply list_elem_of_further; apply list_elem_of_here).
  split; [|split; [|split; [|split]]].
  - split; [discriminate|]. split; [apply Hin|]. split; [exact Hs|].
    destruct (C3_primary_skills_from_title blank req_backend empty_world
                (str "a@x.com") (str "a@x.com"))
      as (p & Hrow & Hresp & _ & _ & Hbackend & _);
      [discriminate | apply Hin | exact Hs | discriminate |].
    exists p. split; [exact Hrow|]. split; [exact Hresp|].
    apply Hbackend;
      [apply SaidFacts.not_occurs_by_test; [tauto | vm_compute; reflexivity] ..
      | apply SaidFacts.occurs_by_test; [tauto | vm_compute; reflexivity]].
  - destruct (C3_primary_skills_from_title blank req_kelvin empty_world
                (str "a@x.com") (str "a@x.com"))
      as (p & Hrow & _ & _ & _ & Hbackend & _);
      [discriminate | apply Hin | exact Hs | discriminate |].
    exists p. split; [exact Hrow|].
    apply Hbackend;
      [apply SaidFacts.not_occurs_by_test; [tauto | vm_compute; reflexivity] ..
      | apply SaidFacts.occurs_by_test; [tauto | vm_compute; reflexivity]].
  - destruct (C3_primary_skills_from_title blank req_two_keywords empty_world
                (str "a@x.com") (str "a@x.com"))
      as (p & Hrow & _ & Hpython & _);
      [discriminate | apply Hin | exact Hs | discriminate |].
    exists p. split; [exact Hrow|].
    apply Hpython.
    apply SaidFacts.occurs_by_test; [tauto | vm_compute; reflexivity].
  - destruct (C3_primary_skills_from_title blank req_padded_emails empty_world
                (str "b@x.com ") (str "b@x.com"))
      as (p & Hrow & _ & _ & Hreact & _);
      [discriminate | exact Hinb | exact Hsb | discriminate |].
    exists p. split; [exact Hrow|].
    apply Hreact;
      [apply SaidFacts.not_occurs_by_test; [tauto | vm_compute; reflexivity]
      | left; apply SaidFacts.occurs_by_test;
          [tauto | vm_compute; reflexivity]].
  - destruct (C3_primary_skills_from_title blank req_no_keyword analyst_world
                (str "a@x.com") (str "a@x.com"))
      as (p & Hrow & _ & _ & _ & _ & Hnone);
      [discriminate | apply Hin | exact Hs | discriminate |].
    exists p. split; [exact Hrow|].
    apply Hnone;
      apply SaidFacts.not_occurs_by_test; (tauto || (vm_compute; reflexivity)).
Defined.

Lemma C4_nyc_witness :
  (locations req_nyc <> []
   /\ str "a@x.com" ∈ receiver_emails req_nyc
   /\ Said.StrippedOf (str "a@x.com") (str "a@x.com")
   /\ exists p, db (run0 req_nyc empty_world).1 !! str "a@x.com" = Some p
        /\ p ∈ profiles_of (run0 req_nyc empty_world).2
        /\ preferred_locations p = [str "NYC"])
  /\ (locations req_padded_unicode <> []
      /\ ([160]%N ++ str "a@x.com" ++ [9]%N)
         ∈ receiver_emails req_padded_unicode
      /\ Said.StrippedOf ([160]%N ++ str "a@x.com" ++ [9]%N) (str "a@x.com")
      /\ exists p,
           db (run0 req_padded_unicode analyst_world).1 !! str "a@x.com"
           = Some p
           /\ p ∈ profiles_of (run0 req_padded_unicode analyst_world).2
           /\ preferred_locations p = [str "NYC"]).
Proof.
  split.
  - assert (Hlocs : locations req_nyc <> []) by discriminate.
    assert (Hin : str "a@x.com" ∈ receiver_emails req_nyc)
      by apply list_elem_of_here.
    assert (Hs : Said.StrippedOf (str "a@x.com") (str "a@x.com"))
      by (apply PyStrFacts.stripped_iff; reflexivity).
    repeat (split; [assumption|]).
    destruct (C4_locations_stripped_and_replaced blank req_nyc empty_world
                (str "a@x.com") (str "a@x.com") Hlocs Hin Hs)
      as (p & Hrow & Hresp & _ & _ & Hsame); [discriminate|].
    exists p. split; [exact Hrow|]. split; [exact Hresp|].
    apply Hsame. repeat constructor; [discriminate|].
    apply PyStrFacts.stripped_iff; reflexivity.
  - assert (Hlocs : locations req_padded_unicode <> []) by discriminate.
    assert (Hin : ([160]%N ++ str "a@x.com" ++ [9]%N)
                  ∈ receiver_emails req_padded_unicode)
      by apply list_elem_of_here.
    assert (Hs : Said.StrippedOf ([160]%N ++ str "a@x.com" ++ [9]%N)
                   (str "a@x.com"))
      by (apply PyStrFacts.stripped_iff; reflexivity).
    repeat (split; [assumption|]).
    destruct (C4_locations_stripped_and_replaced blank req_padded_unicode
                analyst_world _ (str "a@x.com") Hlocs Hin Hs)
      as (p & Hrow & Hresp & Hud & _); [discriminate|].
    exists p. split; [exact Hrow|]. split; [exact Hresp|].
    change (Some [str "NYC"] = Some (preferred_locations p)) in Hud.
    congruence.
Defined.

(** At [locations=[" NYC ", ""]] the stored list is [["NYC"]], not the
    supplied one. *)
Lemma C4_padded_locations_counterexample :
  locations req_padded <> []
  /\ ud_preferred_locations (build_update_data req_padded) = Some [str "NYC"]
  /\ preferred_locations <$> (db (run0 req_padded empty_world).1 !! str "a@x.com")
     = Some [str "NYC"]
  /\ preferred_locations <$> (db (run0 req_padded empty_world).1 !! str "a@x.com")
     <> Some (locations req_padded).
Proof.
  split; [discriminate|]. split; [reflexivity|]. split.
  - vm_compute. reflexivity.
  - vm_compute. discriminate.
Qed.

Lemma C6_get_profile_witness :
  Api.get_user_profile (ProfileManager := table blank) (str "a@x.com") (db analyst_world)
  = (db analyst_world, inr (Some analyst))
  /\ Api.get_user_profile (ProfileManager := table blank) (str "b@x.com") (db analyst_world)
     = (db analyst_world, inr None)
  /\ get_profile (PM := table blank) (str "a@x.com") analyst_world
     = (analyst_world, {| status := 200; body := ProfileBody analyst |})
  /\ get_profile (PM := table blank) (str "b@x.com") analyst_world
     = (analyst_world,
        {| status := 404; body := ErrorBody "Profile not found" |}).
Proof.
  assert (Ha : Api.get_user_profile (ProfileManager := table blank) (str "a@x.com")
                 (db analyst_world)
               = (db analyst_world, inr (Some analyst))) by reflexivity.
  assert (Hb : Api.get_user_profile (ProfileManager := table blank) (str "b@x.com")
                 (db analyst_world)
               = (db analyst_world, inr None)) by reflexivity.
  repeat (split; [assumption|]). split.
  - exact (proj2 (C6_get_profile_found_or_404 (PM := table blank) (str "a@x.com")
                    analyst_world _ _ Ha) analyst eq_refl).
  - exact (proj1 (C6_get_profile_found_or_404 (PM := table blank) (str "b@x.com")
                    analyst_world _ _ Hb) eq_refl).
Defined.

Lemma C7_experience_witness :
  (str "a@x.com") ∈ receiver_emails req_experience
  /\ PyStr.strip (str "a@x.com") <> []
  /\ ud_experience_years (build_update_data req_experience) = Some 3
  /\ ud_current_role (build_update_data req_experience) = Some (str "Data Engineer")
  /\ (exists p, db (run0 req_experience analyst_world).1 !! str "a@x.com" = Some p
        /\ p ∈ profiles_of (run0 req_experience analyst_world).2
        /\ experience_years p = 3
        /\ current_role p = str "Data Engineer")
  /\ (forall x, run0 (with_experience_max x req_experience) analyst_world
                = run0 req_experience analyst_world).
Proof.
  assert (Hin : (str "a@x.com") ∈ receiver_emails req_experience)
    by apply list_elem_of_here.
  assert (Hs : PyStr.strip (str "a@x.com") <> []) by discriminate.
  repeat (split; [assumption|]).
  exact (C7_experience_min_and_role blank req_experience analyst_world (str "a@x.com")
           Hin Hs).
Defined.

(** With [experience_max=7] and no title, the profile keeps its two years
    and its role. *)
Lemma C7_max_only_counterexample :
  experience_max req_max_only = Some 7
  /\ ud_experience_years (build_update_data req_max_only) = None
  /\ ud_current_role (build_update_data req_max_only) = None
  /\ experience_years <$> (db (run0 req_max_only analyst_world).1 !! str "a@x.com")
     = Some 2
  /\ current_role <$> (db (run0 req_max_only analyst_world).1 !! str "a@x.com")
     = Some (str "Analyst")
  /\ current_role <$> (db (run0 req_max_only analyst_world).1 !! str "a@x.com")
     <> Some (job_title req_max_only).
Proof.
  do 3 (split; [reflexivity|]). split; [vm_compute; reflexivity|].
  split; [vm_compute; reflexivity|]. vm_compute. discriminate.
Qed.

Lemma C8_unreachable_store_witness :
  loop_raises (PM := down) req_nyc (receiver_emails req_nyc) [] down_world
    down_world "connection refused"
  /\ get_config (PM := down) down_world
     = (log_error "Error getting config: connection refused" down_world,
        {| status := 500; body := ErrorBody "connection refused" |})
  /\ update_config (PM := down) req_nyc down_world
     = (log_error "Error updating config: connection refused" down_world,
        {| status := 500; body := ErrorBody "connection refused" |})
  /\ get_profiles (PM := down) down_world
     = (log_error "Error getting profiles: connection refused" down_world,
        {| status := 500; body := ErrorBody "connection refused" |})
  /\ get_profile (PM := down) (str "a@x.com") down_world
     = (log_error "Error getting profile: connection refused" down_world,
        {| status := 500; body := ErrorBody "connection refused" |}).
Proof.
  assert (Hloop : loop_raises (PM := down) req_nyc (receiver_emails req_nyc) []
                    down_world down_world "connection refused").
  { apply (raises_now (PM := down) req_nyc (str "a@x.com") [] [] down_world tt);
      [discriminate|].
    apply raises_get. reflexivity. }
  split; [exact Hloop|].
  destruct (C8_store_exception_500 (PM := down)) as (Hcfg & Hupd & Hall & Hone).
  split; [exact (Hcfg down_world tt _ eq_refl)|].
  split; [exact (Hupd req_nyc down_world down_world _ Hloop)|].
  split; [exact (Hall down_world tt _ eq_refl)|].
  exact (Hone (str "a@x.com") down_world tt _ eq_refl).
Defined.

Lemma C10_blank_emails_witness :
  receiver_emails req_blank_unicode <> []
  /\ Forall Said.Blank (receiver_emails req_blank_unicode)
  /\ run0 req_blank_unicode analyst_world
     = (analyst_world,
        {| status := 200;
           body := UpdatedBody "Configuration updated successfully" [] 0 |}).
Proof.
  assert (Hne : receiver_emails req_blank_unicode <> []) by discriminate.
  assert (Hblank : Forall Said.Blank (receiver_emails req_blank_unicode)).
  { unfold Said.Blank.
    repeat first [apply Forall_nil_2 | apply Forall_cons_2];
      unfold Said.Whitespace; lia. }
  repeat (split; [assumption|]).
  exact (proj1 (C10_blank_emails_skipped (PM := table blank))
           req_blank_unicode analyst_world Hne Hblank).
Defined.

End OnSamples.

(* ===================================================================== *)
(** ** More on the update data                                            *)
(* ===================================================================== *)

Module PayloadMore.
Import Payload PayloadFacts.

(** *** The salary bounds *)

Lemma all_mins_nil_iff rs :
  all_mins rs = [] <->
  Forall (fun r => range_min r = None \/ range_min r = Some 0) rs.
Proof.
  unfold all_mins. induction rs as [|r rs IH]; [by split|].
  cbn [omap list_omap]. rewrite Forall_cons.
  destruct (range_min r) as [z|]; simpl.
  - destruct (Z.eqb_spec z 0) as [->|Hz]; simpl.
    + rewrite IH. split; [intros ?; split; auto | by intros [_ ?]].
    + split; [done|]. intros [[[=]|[=]] _]. done.
  - rewrite IH. split; [intros ?; split; auto | by intros [_ ?]].
Qed.

Lemma all_maxs_nil_iff rs :
  all_maxs rs = [] <->
  Forall (fun r => range_max r = None \/ range_max r = Some 0) rs.
Proof.
  unfold all_maxs. induction rs as [|r rs IH]; [by split|].
  cbn [omap list_omap]. rewrite Forall_cons.
  destruct (range_max r) as [z|]; simpl.
  - destruct (Z.eqb_spec z 0) as [->|Hz]; simpl.
    + rewrite IH. split; [intros ?; split; auto | by intros [_ ?]].
    + split; [done|]. intros [[[=]|[=]] _]. done.
  - rewrite IH. split; [intros ?; split; auto | by intros [_ ?]].
Qed.

Lemma py_min_None (l : list Z) : py_min l = None <-> l = [].
Proof. by destruct l. Qed.

Lemma py_max_None (l : list Z) : py_max l = None <-> l = [].
Proof. by destruct l. Qed.

Lemma update_data_min_eq req :
  ud_expected_salary_min (build_update_data req)
  = py_min (all_mins (salary_ranges req)).
Proof. simpl. by destruct (salary_ranges req). Qed.

Lemma update_data_max_eq req :
  ud_expected_salary_max (build_update_data req)
  = py_max (all_maxs (salary_ranges req)).
Proof. simpl. by destruct (salary_ranges req). Qed.

Lemma py_min_Permutation (l l' : list Z) : l ≡ₚ l' -> py_min l = py_min l'.
Proof.
  intros Hp.
  destruct (py_min l) as [m|] eqn:Hm, (py_min l') as [m'|] eqn:Hm'.
  - apply py_min_spec in Hm as [Hin Hle], Hm' as [Hin' Hle'].
    rewrite Forall_forall in Hle. rewrite Forall_forall in Hle'.
    rewrite Hp in Hin. rewrite <- Hp in Hin'.
    f_equal. apply Z.le_antisymm; auto.
  - apply py_min_None in Hm'. subst l'. apply Permutation_nil_r in Hp.
    by subst l.
  - apply py_min_None in Hm. subst l. apply Permutation_nil_l in Hp.
    by subst l'.
  - done.
Qed.

Lemma py_max_Permutation (l l' : list Z) : l ≡ₚ l' -> py_max l = py_max l'.
Proof.
  intros Hp.
  destruct (py_max l) as [m|] eqn:Hm, (py_max l') as [m'|] eqn:Hm'.
  - apply py_max_spec in Hm as [Hin Hle], Hm' as [Hin' Hle'].
    rewrite Forall_forall in Hle. rewrite Forall_forall in Hle'.
    rewrite Hp in Hin. rewrite <- Hp in Hin'.
    f_equal. apply Z.le_antisymm; auto.
  - apply py_max_None in Hm'. subst l'. apply Permutation_nil_r in Hp.
    by subst l.
  - apply py_max_None in Hm. subst l. apply Permutation_nil_l in Hp.
    by subst l'.
  - done.
Qed.

(** *** The locations *)

Lemma clean_locations_nil_iff locs :
  clean_locations locs = [] <->
  Forall (fun l => PyStr.all_space l = true) locs.
Proof.
  unfold clean_locations. induction locs as [|l locs IH]; [by split|].
  cbn [omap list_omap]. rewrite Forall_cons, <- PyStrFacts.strip_empty_iff.
  destruct (PyStr.strip l) eqn:Hs; simpl.
  - rewrite IH. split; [intros ?; split; auto | by intros [_ ?]].
  - split; [done|]. by intros [[=] _].
Qed.

Lemma clean_locations_stripped locs :
  Forall (fun l => PyStr.strip l = l /\ l <> []) (clean_locations locs).
Proof.
  apply Forall_forall. intros l (Hne & loc & _ & <-)%elem_of_clean_locations.
  split; [apply PyStrMore.strip_strip | done].
Qed.

End PayloadMore.

(* ===================================================================== *)
(** ** Further properties of the update data (lines 93-122)               *)
(* ===================================================================== *)

Section UpdateData.
Import PyStr PayloadFacts PayloadMore SaidFacts.

(** X1: [preferred_locations] is left out of the update exactly when no
    location is supplied, and it is passed as the empty list, which clears
    the locations of the profile, exactly when locations are supplied and
    all of them are empty or white space. *)
Theorem locations_left_out_or_cleared (req : ConfigRequest) :
  (ud_preferred_locations (build_update_data req) = None
   <-> locations req = [])
  /\ (ud_preferred_locations (build_update_data req) = Some []
      <-> locations req <> [] /\ Forall Said.Blank (locations req)).
Proof.
  rewrite SaidFacts.blank_all_iff.
  cbn [build_update_data ud_preferred_locations].
  destruct (locations req) as [|l ls] eqn:Hl.
  - split; split; try done. by intros [? _].
  - rewrite <- Hl. split; [split; [done | by rewrite Hl]|].
    rewrite <- clean_locations_nil_iff. split.
    + intros [= ->]. split; [by rewrite Hl | done].
    + by intros [_ ->].
Qed.

(** X2: the locations passed to [update_user_profile] are the supplied
    ones in the order supplied, those that are empty or white space left
    out and the others stripped of the white space around them: each one
    passed is not empty, has no white space around it and is a supplied
    one stripped, and keeping the passed list again gives the same
    list. *)
Theorem locations_passed_are_stripped (req : ConfigRequest) (ls : list pystr) :
  ud_preferred_locations (build_update_data req) = Some ls ->
  Said.Kept (locations req) ls
  /\ Forall (fun l => l <> [] /\ Said.StrippedOf l l
                      /\ exists loc, loc ∈ locations req
                                     /\ Said.StrippedOf loc l) ls
  /\ Said.Kept ls ls.
Proof.
  cbn [build_update_data ud_preferred_locations].
  destruct (locations req) as [|l0 ls0] eqn:Hl; [discriminate|].
  rewrite <- Hl. intros [= <-]. split; [|split].
  - by apply SaidFacts.kept_locations_iff.
  - apply Forall_forall. intros l Hin.
    pose proof Hin as (Hne & loc & Hloc & <-)%elem_of_clean_locations.
    split; [done|]. split.
    + apply SaidFacts.stripped_self_iff, PyStrMore.strip_strip.
    + exists loc. split; [done|]. apply PyStrFacts.strip_stripped.
  - apply SaidFacts.kept_locations_iff. symmetry.
    apply clean_locations_id.
    eapply Forall_impl; [apply clean_locations_stripped|]. by intros l [? ?].
Qed.

(** X3: a salary bound is left out of the update exactly when every range
    lacks it or has it at zero, and it is never passed as zero. *)
Theorem salary_bound_left_out_iff (req : ConfigRequest) :
  (ud_expected_salary_min (build_update_data req) = None
   <-> Forall (fun r => range_min r = None \/ range_min r = Some 0)
              (salary_ranges req))
  /\ (ud_expected_salary_max (build_update_data req) = None
      <-> Forall (fun r => range_max r = None \/ range_max r = Some 0)
                 (salary_ranges req))
  /\ ud_expected_salary_min (build_update_data req) <> Some 0
  /\ ud_expected_salary_max (build_update_data req) <> Some 0.
Proof.
  rewrite update_data_min_eq, update_data_max_eq.
  rewrite py_min_None, py_max_None, all_mins_nil_iff, all_maxs_nil_iff.
  split; [done|]. split; [done|]. split.
  - intros [Hin _]%py_min_spec. by apply elem_of_all_mins in Hin as [? _].
  - intros [Hin _]%py_max_spec. by apply elem_of_all_maxs in Hin as [? _].
Qed.

(** X4: a min passed to [update_user_profile] is the min of one of the
    ranges, is not zero and is at most every min that is not zero; a max
    passed is the max of one of the ranges, is not zero and is at least
    every max that is not zero. *)
Theorem salary_bounds_least_and_greatest (req : ConfigRequest) :
  (forall m, ud_expected_salary_min (build_update_data req) = Some m ->
     m <> 0
     /\ (exists r, r ∈ salary_ranges req /\ range_min r = Some m)
     /\ (forall r lo, r ∈ salary_ranges req -> range_min r = Some lo ->
                      lo <> 0 -> m <= lo))
  /\ (forall m, ud_expected_salary_max (build_update_data req) = Some m ->
        m <> 0
        /\ (exists r, r ∈ salary_ranges req /\ range_max r = Some m)
        /\ (forall r hi, r ∈ salary_ranges req -> range_max r = Some hi ->
                         hi <> 0 -> hi <= m)).
Proof.
  split; intros m Hm.
  - apply update_data_salary_min in Hm as [Hin Hle].
    pose proof Hin as [Hnz Hr]%elem_of_all_mins.
    split; [done|]. split; [done|]. intros r lo Hr' Hlo Hlo0.
    rewrite Forall_forall in Hle. apply Hle, elem_of_all_mins. eauto.
  - apply update_data_salary_max in Hm as [Hin Hle].
    pose proof Hin as [Hnz Hr]%elem_of_all_maxs.
    split; [done|]. split; [done|]. intros r hi Hr' Hhi Hhi0.
    rewrite Forall_forall in Hle. apply Hle, elem_of_all_maxs. eauto.
Qed.

(** X5: when every range has a min and a max with min at most max, a min
    and a max that are both passed are in that order too. *)
Theorem salary_bounds_ordered (req : ConfigRequest) (m M : Z) :
  Forall (fun r => exists lo hi, range_min r = Some lo
                                 /\ range_max r = Some hi /\ lo <= hi)
         (salary_ranges req) ->
  ud_expected_salary_min (build_update_data req) = Some m ->
  ud_expected_salary_max (build_update_data req) = Some M ->
  m <= M.
Proof.
  intros Hall Hm HM. rewrite Forall_forall in Hall.
  apply update_data_salary_min in Hm as [Hmin Hmle].
  apply update_data_salary_max in HM as [HMin HMle].
  rewrite Forall_forall in Hmle. rewrite Forall_forall in HMle.
  apply elem_of_all_mins in Hmin as (Hm0 & r & Hr & Hrm).
  apply elem_of_all_maxs in HMin as (HM0 & r' & Hr' & Hr'M).
  destruct (Hall r Hr) as (lo & hi & Hlo & Hhi & Hle).
  destruct (Hall r' Hr') as (lo' & hi' & Hlo' & Hhi' & Hle').
  assert (lo = m) by congruence. assert (hi' = M) by congruence. subst lo hi'.
  destruct (decide (hi = 0)) as [->|Hhi0].
  - destruct (decide (lo' = 0)) as [->|Hlo'0]; [lia|].
    assert (m <= lo') by (apply Hmle, elem_of_all_mins; eauto). lia.
  - assert (hi <= M) by (apply HMle, elem_of_all_maxs; eauto). lia.
Qed.

(** X6: the salary bounds passed do not depend on the order of the
    ranges. *)
Theorem salary_bounds_order_independent (req req' : ConfigRequest) :
  salary_ranges req ≡ₚ salary_ranges req' ->
  ud_expected_salary_min (build_update_data req)
  = ud_expected_salary_min (build_update_data req')
  /\ ud_expected_salary_max (build_update_data req)
     = ud_expected_salary_max (build_update_data req').
Proof.
  intros Hp. rewrite !update_data_min_eq, !update_data_max_eq. split.
  - apply py_min_Permutation. unfold all_mins. by rewrite Hp.
  - apply py_max_Permutation. unfold all_maxs. by rewrite Hp.
Qed.


End UpdateData.

(* ===================================================================== *)
(** ** More on the handlers over any profile manager                      *)
(* ===================================================================== *)

Module ApiMore.
Import Payload Api.

Section Generic.
Context {St Prof D : Type} `{PM : ProfileManager St Prof D}.

(** *** The log *)

Lemma keeps_log_ret {A} (a : A) : keeps_log (St := St) (ret a).
Proof. by intros w. Qed.

Lemma keeps_log_call {A} (op : St -> St * (exn + A)) : keeps_log (call op).
Proof. intros w. unfold call. by destruct (op (db w)). Qed.

Lemma keeps_log_bind {A B} (m : M St A) (k : A -> M St B) :
  keeps_log m -> (forall a, keeps_log (k a)) -> keeps_log (bind m k).
Proof.
  intros Hm Hk w. unfold bind. specialize (Hm w).
  destruct (m w) as [w' [e|a]]; simpl in *; [done|].
  rewrite <- Hm. apply Hk.
Qed.

Lemma keeps_log_process_email req raw (upd : list D) :
  keeps_log (process_email req raw upd).
Proof.
  unfold process_email.
  destruct (negb _ || negb _); [apply keeps_log_ret|].
  apply keeps_log_bind; [apply keeps_log_call|].
  intros found. apply keeps_log_bind.
  - destruct found; [apply keeps_log_ret | apply keeps_log_call].
  - intros [p|]; [|apply keeps_log_ret].
    apply keeps_log_bind; [apply keeps_log_call|].
    intros [p'|]; apply keeps_log_ret.
Qed.

Lemma keeps_log_process_emails req emails (upd : list D) :
  keeps_log (process_emails req emails upd).
Proof.
  revert upd. induction emails as [|raw emails IH]; intros upd; simpl.
  - apply keeps_log_ret.
  - apply keeps_log_bind; [apply keeps_log_process_email | exact IH].
Qed.

Lemma keeps_log_update_config_body req : keeps_log (update_config_body req).
Proof.
  unfold update_config_body.
  destruct (receiver_emails req) as [|e es] eqn:He; [apply keeps_log_ret|].
  rewrite <- He.
  apply keeps_log_bind; [apply keeps_log_process_emails|].
  intros ups. apply keeps_log_ret.
Qed.

Lemma keeps_log_get_config_body : keeps_log get_config_body.
Proof.
  apply keeps_log_bind; [apply keeps_log_call|]. intros ps.
  apply keeps_log_bind; [by intros w|]. intros cfg. apply keeps_log_ret.
Qed.

Lemma keeps_log_get_profiles_body : keeps_log get_profiles_body.
Proof.
  apply keeps_log_bind; [apply keeps_log_call|]. intros ps.
  apply keeps_log_ret.
Qed.

Lemma keeps_log_get_profile_body email : keeps_log (get_profile_body email).
Proof.
  apply keeps_log_bind; [apply keeps_log_call|].
  intros [p|]; apply keeps_log_ret.
Qed.

Lemma try_except_logs what (m : M St (Response D)) :
  keeps_log m ->
  (forall w w' r, m w = (w', inr r) -> status r <> 500%nat) ->
  logs_errors_only what (try_except what m).
Proof.
  intros Hlog Hstatus w. unfold try_except. specialize (Hlog w).
  destruct (m w) as [w' [e|r]] eqn:Hm; simpl in *.
  - exists e. by rewrite Hlog.
  - rewrite decide_False by by eapply Hstatus. done.
Qed.

(** *** The answers of the handler bodies *)

Lemma update_config_body_answer req w w' r :
  update_config_body req w = (w', inr r) ->
  (receiver_emails req = [] /\ w' = w
   /\ r = err 400 "At least one receiver email is required")
  \/ (receiver_emails req <> []
      /\ exists ps, process_emails req (receiver_emails req) [] w = (w', inr ps)
           /\ r = ok (UpdatedBody "Configuration updated successfully" ps
                        (length ps))).
Proof.
  unfold update_config_body.
  destruct (receiver_emails req) as [|raw raws] eqn:He.
  - intros [= <- <-]. by left.
  - unfold bind.
    destruct (process_emails _ _ _ _) as [w1 [e|ps]]; [discriminate|].
    intros [= <- <-]. right. split; [done|]. by exists ps.
Qed.

Lemma get_config_body_status w w' r :
  get_config_body w = (w', inr r) -> status r = 200%nat.
Proof.
  unfold get_config_body, bind, call, read_config.
  destruct (get_all_active_profiles (db w)) as [s [e|ps]]; [discriminate|].
  by intros [= _ <-].
Qed.

Lemma get_profiles_body_status w w' r :
  get_profiles_body w = (w', inr r) -> status r = 200%nat.
Proof.
  unfold get_profiles_body, bind, call.
  destruct (get_all_active_profiles (db w)) as [s [e|ps]]; [discriminate|].
  by intros [= _ <-].
Qed.

Lemma get_profile_body_status email w w' r :
  get_profile_body email w = (w', inr r) ->
  status r = 200%nat \/ status r = 404%nat.
Proof.
  unfold get_profile_body, bind, call.
  destruct (get_user_profile email (db w)) as [s [e|[p|]]]; [discriminate| |].
  - intros [= _ <-]. by left.
  - intros [= _ <-]. by right.
Qed.

(** *** The profiles returned *)

Lemma process_email_length req raw (upd upd' : list D) w w' :
  process_email req raw upd w = (w', inr upd') ->
  (length upd' <= length upd + length (Store.valid_emails [raw]))%nat.
Proof.
  rewrite (StoreFacts.valid_emails_cons raw []).
  destruct (decide (PyStr.strip raw = [])) as [Hs|Hs].
  - rewrite ApiFacts.process_email_skip by done. intros [= _ <-]. simpl. lia.
  - rewrite ApiFacts.process_email_run by done. simpl. unfold bind, call.
    destruct (get_user_profile _ _) as [s1 [x|[p|]]]; simpl; [discriminate| |].
    + destruct (update_user_profile _ _ _) as [s2 [x|[p'|]]]; simpl;
        [discriminate| |]; intros [= _ <-]; rewrite ?length_app; simpl; lia.
    + destruct (create_default_profile _ _ _) as [s2 [x|[p|]]]; simpl;
        [discriminate| |].
      * destruct (update_user_profile _ _ _) as [s3 [x|[p'|]]]; simpl;
          [discriminate| |]; intros [= _ <-]; rewrite ?length_app; simpl; lia.
      * intros [= _ <-]. lia.
Qed.

Lemma process_emails_length req raws (upd upd' : list D) w w' :
  process_emails req raws upd w = (w', inr upd') ->
  (length upd' <= length upd + length (Store.valid_emails raws))%nat.
Proof.
  revert upd w. induction raws as [|raw raws IH]; intros upd w.
  - simpl. intros [= _ <-]. lia.
  - cbn [process_emails]. unfold bind.
    destruct (process_email req raw upd w) as [w1 [x|upd1]] eqn:Hrun;
      [discriminate|].
    intros Hrest. apply IH in Hrest. apply process_email_length in Hrun.
    rewrite StoreFacts.valid_emails_cons.
    rewrite (StoreFacts.valid_emails_cons raw []) in Hrun.
    change (Store.valid_emails []) with (@nil pystr) in Hrun.
    destruct (decide (PyStr.strip raw = [])); cbn [length] in *; lia.
Qed.

(** *** Emails are used stripped *)

Lemma valid_emails_strip raws :
  Forall (fun e => PyStr.strip e = e /\ e <> []) (Store.valid_emails raws).
Proof.
  apply Forall_forall.
  intros e (Hne & raw & _ & <-)%StoreFacts.elem_of_valid_emails.
  split; [apply PyStrMore.strip_strip | done].
Qed.

Lemma process_email_stripped req raw (upd : list D) w :
  PyStr.strip raw <> [] ->
  process_email req (PyStr.strip raw) upd w = process_email req raw upd w.
Proof.
  intros Hs. rewrite !ApiFacts.process_email_run;
    rewrite ?PyStrMore.strip_strip; done.
Qed.

Lemma process_emails_valid req raws (upd : list D) w :
  process_emails req (Store.valid_emails raws) upd w
  = process_emails req raws upd w.
Proof.
  revert upd w. induction raws as [|raw raws IH]; intros upd w; [done|].
  rewrite StoreFacts.valid_emails_cons.
  destruct (decide (PyStr.strip raw = [])) as [Hs|Hs]; cbn [process_emails];
    unfold bind.
  - rewrite ApiFacts.process_email_skip by done. apply IH.
  - rewrite process_email_stripped by done.
    destruct (process_email req raw upd w) as [w1 [x|upd1]]; [done|].
    apply IH.
Qed.

Lemma process_emails_other_emails emails req raws (upd : list D) w :
  process_emails (with_receiver_emails emails req) raws upd w
  = process_emails req raws upd w.
Proof.
  revert upd w. induction raws as [|raw raws IH]; intros upd w; [reflexivity|].
  simpl. unfold bind.
  change (process_email (with_receiver_emails emails req) raw upd w)
    with (process_email req raw upd w).
  destruct (process_email req raw upd w) as [w1 [e|upd']]; [reflexivity|].
  apply IH.
Qed.

End Generic.

End ApiMore.

(* ===================================================================== *)
(** ** Further properties of the handlers, for any profile manager        *)
(* ===================================================================== *)

Section AnyManagerMore.
Context {St Prof D : Type} `{PM : ProfileManager St Prof D}.

(** X8: [POST /api/config] answers 400 exactly when [receiver_emails] is
    empty, 500 exactly when a call of the profile manager raises during
    the loop, and 200 otherwise; the body of a 200 is the message, the
    profiles and their number, the body of a 400 or 500 is an [error]. *)
Theorem update_config_status_cases (req : ConfigRequest) (w : World St) :
  let r := (update_config req w).2 in
  (status r = 400%nat <-> receiver_emails req = [])
  /\ (status r = 500%nat
      <-> exists w' e, loop_raises req (receiver_emails req) [] w w' e)
  /\ (status r = 200%nat \/ status r = 400%nat \/ status r = 500%nat)
  /\ (status r = 200%nat ->
      exists ps, body r = UpdatedBody "Configuration updated successfully"
                            ps (length ps))
  /\ (status r <> 200%nat -> exists e, body r = ErrorBody e).
Proof.
  cbv zeta. unfold update_config, try_except.
  destruct (update_config_body req w) as [w' [e|r]] eqn:Hb; simpl.
  - assert (Hloop : loop_raises req (receiver_emails req) [] w w' e).
    { unfold update_config_body in Hb.
      destruct (receiver_emails req) as [|raw raws] eqn:He; [discriminate|].
      unfold bind in Hb.
      destruct (process_emails req (raw :: raws) [] w) as [w1 [x|ps]] eqn:Hrun;
        [|discriminate].
      injection Hb as <- <-. by apply ApiFacts.loop_raises_complete. }
    repeat split; eauto; try discriminate.
    intros He. rewrite He in Hloop. inversion Hloop.
  - apply ApiMore.update_config_body_answer in Hb
      as [(He & _ & ->) | (Hne & ps & Hrun & ->)]; simpl.
    + repeat split; eauto; try discriminate.
      intros (w1 & e & Hloop). rewrite He in Hloop. inversion Hloop.
    + repeat split; eauto; try done; try discriminate.
      intros (w1 & e & Hloop). apply ApiFacts.loop_raises_sound in Hloop.
      congruence.
Qed.

(** X9: each of the four handlers that use the profile manager writes to
    the error log exactly when it answers 500, and then one line, made of
    its own prefix and of the [error] it returns; [GET /api/health] never
    writes to it. *)
Theorem handlers_log_errors_only :
  logs_errors_only "Error getting config" get_config
  /\ (forall req, logs_errors_only "Error updating config" (update_config req))
  /\ logs_errors_only "Error getting profiles" get_profiles
  /\ (forall email,
        logs_errors_only "Error getting profile" (get_profile email))
  /\ (forall w : World St, (health_check (D := D) w).1 = w).
Proof.
  split; [|split; [|split; [|split]]].
  - apply ApiMore.try_except_logs; [apply ApiMore.keeps_log_get_config_body|].
    intros w w' r Hr. by rewrite (ApiMore.get_config_body_status _ _ _ Hr).
  - intros req. apply ApiMore.try_except_logs;
      [apply ApiMore.keeps_log_update_config_body|].
    intros w w' r Hr.
    by apply ApiMore.update_config_body_answer in Hr
      as [(_ & _ & ->) | (_ & ps & _ & ->)].
  - apply ApiMore.try_except_logs; [apply ApiMore.keeps_log_get_profiles_body|].
    intros w w' r Hr. by rewrite (ApiMore.get_profiles_body_status _ _ _ Hr).
  - intros email. apply ApiMore.try_except_logs;
      [apply ApiMore.keeps_log_get_profile_body|].
    intros w w' r Hr.
    by destruct (ApiMore.get_profile_body_status _ _ _ _ Hr) as [-> | ->].
  - reflexivity.
Qed.

(** The handlers that read ([GET /api/health], [GET /api/config],
    [GET /api/profiles], [GET /api/profiles/<email>]) leave the
    process-wide configuration as it was, whether they answer or fail. *)
Theorem read_handlers_keep_config (w : World St) :
  config (health_check (D := D) w).1 = config w
  /\ config (get_config w).1 = config w
  /\ config (get_profiles w).1 = config w
  /\ (forall email, config (get_profile email w).1 = config w).
Proof.
  split; [reflexivity|]. split; [|split].
  - apply ApiFacts.try_except_config.
    apply ApiFacts.keeps_config_bind; [apply ApiFacts.keeps_config_call|].
    intros ps. apply ApiFacts.keeps_config_bind; [by intros w0|].
    intros cfg. apply ApiFacts.keeps_config_ret.
  - apply ApiFacts.try_except_config.
    apply ApiFacts.keeps_config_bind; [apply ApiFacts.keeps_config_call|].
    intros ps. apply ApiFacts.keeps_config_ret.
  - intros email. apply ApiFacts.try_except_config.
    apply ApiFacts.keeps_config_bind; [apply ApiFacts.keeps_config_call|].
    intros [p|]; apply ApiFacts.keeps_config_ret.
Qed.

(** X10: the answer of [POST /api/config] never lists more profiles than
    there are emails left when those that are empty or white space are
    taken out. *)
Theorem profiles_at_most_valid_emails (req : ConfigRequest) (w : World St)
    (kept : list pystr) :
  Said.Kept (receiver_emails req) kept ->
  (length (profiles_of (update_config req w).2) <= length kept)%nat.
Proof.
  intros ->%SaidFacts.kept_unique.
  unfold update_config, try_except.
  destruct (update_config_body req w) as [w' [e|r]] eqn:Hb; simpl.
  - unfold profiles_of. simpl. lia.
  - apply ApiMore.update_config_body_answer in Hb
      as [(He & _ & ->) | (Hne & ps & Hrun & ->)].
    + unfold profiles_of. simpl. lia.
    + apply ApiMore.process_emails_length in Hrun. unfold profiles_of.
      simpl in *. lia.
Qed.

(** X11: emails are used stripped and the empty ones not at all: when some
    email is left, sending the emails stripped of the white space around
    them, without those that are empty or white space, instead of the ones
    sent gives the same world and the same answer. *)
Theorem emails_are_used_stripped (req : ConfigRequest) (w : World St)
    (kept : list pystr) :
  Said.Kept (receiver_emails req) kept -> kept <> [] ->
  update_config (with_receiver_emails kept req) w = update_config req w.
Proof.
  intros ->%SaidFacts.kept_unique Hvalid.
  unfold update_config, try_except, update_config_body.
  cbn [with_receiver_emails receiver_emails].
  destruct (Store.valid_emails (receiver_emails req)) as [|e es] eqn:Hes; [done|].
  destruct (receiver_emails req) as [|raw raws] eqn:He; [done|].
  unfold bind. rewrite ApiMore.process_emails_other_emails.
  rewrite <- Hes, <- He. by rewrite ApiMore.process_emails_valid.
Qed.

(** X12: run in the same world, [GET /api/config] and [GET /api/profiles]
    give the same status and the same profiles and leave the same
    database. *)
Theorem get_config_and_get_profiles_agree (w : World St) :
  status (get_config w).2 = status (get_profiles w).2
  /\ profiles_of (get_config w).2 = profiles_of (get_profiles w).2
  /\ db (get_config w).1 = db (get_profiles w).1.
Proof.
  unfold get_config, get_profiles, try_except, get_config_body,
    get_profiles_body, bind, call, read_config.
  by destruct (Api.get_all_active_profiles (db w)) as [s [e|ps]].
Qed.

End AnyManagerMore.

(* ===================================================================== *)
(** ** The calls the handlers make                                        *)
(* ===================================================================== *)

Module TraceFacts.
Import Payload Api Trace.

Section Recorded.
Context {St Prof D : Type} (PM : ProfileManager St Prof D).

Lemma untraced_with_db s tr (w : World (St * list Call)) :
  untraced (with_db (s, tr) w) = with_db s (untraced w).
Proof. reflexivity. Qed.

Lemma untraced_log_error msg (w : World (St * list Call)) :
  untraced (log_error msg w) = log_error msg (untraced w).
Proof. reflexivity. Qed.

Lemma calls_log_error msg (w : World (St * list Call)) :
  calls (log_error msg w) = calls w.
Proof. reflexivity. Qed.

(** *** Recording changes nothing *)

Lemma traced_process_email req raw (upd : list D) w :
  (process_email (PM := traced PM) req raw upd w).2
  = (process_email (PM := PM) req raw upd (untraced w)).2
  /\ untraced (process_email (PM := traced PM) req raw upd w).1
     = (process_email (PM := PM) req raw upd (untraced w)).1.
Proof.
  destruct (decide (PyStr.strip raw = [])) as [Hs|Hs].
  { by rewrite !ApiFacts.process_email_skip. }
  rewrite !ApiFacts.process_email_run by done.
  cbv zeta. unfold bind, call.
  cbn [Api.get_user_profile Api.create_default_profile
       Api.update_user_profile traced].
  unfold record. change (db (untraced w)) with (db w).1.
  destruct (Api.get_user_profile (PyStr.strip raw) (db w).1)
    as [s1 [x|[p|]]]; cbn; [done| |].
  - destruct (Api.update_user_profile _ _ s1) as [s2 [x|[p'|]]]; by cbn.
  - destruct (Api.create_default_profile _ _ s1) as [s2 [x|[p|]]]; cbn;
      [done| |done].
    destruct (Api.update_user_profile _ _ s2) as [s3 [x|[p'|]]]; by cbn.
Qed.

Lemma traced_process_emails req raws (upd : list D) w :
  (process_emails (PM := traced PM) req raws upd w).2
  = (process_emails (PM := PM) req raws upd (untraced w)).2
  /\ untraced (process_emails (PM := traced PM) req raws upd w).1
     = (process_emails (PM := PM) req raws upd (untraced w)).1.
Proof.
  revert upd w. induction raws as [|raw raws IH]; intros upd w; [done|].
  cbn [process_emails]. unfold bind.
  destruct (traced_process_email req raw upd w) as [Hr Hw].
  destruct (process_email (PM := traced PM) req raw upd w) as [wt [x|updt]],
    (process_email (PM := PM) req raw upd (untraced w)) as [wu [y|updu]];
    simpl in Hr, Hw; try discriminate.
  - by injection Hr as ->.
  - injection Hr as ->. subst wu. apply IH.
Qed.

Lemma traced_update_config req w :
  (update_config (PM := traced PM) req w).2
  = (update_config (PM := PM) req (untraced w)).2
  /\ untraced (update_config (PM := traced PM) req w).1
     = (update_config (PM := PM) req (untraced w)).1.
Proof.
  unfold update_config, try_except, update_config_body.
  destruct (receiver_emails req) as [|raw raws]; [done|].
  unfold bind.
  destruct (traced_process_emails req (raw :: raws) [] w) as [Hr Hw].
  destruct (process_emails (PM := traced PM) req (raw :: raws) [] w)
    as [wt [x|updt]],
    (process_emails (PM := PM) req (raw :: raws) [] (untraced w))
    as [wu [y|updu]];
    simpl in Hr, Hw; try discriminate.
  - injection Hr as ->. subst wu. done.
  - injection Hr as ->. subst wu. done.
Qed.

(** *** The calls of one turn, and of the loop *)

Lemma process_email_calls req raw (upd : list D) w :
  if decide (PyStr.strip raw = [])
  then calls (process_email (PM := traced PM) req raw upd w).1 = calls w
  else exists blk,
         blk ∈ turn_blocks req (PyStr.strip raw)
         /\ calls (process_email (PM := traced PM) req raw upd w).1
            = calls w ++ blk.
Proof.
  destruct (decide (PyStr.strip raw = [])) as [Hs|Hs].
  { by rewrite ApiFacts.process_email_skip. }
  rewrite ApiFacts.process_email_run by done.
  cbv zeta. unfold bind, call, turn_blocks.
  cbn [Api.get_user_profile Api.create_default_profile
       Api.update_user_profile traced].
  unfold record.
  destruct (Api.get_user_profile (PyStr.strip raw) (db w).1)
    as [s1 [x|[p|]]]; cbn.
  - eexists. split; [apply list_elem_of_here|]. done.
  - destruct (Api.update_user_profile _ _ s1) as [s2 [x|[p'|]]]; cbn;
      (eexists; split; [apply list_elem_of_further, list_elem_of_here|]);
      unfold calls; cbn; by rewrite <- app_assoc.
  - destruct (Api.create_default_profile _ _ s1) as [s2 [x|[p|]]]; cbn.
    + eexists. split; [do 2 apply list_elem_of_further; apply list_elem_of_here|].
      unfold calls; cbn. by rewrite <- app_assoc.
    + destruct (Api.update_user_profile _ _ s2) as [s3 [x|[p'|]]]; cbn;
        (eexists; split;
         [do 3 apply list_elem_of_further; apply list_elem_of_here|]);
        unfold calls; cbn; by rewrite <- !app_assoc.
    + eexists. split; [do 2 apply list_elem_of_further; apply list_elem_of_here|].
      unfold calls; cbn. by rewrite <- app_assoc.
Qed.

Lemma process_emails_calls req raws (upd : list D) w :
  exists es blks,
    calls (process_emails (PM := traced PM) req raws upd w).1
    = calls w ++ concat blks
    /\ Forall2 (fun e blk => blk ∈ turn_blocks req e) es blks
    /\ es `prefix_of` Store.valid_emails raws
    /\ (forall ps,
          (process_emails (PM := traced PM) req raws upd w).2 = inr ps ->
          es = Store.valid_emails raws).
Proof.
  revert upd w. induction raws as [|raw raws IH]; intros upd w.
  { exists [], []. cbn. rewrite app_nil_r. repeat split; [constructor|done]. }
  cbn [process_emails]. unfold bind.
  rewrite StoreFacts.valid_emails_cons.
  pose proof (process_email_calls req raw upd w) as Hturn.
  destruct (decide (PyStr.strip raw = [])) as [Hs|Hs].
  - rewrite ApiFacts.process_email_skip by done. apply IH.
  - destruct Hturn as (blk & Hblk & Hcalls).
    destruct (process_email (PM := traced PM) req raw upd w)
      as [w1 [x|upd1]]; simpl in Hcalls.
    + exists [PyStr.strip raw], [blk]. cbn. rewrite app_nil_r.
      repeat split; [done | by constructor; [|constructor] | | done].
      apply prefix_cons, prefix_nil.
    + destruct (IH upd1 w1) as (es & blks & Hc & Hall & Hpre & Hfull).
      exists (PyStr.strip raw :: es), (blk :: blks). cbn.
      rewrite Hc, Hcalls, <- app_assoc. repeat split.
      * by constructor.
      * by apply prefix_cons.
      * intros ps Hps. f_equal. by eapply Hfull.
Qed.

Lemma update_config_calls req w :
  exists es blks,
    calls (update_config (PM := traced PM) req w).1 = calls w ++ concat blks
    /\ Forall2 (fun e blk => blk ∈ turn_blocks req e) es blks
    /\ es `prefix_of` Store.valid_emails (receiver_emails req)
    /\ (status (update_config (PM := traced PM) req w).2 <> 500%nat ->
        es = Store.valid_emails (receiver_emails req)).
Proof.
  unfold update_config, try_except, update_config_body.
  destruct (receiver_emails req) as [|raw raws] eqn:He.
  { exists [], []. cbn. rewrite app_nil_r. repeat split; [constructor|done]. }
  unfold bind.
  destruct (process_emails_calls req (raw :: raws) [] w)
    as (es & blks & Hc & Hall & Hpre & Hfull).
  destruct (process_emails (PM := traced PM) req (raw :: raws) [] w)
    as [w1 [x|ps]]; simpl in *.
  - exists es, blks. rewrite calls_log_error. repeat split; try done.
  - exists es, blks. repeat split; try done. intros _. by eapply Hfull.
Qed.

Lemma turn_block_calls req e blk c :
  blk ∈ turn_blocks req e -> c ∈ blk ->
  c = GetProfile e
  \/ c = CreateDefault e (PyStr.split_head 64%N e)
  \/ c = UpdateProfile e (build_update_data req).
Proof.
  unfold turn_blocks. rewrite !elem_of_cons, elem_of_nil.
  intros [->|[->|[->|[->|[]]]]]; rewrite ?elem_of_cons, elem_of_nil; tauto.
Qed.

Lemma turn_block_lookup req e blk :
  blk ∈ turn_blocks req e -> omap looked_up blk = [e].
Proof.
  unfold turn_blocks. rewrite !elem_of_cons, elem_of_nil.
  by intros [->|[->|[->|[->|[]]]]].
Qed.

End Recorded.

End TraceFacts.

(* ===================================================================== *)
(** ** Which calls [POST /api/config] and the reading handlers make       *)
(* ===================================================================== *)

Section CallsMade.
Import Trace.
Context {St Prof D : Type} (PM : ProfileManager St Prof D).

Lemma blocks_of_valid_emails req (valid es : list pystr)
    (blks : list (list Call)) :
  Forall2 (fun e blk => blk ∈ turn_blocks req e) es blks ->
  es `prefix_of` valid ->
  Forall (fun c => exists e, e ∈ valid
            /\ (c = GetProfile e
                \/ c = CreateDefault e (PyStr.split_head 64%N e)
                \/ c = UpdateProfile e (build_update_data req)))
         (concat blks)
  /\ omap looked_up (concat blks) = es.
Proof.
  intros Hall Hpre.
  assert (Hsub : forall e, e ∈ es -> e ∈ valid).
  { destruct Hpre as [rest ->]. intros e He. apply elem_of_app. by left. }
  clear Hpre.
  induction Hall as [|e blk es blks Hblk _ IH]; [by split; [constructor|]|].
  cbn [concat]. destruct IH as [IHcalls IHlook].
  { intros e' He'. by apply Hsub, list_elem_of_further. }
  split.
  - apply Forall_app. split; [|exact IHcalls].
    apply Forall_forall. intros c Hc. exists e.
    split; [apply Hsub, list_elem_of_here|].
    by eapply TraceFacts.turn_block_calls.
  - rewrite omap_app, IHlook, (TraceFacts.turn_block_lookup req e blk) by done.
    done.
Qed.

(** X13: with the calls of any profile manager recorded, [POST
    /api/config] answers and changes the world as without the record, and
    the calls it makes are, for each email that is not empty or white
    space, in the order sent: [get_user_profile], then
    [create_default_profile] or not, then [update_user_profile] or not,
    all three for the email stripped of the white space around it; up to
    the email at which a call raises when the answer is 500, for all of
    them otherwise. *)
Theorem update_config_calls_per_email (req : ConfigRequest)
    (w : World (St * list Call)) (kept : list pystr) :
  Said.Kept (receiver_emails req) kept ->
  (update_config (PM := traced PM) req w).2
  = (update_config (PM := PM) req (untraced w)).2
  /\ untraced (update_config (PM := traced PM) req w).1
     = (update_config (PM := PM) req (untraced w)).1
  /\ exists es blks,
       calls (update_config (PM := traced PM) req w).1
       = calls w ++ concat blks
       /\ Forall2 (fun e blk => blk ∈ turn_blocks req e) es blks
       /\ es `prefix_of` kept
       /\ (status (update_config (PM := traced PM) req w).2 <> 500%nat ->
           es = kept).
Proof.
  intros ->%SaidFacts.kept_unique.
  destruct (TraceFacts.traced_update_config PM req w) as [Hr Hw].
  split; [exact Hr|]. split; [exact Hw|].
  apply TraceFacts.update_config_calls.
Qed.

(** X14: every call [POST /api/config] makes to the profile manager is
    about an email of the request stripped of the white space around it,
    and not empty: a lookup, a creation whose name is the part of the
    email before the first "@", or an update with the update data of the
    request.  It never lists the profiles, it looks up each such email
    once, in the order sent, and all of them unless it answers 500. *)
Theorem update_config_calls_only_sent_emails (req : ConfigRequest)
    (w : World (St * list Call)) (kept : list pystr) :
  Said.Kept (receiver_emails req) kept ->
  exists new,
    calls (update_config (PM := traced PM) req w).1 = calls w ++ new
    /\ Forall (fun c => exists raw e,
                 raw ∈ receiver_emails req
                 /\ Said.StrippedOf raw e /\ e <> []
                 /\ (c = GetProfile e
                     \/ (exists name rest,
                           c = CreateDefault e name
                           /\ (e = name \/ e = name ++ str "@" ++ rest)
                           /\ 64%N ∉ name)
                     \/ c = UpdateProfile e (build_update_data req)))
              new
    /\ (AllActive ∉ new)
    /\ (omap looked_up new) `prefix_of` kept
    /\ (status (update_config (PM := traced PM) req w).2 <> 500%nat ->
        omap looked_up new = kept).
Proof.
  intros Hkept. pose proof Hkept as ->%SaidFacts.kept_unique.
  destruct (TraceFacts.update_config_calls PM req w)
    as (es & blks & Hc & Hall & Hpre & Hfull).
  destruct (blocks_of_valid_emails req _ es blks Hall Hpre) as [Hcalls Hlook].
  exists (concat blks). split; [exact Hc|].
  rewrite Hlook. split; [|split; [|by split]].
  - eapply Forall_impl; [exact Hcalls|].
    intros c (e & He & Hcall).
    apply (SaidFacts.kept_elem _ _ e Hkept) in He
      as (Hne & raw & Hraw & Hst).
    exists raw, e. repeat (split; [done|]).
    destruct Hcall as [-> | [-> | ->]]; [by left | | by do 2 right].
    right; left. exists (PyStr.split_head 64%N e).
    destruct (PyStrFacts.split_head_decompose 64%N e) as [Heq|[rest Heq]].
    + exists []. split; [done|]. split; [by left|].
      apply PyStrFacts.split_head_no_sep.
    + exists rest. split; [done|]. split; [by right|].
      apply PyStrFacts.split_head_no_sep.
  - intros Hin. rewrite Forall_forall in Hcalls.
    destruct (Hcalls _ Hin) as (e & _ & [?|[?|?]]); discriminate.
Qed.

(** X15: [GET /api/profiles/<email>] makes one call, the lookup of the
    email as it is given, not stripped; [GET /api/config] and [GET
    /api/profiles] make one call each, the listing of the active profiles;
    [GET /api/health] makes none.  This holds whether the call returns or
    raises. *)
Theorem read_handlers_calls (w : World (St * list Call)) :
  (forall email,
     calls (get_profile (PM := traced PM) email w).1
     = calls w ++ [GetProfile email])
  /\ calls (get_config (PM := traced PM) w).1 = calls w ++ [AllActive]
  /\ calls (get_profiles (PM := traced PM) w).1 = calls w ++ [AllActive]
  /\ calls (health_check (D := D) w).1 = calls w.
Proof.
  split; [|split; [|split]].
  - intros email. unfold get_profile, try_except, get_profile_body, bind, call.
    cbn [Api.get_user_profile traced]. unfold record.
    by destruct (Api.get_user_profile email (db w).1) as [s [e|[p|]]].
  - unfold get_config, try_except, get_config_body, bind, call, read_config.
    cbn [Api.get_all_active_profiles traced]. unfold record.
    by destruct (Api.get_all_active_profiles (db w).1) as [s [e|ps]].
  - unfold get_profiles, try_except, get_profiles_body, bind, call.
    cbn [Api.get_all_active_profiles traced]. unfold record.
    by destruct (Api.get_all_active_profiles (db w).1) as [s [e|ps]].
  - reflexivity.
Qed.

End CallsMade.

(* ===================================================================== *)
(** ** [POST /api/config] then [GET /api/profiles/<email>]                *)
(* ===================================================================== *)

Section PostThenGet.
Variable blank : Profile.

(** X16: over the profile table, after [POST /api/config] the profile of
    every email sent that is not empty or white space can be read back:
    [GET /api/profiles/<email>] with the email stripped of the white space
    around it answers 200 with a profile that the answer of the [POST]
    lists, and changes nothing. *)
Theorem get_profile_after_update_config (req : ConfigRequest)
    (w : World (gmap pystr Profile)) (raw e : pystr) :
  raw ∈ receiver_emails req -> Said.StrippedOf raw e -> e <> [] ->
  exists p,
    p ∈ profiles_of (update_config (PM := table blank) req w).2
    /\ get_profile (PM := table blank) e
         (update_config (PM := table blank) req w).1
       = ((update_config (PM := table blank) req w).1,
          {| status := 200; body := ProfileBody p |}).
Proof.
  intros Hraw Hst Hs. apply PyStrFacts.stripped_unique in Hst. subst e.
  destruct (StoreFacts.submitted_profile blank req w raw Hraw Hs) as [Hrow Hin].
  eexists. split; [exact Hin|].
  unfold get_profile, try_except, get_profile_body, bind, call.
  cbn [Api.get_user_profile table]. unfold Store.get_user_profile.
  rewrite Hrow. cbn. by rewrite ApiFacts.with_db_id.
Qed.

End PostThenGet.

(* ===================================================================== *)
(** ** The further properties on the sample requests                      *)
(* ===================================================================== *)

Section MoreOnSamples.
Import Samples.

Lemma locations_passed_are_stripped_witness :
  ud_preferred_locations (build_update_data req_padded_unicode)
  = Some [str "NYC"]
  /\ Said.Kept (locations req_padded_unicode) [str "NYC"]
  /\ Forall (fun l => l <> [] /\ Said.StrippedOf l l
                      /\ exists loc, loc ∈ locations req_padded_unicode
                                     /\ Said.StrippedOf loc l) [str "NYC"]
  /\ Said.Kept [str "NYC"] [str "NYC"].
Proof.
  assert (Hud : ud_preferred_locations (build_update_data req_padded_unicode)
                = Some [str "NYC"]) by reflexivity.
  split; [exact Hud|].
  exact (locations_passed_are_stripped req_padded_unicode [str "NYC"] Hud).
Defined.

Lemma profiles_at_most_valid_emails_witness :
  Said.Kept (receiver_emails req_padded_unicode) [str "a@x.com"]
  /\ (length (profiles_of
                (update_config (PM := table blank) req_padded_unicode
                   analyst_world).2) <= 1)%nat.
Proof.
  assert (Hkept : Said.Kept (receiver_emails req_padded_unicode)
                    [str "a@x.com"])
    by (apply SaidFacts.kept_iff; reflexivity).
  split; [exact Hkept|].
  exact (profiles_at_most_valid_emails (PM := table blank)
           req_padded_unicode analyst_world [str "a@x.com"] Hkept).
Defined.

Lemma salary_bounds_ordered_witness :
  Forall (fun r => exists lo hi, range_min r = Some lo
                                 /\ range_max r = Some hi /\ lo <= hi)
         (salary_ranges req_salary)
  /\ ud_expected_salary_min (build_update_data req_salary) = Some 5
  /\ ud_expected_salary_max (build_update_data req_salary) = Some 20
  /\ 5 <= 20.
Proof.
  assert (Hall : Forall (fun r => exists lo hi, range_min r = Some lo
                                   /\ range_max r = Some hi /\ lo <= hi)
                        (salary_ranges req_salary)).
  { repeat constructor.
    - exists 5, 10. split; [reflexivity|]. split; [reflexivity|]. lia.
    - exists 8, 20. split; [reflexivity|]. split; [reflexivity|]. lia. }
  split; [exact Hall|]. split; [reflexivity|]. split; [reflexivity|].
  exact (salary_bounds_ordered req_salary 5 20 Hall eq_refl eq_refl).
Defined.

Lemma salary_bounds_order_independent_witness :
  salary_ranges req_salary ≡ₚ salary_ranges req_salary_swapped
  /\ ud_expected_salary_min (build_update_data req_salary)
     = ud_expected_salary_min (build_update_data req_salary_swapped)
  /\ ud_expected_salary_max (build_update_data req_salary)
     = ud_expected_salary_max (build_update_data req_salary_swapped).
Proof.
  assert (Hp : salary_ranges req_salary ≡ₚ salary_ranges req_salary_swapped)
    by apply perm_swap.
  split; [exact Hp|].
  exact (salary_bounds_order_independent req_salary req_salary_swapped Hp).
Defined.

Lemma emails_are_used_stripped_witness :
  Said.Kept (receiver_emails req_padded_unicode) [str "a@x.com"]
  /\ [str "a@x.com"] <> []
  /\ update_config (PM := table blank)
       (with_receiver_emails [str "a@x.com"] req_padded_unicode)
       analyst_world
     = update_config (PM := table blank) req_padded_unicode analyst_world.
Proof.
  assert (Hkept : Said.Kept (receiver_emails req_padded_unicode)
                    [str "a@x.com"])
    by (apply SaidFacts.kept_iff; reflexivity).
  assert (Hne : [str "a@x.com"] <> []) by discriminate.
  repeat (split; [assumption|]).
  exact (emails_are_used_stripped (PM := table blank) req_padded_unicode
           analyst_world [str "a@x.com"] Hkept Hne).
Defined.

Lemma update_config_calls_per_email_witness :
  Said.Kept (receiver_emails req_padded_emails) [str "a@x.com"; str "b@x.com"]
  /\ exists es blks,
       Trace.calls
         (update_config (PM := Trace.traced (table blank)) req_padded_emails
            (world_of ({[ str "a@x.com" := analyst ]}, []))).1
       = concat blks
       /\ Forall2 (fun e blk => blk ∈ Trace.turn_blocks req_padded_emails e)
            es blks
       /\ es = [str "a@x.com"; str "b@x.com"].
Proof.
  assert (Hkept : Said.Kept (receiver_emails req_padded_emails)
                    [str "a@x.com"; str "b@x.com"])
    by (apply SaidFacts.kept_iff; reflexivity).
  split; [exact Hkept|].
  destruct (update_config_calls_per_email (table blank) req_padded_emails
              (world_of ({[ str "a@x.com" := analyst ]}, [])) _ Hkept)
    as (_ & _ & es & blks & Hcalls & Hblks & _ & Hall).
  exists es, blks. split; [exact Hcalls|]. split; [exact Hblks|].
  apply Hall. vm_compute. discriminate.
Defined.

Lemma update_config_calls_only_sent_emails_witness :
  Said.Kept (receiver_emails req_padded_unicode) [str "a@x.com"]
  /\ exists new,
       Trace.calls
         (update_config (PM := Trace.traced (table blank)) req_padded_unicode
            (world_of (∅, []))).1 = new
       /\ (Trace.AllActive ∉ new)
       /\ omap Trace.looked_up new = [str "a@x.com"].
Proof.
  assert (Hkept : Said.Kept (receiver_emails req_padded_unicode)
                    [str "a@x.com"])
    by (apply SaidFacts.kept_iff; reflexivity).
  split; [exact Hkept|].
  destruct (update_config_calls_only_sent_emails (table blank)
              req_padded_unicode (world_of (∅, [])) _ Hkept)
    as (new & Hcalls & _ & Hnot & _ & Hall).
  exists new. split; [exact Hcalls|]. split; [exact Hnot|].
  apply Hall. vm_compute. discriminate.
Defined.

Lemma get_profile_after_update_config_witness :
  ([160]%N ++ str "a@x.com" ++ [9]%N) ∈ receiver_emails req_padded_unicode
  /\ Said.StrippedOf ([160]%N ++ str "a@x.com" ++ [9]%N) (str "a@x.com")
  /\ str "a@x.com" <> []
  /\ exists p,
       p ∈ profiles_of
             (update_config (PM := table blank) req_padded_unicode
                empty_world).2
       /\ get_profile (PM := table blank) (str "a@x.com")
            (update_config (PM := table blank) req_padded_unicode
               empty_world).1
          = ((update_config (PM := table blank) req_padded_unicode
                empty_world).1,
             {| status := 200; body := ProfileBody p |}).
Proof.
  assert (Hin : ([160]%N ++ str "a@x.com" ++ [9]%N)
                ∈ receiver_emails req_padded_unicode)
    by apply list_elem_of_here.
  assert (Hs : Said.StrippedOf ([160]%N ++ str "a@x.com" ++ [9]%N)
                 (str "a@x.com"))
    by (apply PyStrFacts.stripped_iff; reflexivity).
  assert (Hne : str "a@x.com" <> []) by discriminate.
  repeat (split; [assumption|]).
  exact (get_profile_after_update_config blank req_padded_unicode empty_world
           _ (str "a@x.com") Hin Hs Hne).
Defined.

(** The calls of a [POST] with padded emails on the sample table: the
    known email is looked up and updated, the new one is also created. *)
Example calls_of_padded_emails :
  Trace.calls
    (update_config (PM := Trace.traced (table blank)) req_padded_emails
       (world_of ({[ (str "a@x.com") := analyst ]}, []))).1
  = [ Trace.GetProfile (str "a@x.com");
      Trace.UpdateProfile (str "a@x.com") (build_update_data req_padded_emails);
      Trace.GetProfile (str "b@x.com");
      Trace.CreateDefault (str "b@x.com") (str "b");
      Trace.UpdateProfile (str "b@x.com") (build_update_data req_padded_emails) ].
Proof. vm_compute. reflexivity. Qed.

(** A padded email is not found by [GET /api/profiles/<email>]. *)
Example get_profile_padded_email :
  (get_profile (PM := table blank) (str " a@x.com") analyst_world).2
  = err 404 "Profile not found".
Proof. vm_compute. reflexivity. Qed.

End MoreOnSamples.
